(** * GNEGeometry: cached polyline geometry of the network editor

    A shallow embedding of [src/netedit/GNEGeometry.cpp].  A C++ [double] is
    read as a real number (no rounding, no NaN), an [int] as an integer
    together with its 32-bit range where a conversion can leave it, a
    [PositionVector] as a list of positions and a [std::map] as a finite
    map.  [angleLookup], whose index turns on the rounding of its
    argument, is also given on binary64 numbers ([angleLookup_double]).
    The methods of [PositionVector], [Position], [RGBColor] and of the
    network classes live in other directories of the project; the ones
    the code calls are gathered in interfaces ([Class]es) and stay
    abstract. *)

From Corelib Require Import PrimFloat FloatOps SpecFloat.
From Stdlib Require Import Reals Lra Lia ZArith List Bool.
From stdpp Require Import gmap.
Import ListNotations.

Open Scope R_scope.

(* ================================================================== *)
(** * Collaborators declared outside the file                          *)
(* ================================================================== *)

(** [a != b] on doubles. *)
Definition Rneb (a b : R) : bool := if Req_dec_T a b then false else true.

(** utils/common/StdDefs.h: the tolerance used for positions. *)
Class StdDefs := { POSITION_EPS : R }.

Module Position.

(** utils/geom/Position.h: three coordinates. *)
Record t := mk { x : R; y : R; z : R }.

(** [operator==] / [operator!=] compare the coordinates. *)
Definition eq_dec (p q : t) : {p = q} + {p <> q}.
Proof. decide equality; apply Req_dec_T. Defined.

(** Modelled from the spec: [Position::distanceTo2D] is declared in
    utils/geom/Position.h; the spec gives it as the Euclidean 2D
    distance. *)
Definition distanceTo2D (p q : t) : R :=
  sqrt ((x p - x q) * (x p - x q) + (y p - y q) * (y p - y q)).

(** The value a default-constructed [Position] has; it only fills the
    out-of-range case of the list accessor below, which the code never
    reaches. *)
Definition origin : t := mk 0 0 0.

End Position.

Module PositionVector.

Definition t := list Position.t.

(** [shape[i]] for an index inside the vector. *)
Definition at_ (shape : t) (i : nat) : Position.t := nth i shape Position.origin.

(** The path utilities of utils/geom/PositionVector.h which the file
    calls, and [Position::INVALID]. *)
Class Ops := {
  INVALID : Position.t;
  length : t -> R;
  length2D : t -> R;
  area : t -> R;
  positionAtOffset : t -> R -> R -> Position.t;
  rotationDegreeAtOffset : t -> R -> R;
  move2side : t -> R -> t;
  getSubpart2D : t -> R -> R -> t;
  push_front_noDoublePos : t -> Position.t -> t;
  push_back_noDoublePos : t -> Position.t -> t;
  scaleRelative : t -> R -> t;
  closePolygon : t -> t;
  resample : t -> R -> bool -> t
}.

End PositionVector.

(* ================================================================== *)
(** * GNEGeometry: free functions                                      *)
(* ================================================================== *)

(** [atan2] of the C library on real numbers: the angle of the point
    [(x, y)], in (-PI, PI]. *)
Definition atan2 (y x : R) : R :=
  if Rlt_dec 0 x then atan (y / x)
  else if Rlt_dec x 0 then
    (if Rle_dec 0 y then atan (y / x) + PI else atan (y / x) - PI)
  else if Rlt_dec 0 y then PI / 2
  else if Rlt_dec y 0 then - (PI / 2)
  else 0.

(** [GNEGeometry::calculateRotation] *)
Definition calculateRotation (first second : Position.t) : R :=
  atan2 (Position.x second - Position.x first)
        (Position.y first - Position.y second) * 180 / PI.

(** [GNEGeometry::calculateLength] *)
Definition calculateLength (first second : Position.t) : R :=
  Position.distanceTo2D first second.

(* ================================================================== *)
(** * GNEGeometry::Geometry                                            *)
(* ================================================================== *)

Module Geometry.

Record t := mk {
  myShape : PositionVector.t;
  myShapeRotations : list R;
  myShapeLengths : list R
}.

(** [Geometry()] *)
Definition empty : t := mk [] [] [].

(** [clearGeometry] *)
Definition clearGeometry (g : t) : t := mk [] [] [].

(** One round of the loop of [calculateShapeRotationsAndLengths]. *)
Definition pushSegment (g : t) (i : nat) : t :=
  mk (myShape g)
     (myShapeRotations g ++
        [calculateRotation (PositionVector.at_ (myShape g) i)
                           (PositionVector.at_ (myShape g) (i + 1))])
     (myShapeLengths g ++
        [calculateLength (PositionVector.at_ (myShape g) i)
                         (PositionVector.at_ (myShape g) (i + 1))]).

(** [calculateShapeRotationsAndLengths] *)
Definition calculateShapeRotationsAndLengths (g : t) : t :=
  let g := mk (myShape g) [] [] in
  let numberOfSegments := (Z.of_nat (List.length (myShape g)) - 1)%Z in
  if (0 <=? numberOfSegments)%Z
  then fold_left pushSegment (seq 0 (Z.to_nat numberOfSegments)) g
  else g.

(** [Geometry(shape)] *)
Definition fromShape (shape : PositionVector.t) : t :=
  calculateShapeRotationsAndLengths (mk shape [] []).

(** [Geometry(shape, shapeRotations, shapeLengths)] *)
Definition fromParts (shape : PositionVector.t)
    (shapeRotations shapeLengths : list R) : t :=
  mk shape shapeRotations shapeLengths.

(** [updateGeometry(shape)] *)
Definition updateGeometry (g : t) (shape : PositionVector.t) : t :=
  let g := clearGeometry g in
  let g := mk shape (myShapeRotations g) (myShapeLengths g) in
  calculateShapeRotationsAndLengths g.

Section WithPath.
Context `{PositionVector.Ops} `{StdDefs}.

(** [updateGeometry(shape, posOverShape, lateralOffset)] *)
Definition updateGeometry_pos (g : t) (shape : PositionVector.t)
    (posOverShape lateralOffset : R) : t :=
  let g := clearGeometry g in
  let shapeLength := PositionVector.length shape in
  if Rlt_dec posOverShape 0 then
    mk (myShape g ++ [PositionVector.positionAtOffset shape 0 lateralOffset])
       (myShapeRotations g ++ [PositionVector.rotationDegreeAtOffset shape 0])
       (myShapeLengths g)
  else if Rgt_dec posOverShape shapeLength then
    mk (myShape g ++ [PositionVector.positionAtOffset shape shapeLength lateralOffset])
       (myShapeRotations g ++ [PositionVector.rotationDegreeAtOffset shape shapeLength])
       (myShapeLengths g)
  else
    mk (myShape g ++ [PositionVector.positionAtOffset shape posOverShape lateralOffset])
       (myShapeRotations g ++ [PositionVector.rotationDegreeAtOffset shape posOverShape])
       (myShapeLengths g).

(** The clamping phase of
    [updateGeometry(shape, starPosOverShape, endPosOverShape, lateralOffset)],
    from "set initial beginTrim value" to "check sub-vector": the two
    offsets as they are handed to [getSubpart2D]. *)
Definition clampStartEnd (shapeLength starPosOverShape endPosOverShape : R)
    : R * R :=
  (* set initial beginTrim value *)
  let endPosOverShape :=
    if Rlt_dec starPosOverShape 0 then 0 else endPosOverShape in
  (* set initial endtrim value *)
  let endPosOverShape :=
    if Rlt_dec starPosOverShape 0 then shapeLength else endPosOverShape in
  (* check maximum beginTrim *)
  let endPosOverShape :=
    if Rgt_dec starPosOverShape (shapeLength - POSITION_EPS)
    then shapeLength - POSITION_EPS else endPosOverShape in
  (* check maximum endTrim *)
  let endPosOverShape :=
    if Rgt_dec endPosOverShape shapeLength then shapeLength else endPosOverShape in
  (* check sub-vector *)
  let endPosOverShape :=
    if Rle_dec endPosOverShape starPosOverShape
    then endPosOverShape + POSITION_EPS else endPosOverShape in
  (starPosOverShape, endPosOverShape).

(** [updateGeometry(shape, starPosOverShape, endPosOverShape, lateralOffset)] *)
Definition updateGeometry_startEnd (g : t) (shape : PositionVector.t)
    (starPosOverShape endPosOverShape lateralOffset : R) : t :=
  let g := clearGeometry g in
  let g := mk shape (myShapeRotations g) (myShapeLengths g) in
  let g := mk (PositionVector.move2side (myShape g) lateralOffset)
              (myShapeRotations g) (myShapeLengths g) in
  let shapeLength := PositionVector.length2D (myShape g) in
  let '(starPosOverShape, endPosOverShape) :=
    clampStartEnd shapeLength starPosOverShape endPosOverShape in
  let g := mk (PositionVector.getSubpart2D (myShape g) starPosOverShape endPosOverShape)
              (myShapeRotations g) (myShapeLengths g) in
  calculateShapeRotationsAndLengths g.

(** The clamping phase of the variant with trim positions and extra
    end points (the body of its [if], up to "check sub-vector"). *)
Definition clampTrim (shapeLength beginTrimPosition endTrimPosition : R)
    : R * R :=
  let beginTrimPosition :=
    if Rlt_dec beginTrimPosition 0 then 0 else beginTrimPosition in
  let endTrimPosition :=
    if Rlt_dec endTrimPosition 0 then shapeLength else endTrimPosition in
  let beginTrimPosition :=
    if Rgt_dec beginTrimPosition (shapeLength - POSITION_EPS)
    then shapeLength - POSITION_EPS else beginTrimPosition in
  let endTrimPosition :=
    if Rgt_dec endTrimPosition shapeLength then shapeLength else endTrimPosition in
  let endTrimPosition :=
    if Rle_dec endTrimPosition beginTrimPosition
    then endTrimPosition + POSITION_EPS else endTrimPosition in
  (beginTrimPosition, endTrimPosition).

(** [updateGeometry(shape, beginTrimPosition, endTrimPosition,
                    extraFirstPosition, extraLastPosition)] *)
Definition updateGeometry_trim (g : t) (shape : PositionVector.t)
    (beginTrimPosition endTrimPosition : R)
    (extraFirstPosition extraLastPosition : Position.t) : t :=
  let g := clearGeometry g in
  let g := mk shape (myShapeRotations g) (myShapeLengths g) in
  let g :=
    if orb (Rneb beginTrimPosition (-1)) (Rneb endTrimPosition (-1))
    then
      let shapeLength := PositionVector.length2D (myShape g) in
      let '(beginTrimPosition, endTrimPosition) :=
        clampTrim shapeLength beginTrimPosition endTrimPosition in
      let myShape1 :=
        PositionVector.getSubpart2D (myShape g) beginTrimPosition endTrimPosition in
      let myShape2 :=
        if Position.eq_dec extraFirstPosition PositionVector.INVALID
        then myShape1
        else PositionVector.push_front_noDoublePos myShape1 extraFirstPosition in
      let myShape3 :=
        if Position.eq_dec extraLastPosition PositionVector.INVALID
        then myShape2
        else PositionVector.push_back_noDoublePos myShape2 extraLastPosition in
      mk myShape3 (myShapeRotations g) (myShapeLengths g)
    else g in
  calculateShapeRotationsAndLengths g.

(** [updateSinglePosGeometry] *)
Definition updateSinglePosGeometry (g : t) (position : Position.t)
    (rotation : R) : t :=
  let g := clearGeometry g in
  mk (myShape g ++ [position]) (myShapeRotations g ++ [rotation])
     (myShapeLengths g).

(** [scaleGeometry] *)
Definition scaleGeometry (g : t) (scale : R) : t :=
  mk (PositionVector.scaleRelative (myShape g) scale)
     (myShapeRotations g)
     (map (fun shapeLength => shapeLength * scale) (myShapeLengths g)).

End WithPath.

End Geometry.

(* ================================================================== *)
(** * GNEGeometry::DottedGeometryColor                                 *)
(* ================================================================== *)

Module RGBColor.

(** utils/common/RGBColor.h: four [unsigned char] channels. *)
Record t := mk { red : Z; green : Z; blue : Z; alpha : Z }.

(** The named colours and the brightness change of RGBColor.cpp. *)
Class Ops := {
  GREEN : t;
  MAGENTA : t;
  BLACK : t;
  changedBrightness : t -> Z -> t
}.

End RGBColor.

Module GUIVisualizationSettings.

(** [GUIVisualizationDottedContourSettings] *)
Record DottedContourSettings := mkDotted {
  segmentWidth : R;
  segmentLength : R;
  firstInspectedColor : RGBColor.t;
  secondInspectedColor : RGBColor.t;
  firstFrontColor : RGBColor.t;
  secondFrontColor : RGBColor.t
}.

(** The part of [GUIVisualizationSettings] which the file reads. *)
Record t := mk { dottedContourSettings : DottedContourSettings }.

End GUIVisualizationSettings.

Module DottedContourType.

(** The enumeration of GNEGeometry.h.  [getColor] names four of its
    values; [OTHER] stands for every other value of the underlying
    integer type. *)
Inductive t := INSPECT | FRONT | GREEN | MAGENTA | OTHER (value : Z).

End DottedContourType.

Module DottedGeometryColor.
Import GUIVisualizationSettings.

Record t := mk {
  mySettings : GUIVisualizationSettings.t;
  myColorFlag : bool
}.

(** [DottedGeometryColor(settings)] *)
Definition create (settings : GUIVisualizationSettings.t) : t := mk settings true.

Section WithColors.
Context `{RGBColor.Ops}.

(** [getColor]: the colour returned and the object after the call. *)
Definition getColor (c : t) (type : DottedContourType.t) : RGBColor.t * t :=
  match type with
  | DottedContourType.INSPECT =>
      if myColorFlag c
      then (firstInspectedColor (dottedContourSettings (mySettings c)),
            mk (mySettings c) false)
      else (secondInspectedColor (dottedContourSettings (mySettings c)),
            mk (mySettings c) true)
  | DottedContourType.FRONT =>
      if myColorFlag c
      then (firstFrontColor (dottedContourSettings (mySettings c)),
            mk (mySettings c) false)
      else (secondFrontColor (dottedContourSettings (mySettings c)),
            mk (mySettings c) true)
  | DottedContourType.GREEN =>
      if myColorFlag c
      then (RGBColor.GREEN, mk (mySettings c) false)
      else (RGBColor.changedBrightness RGBColor.GREEN (-30),
            mk (mySettings c) true)
  | DottedContourType.MAGENTA =>
      if myColorFlag c
      then (RGBColor.MAGENTA, mk (mySettings c) false)
      else (RGBColor.changedBrightness RGBColor.MAGENTA (-30),
            mk (mySettings c) true)
  | DottedContourType.OTHER _ => (RGBColor.BLACK, c)
  end.

End WithColors.

(** [changeColor] *)
Definition changeColor (c : t) : t :=
  if myColorFlag c then mk (mySettings c) false else mk (mySettings c) true.

(** [reset] *)
Definition reset (c : t) : t := mk (mySettings c) true.

End DottedGeometryColor.

(* ================================================================== *)
(** * GNEGeometry::DottedGeometry                                      *)
(* ================================================================== *)

(** [#define MAXIMUM_DOTTEDGEOMETRYLENGTH 500.0] *)
Definition MAXIMUM_DOTTEDGEOMETRYLENGTH : R := 500.

Module DottedGeometry.
Import GUIVisualizationSettings.

Module Segment.

Record t := mk {
  shape : PositionVector.t;
  rotations : list R;
  lengths : list R;
  offset : Z
}.

(** [Segment(newShape)] *)
Definition create (newShape : PositionVector.t) : t := mk newShape [] [] (-1).

(** One round of the inner loop of
    [DottedGeometry::calculateShapeRotationsAndLengths]. *)
Definition pushSegment (segment : t) (i : nat) : t :=
  mk (shape segment)
     (rotations segment ++
        [calculateRotation (PositionVector.at_ (shape segment) i)
                           (PositionVector.at_ (shape segment) (i + 1))])
     (lengths segment ++
        [calculateLength (PositionVector.at_ (shape segment) i)
                         (PositionVector.at_ (shape segment) (i + 1))])
     (offset segment).

(** The body of the outer loop of
    [DottedGeometry::calculateShapeRotationsAndLengths]; the caches
    are appended to, not cleared. *)
Definition calculateRotationsAndLengths (segment : t) : t :=
  let numberOfSegments := (Z.of_nat (List.length (shape segment)) - 1)%Z in
  if (0 <=? numberOfSegments)%Z
  then fold_left pushSegment (seq 0 (Z.to_nat numberOfSegments)) segment
  else segment.

End Segment.

Record t := mk {
  myWidth : R;
  myDottedGeometrySegments : list Segment.t
}.

(** [DottedGeometry::calculateShapeRotationsAndLengths] *)
Definition calculateShapeRotationsAndLengths (d : t) : t :=
  mk (myWidth d) (map Segment.calculateRotationsAndLengths (myDottedGeometrySegments d)).

Section WithPath.
Context `{PositionVector.Ops}.

(** The sampling step of [DottedGeometry(s, shape, closeShape)]:
    the local [segmentLength], "calculate segment length". *)
Definition calculateSegmentLength (s : GUIVisualizationSettings.t)
    (shape : PositionVector.t) : R :=
  let segmentLength := segmentLength (dottedContourSettings s) in
  if Rgt_dec (PositionVector.length2D shape) MAXIMUM_DOTTEDGEOMETRYLENGTH
  then PositionVector.length2D shape / (MAXIMUM_DOTTEDGEOMETRYLENGTH * 0.5)
  else segmentLength.

(** [segment.shape = segment.shape.resample(segmentLength, true)] *)
Definition resampleSegment (segmentLength : R) (segment : Segment.t) : Segment.t :=
  Segment.mk (PositionVector.resample (Segment.shape segment) segmentLength true)
             (Segment.rotations segment) (Segment.lengths segment)
             (Segment.offset segment).

(** The "get shape" loop: one two-point segment per consecutive pair. *)
Definition pairSegments (shape : PositionVector.t) : list Segment.t :=
  map (fun i => Segment.create [PositionVector.at_ shape (i - 1);
                                PositionVector.at_ shape i])
      (seq 1 (List.length shape - 1)).

(** [DottedGeometry(s, shape, closeShape)] *)
Definition fromShape (s : GUIVisualizationSettings.t)
    (shape : PositionVector.t) (closeShape : bool) : t :=
  let d := mk (segmentWidth (dottedContourSettings s)) [] in
  let shape :=
    if closeShape && (2 <? List.length shape)%nat
    then PositionVector.closePolygon shape else shape in
  if (1 <? List.length shape)%nat then
    let d := mk (myWidth d) (myDottedGeometrySegments d ++ pairSegments shape) in
    let segmentLength := calculateSegmentLength s shape in
    let d := mk (myWidth d)
                (map (resampleSegment segmentLength) (myDottedGeometrySegments d)) in
    calculateShapeRotationsAndLengths d
  else d.

End WithPath.

End DottedGeometry.

(* ================================================================== *)
(** * GNEGeometry::Lane2laneConnection                                 *)
(* ================================================================== *)

(** The network objects are known by their addresses. *)
Definition GNELane := positive.
Definition GNEEdge := positive.
Definition GNEJunction := positive.
Definition NBEdge := positive.
Definition NBNode := positive.

(** The accessors of GNELane, GNEEdge, GNEJunction, NBEdge and NBNode which
    [updateLane2laneConnection] calls. *)
Class Network `{PositionVector.Ops} := {
  getParentEdge : GNELane -> GNEEdge;
  getIndex : GNELane -> Z;
  getLaneShape : GNELane -> PositionVector.t;
  getToJunction : GNEEdge -> GNEJunction;
  getLanes : GNEEdge -> list GNELane;
  getNBEdge : GNEEdge -> NBEdge;
  getGNEOutgoingEdges : GNEJunction -> list GNEEdge;
  getNumLanes : NBEdge -> Z;
  getToNode : NBEdge -> NBNode;
  NBEdge_getLaneShape : NBEdge -> Z -> PositionVector.t;
  getTurnDestination : NBEdge -> option NBEdge;
  getShape : NBNode -> PositionVector.t;
  computeSmoothShape :
    NBNode -> PositionVector.t -> PositionVector.t -> Z -> bool -> R -> R ->
    PositionVector.t
}.

Module Lane2laneConnection.

(** [myFromLane] is [None] for the null pointer. *)
Record t := mk {
  myFromLane : option GNELane;
  myConnectionsMap : gmap GNELane Geometry.t
}.

(** [Lane2laneConnection(fromLane)] *)
Definition create (fromLane : GNELane) : t := mk (Some fromLane) ∅.

(** [Lane2laneConnection()] *)
Definition createEmpty : t := mk None ∅.

(** [exist] *)
Definition exist (c : t) (toLane : GNELane) : bool :=
  match myConnectionsMap c !! toLane with
  | Some _ => true
  | None => false
  end.

(** [getLane2laneGeometry]: [std::map::at] throws on a missing key. *)
Definition getLane2laneGeometry (c : t) (toLane : GNELane) : option Geometry.t :=
  myConnectionsMap c !! toLane.

Section WithNetwork.
Context `{Network}.

(** The shape computed for one outgoing lane. *)
Definition connectionShape (fromLane outgoingLane : GNELane) : PositionVector.t :=
  let numPoints := 5%Z in
  let maximumLanes := 10%Z in
  let NBEdgeFrom := getNBEdge (getParentEdge fromLane) in
  let NBEdgeTo := getNBEdge (getParentEdge outgoingLane) in
  if (getNumLanes NBEdgeFrom <=? maximumLanes)%Z &&
     (if Rgt_dec (PositionVector.area (getShape (getToNode NBEdgeFrom))) 4
      then true else false)
  then
    computeSmoothShape (getToNode NBEdgeFrom)
      (NBEdge_getLaneShape NBEdgeFrom (getIndex fromLane))
      (NBEdge_getLaneShape NBEdgeTo (getIndex outgoingLane))
      numPoints
      (bool_decide (getTurnDestination NBEdgeFrom = Some NBEdgeTo))
      (IZR numPoints * IZR (getNumLanes NBEdgeFrom))
      (IZR numPoints * IZR (getNumLanes NBEdgeTo))
  else
    [List.last (getLaneShape fromLane) Position.origin;
     List.hd Position.origin (getLaneShape outgoingLane)].

(** [myConnectionsMap[outgoingLane].updateGeometry(shape)]: the
    subscript creates an empty geometry for a new key. *)
Definition updateEntry (fromLane : GNELane)
    (m : gmap GNELane Geometry.t) (outgoingLane : GNELane)
    : gmap GNELane Geometry.t :=
  <[outgoingLane :=
      Geometry.updateGeometry (default Geometry.empty (m !! outgoingLane))
        (connectionShape fromLane outgoingLane)]> m.

(** [updateLane2laneConnection]; [None] when [myFromLane] is null. *)
Definition updateLane2laneConnection (c : t) : option t :=
  match myFromLane c with
  | None => None
  | Some fromLane =>
      let m : gmap GNELane Geometry.t := ∅ in
      Some (mk (Some fromLane)
        (fold_left
           (fun m outgoingEdge =>
              fold_left (updateEntry fromLane) (getLanes outgoingEdge) m)
           (getGNEOutgoingEdges (getToJunction (getParentEdge fromLane)))
           m))
  end.

End WithNetwork.

End Lane2laneConnection.

(* ================================================================== *)
(** * The circle cache and [angleLookup]                               *)
(* ================================================================== *)

(** [#define CIRCLE_RESOLUTION (double)10] *)
Definition CIRCLE_RESOLUTION : R := 10.

(** The least and the greatest value of a 32-bit [int]. *)
Definition INT_MIN : Z := (- 2 ^ 31)%Z.
Definition INT_MAX : Z := (2 ^ 31 - 1)%Z.

(** [floor] of the C library. *)
Definition floor (d : R) : R := IZR (Int_part d).

(** The conversion [(int)d]: the fraction is dropped; a value outside the
    range of [int] has no defined result. *)
Definition double_to_int (d : R) : option Z :=
  let v := if Rle_dec 0 d then Int_part d else (- Int_part (- d))%Z in
  if (INT_MIN <=? v)%Z && (v <=? INT_MAX)%Z then Some v else None.

(** [a % b] on [int]: the remainder has the sign of [a]; undefined for a
    zero divisor and where the quotient overflows. *)
Definition int_rem (a b : Z) : option Z :=
  if (b =? 0)%Z || ((a =? INT_MIN)%Z && (b =? -1)%Z) then None
  else Some (Z.rem a b).

(** [DEG2RAD] of utils/geom/GeomHelper.h *)
Definition DEG2RAD (d : R) : R := d * PI / 180.

(** The first block of [getVertexCircleAroundPosition]: the table is
    filled on the first call only, for [i] from 0 to
    [(int)(360 * CIRCLE_RESOLUTION)], which is 3600. *)
Definition fillCircleCoords (myCircleCoords : PositionVector.t) : PositionVector.t :=
  if (List.length myCircleCoords =? 0)%nat then
    fold_left
      (fun coords i =>
         let x := sin (DEG2RAD (INR i / CIRCLE_RESOLUTION)) in
         let y := cos (DEG2RAD (INR i / CIRCLE_RESOLUTION)) in
         coords ++ [Position.mk x y 0])
      (seq 0 (Z.to_nat (360 * 10) + 1)) myCircleCoords
  else myCircleCoords.

(** [angleLookup], reading the static table [myCircleCoords]; the
    arithmetic is the one of real numbers. *)
Definition angleLookup (myCircleCoords : PositionVector.t) (angleDeg : R) : option Z :=
  let numCoords := (Z.of_nat (List.length myCircleCoords) - 1)%Z in
  match double_to_int (floor (angleDeg * CIRCLE_RESOLUTION + 0.5)) with
  | None => None
  | Some v =>
      match int_rem v numCoords with
      | None => None
      | Some index =>
          let index := if (index <? 0)%Z then (index + numCoords)%Z else index in
          Some index
      end
  end.

(** ** The lookup on binary64 numbers *)

Module Double.

(** A C++ [double]: a binary64 number, with the operations of the
    machine (round to nearest, ties to even). *)
Definition t : Set := float.

(** [floor] of the C library, as the integer that the result denotes;
    nothing for an infinity and for a NaN.  A finite double is
    [m * 2 ^ e] up to its sign, and the shift rounds towards minus
    infinity. *)
Definition floor (d : t) : option Z :=
  match Prim2SF d with
  | S754_zero _ => Some 0%Z
  | S754_finite sign m e => Some (Z.shiftl (if sign then Z.neg m else Z.pos m) e)
  | S754_infinity _ => None
  | S754_nan => None
  end.

(** [(int)(floor(d))]: a value outside the range of [int] has no defined
    result. *)
Definition floor_to_int (d : t) : option Z :=
  match floor d with
  | Some v => if (INT_MIN <=? v)%Z && (v <=? INT_MAX)%Z then Some v else None
  | None => None
  end.

(** The double of a whole number (exact below 2 ^ 53). *)
Fixpoint of_positive (p : positive) : t :=
  match p with
  | xH => 1%float
  | xO p => (2 * of_positive p)%float
  | xI p => (2 * of_positive p + 1)%float
  end.

Definition of_Z (k : Z) : t :=
  match k with
  | Z0 => 0%float
  | Zpos p => of_positive p
  | Zneg p => (- of_positive p)%float
  end.

End Double.

(** [angleLookup] on doubles; [CIRCLE_RESOLUTION] is the double 10. *)
Definition angleLookup_double (myCircleCoords : PositionVector.t)
    (angleDeg : Double.t) : option Z :=
  let numCoords := (Z.of_nat (List.length myCircleCoords) - 1)%Z in
  match Double.floor_to_int (angleDeg * 10 + 0.5)%float with
  | None => None
  | Some v =>
      match int_rem v numCoords with
      | None => None
      | Some index =>
          let index := if (index <? 0)%Z then (index + numCoords)%Z else index in
          Some index
      end
  end.

(* ================================================================== *)
(** * GNEGeometry::adjustStartPosGeometricPath                         *)
(* ================================================================== *)

(** [adjustStartPosGeometricPath]: the two positions after the call.  A
    lane pointer is [None] when it is null. *)
Definition adjustStartPosGeometricPath `{Network} `{StdDefs}
    (startPos : R) (startLane : option GNELane)
    (endPos : R) (endLane : option GNELane) : R * R :=
  (* adjust both, if start and end lane are the same *)
  let endPos :=
    match startLane, endLane with
    | Some startLane, Some endLane =>
        if bool_decide (startLane = endLane) &&
           Rneb startPos (-1) && Rneb endPos (-1)
        then if Rge_dec startPos endPos
             then startPos + POSITION_EPS else endPos
        else endPos
    | _, _ => endPos
    end in
  (* adjust startPos *)
  let startPos :=
    match startLane with
    | Some startLane =>
        if Rneb startPos (-1) then
          let startPos :=
            if Rlt_dec startPos POSITION_EPS then POSITION_EPS else startPos in
          if Rgt_dec startPos
               (PositionVector.length (getLaneShape startLane) - POSITION_EPS)
          then PositionVector.length (getLaneShape startLane) - POSITION_EPS
          else startPos
        else startPos
    | None => startPos
    end in
  (* adjust endPos *)
  let endPos :=
    match endLane with
    | Some endLane =>
        if Rneb endPos (-1) then
          let endPos :=
            if Rlt_dec endPos POSITION_EPS then POSITION_EPS else endPos in
          if Rgt_dec endPos
               (PositionVector.length (getLaneShape endLane) - POSITION_EPS)
          then PositionVector.length (getLaneShape endLane) - POSITION_EPS
          else endPos
        else endPos
    | None => endPos
    end in
  (startPos, endPos).

(* ================================================================== *)
(** * The calls into the rendering backend                             *)
(* ================================================================== *)

Module GLHelper.

(** The calls of GLHelper and of OpenGL which the file issues, with
    their arguments; a function that draws returns the list of its calls
    in the order they are made.  The offset of [drawBoxLine] is [None]
    where the call leaves it to the default of the declaration. *)
Inductive call :=
| pushMatrix
| popMatrix
| glTranslated (x y z : R)
| setColor (color : RGBColor.t)
| drawBoxLine (beg : Position.t) (rot visLength width : R) (offset : option R)
| drawTriangleAtEnd (p1 p2 : Position.t) (arg3 arg4 arg5 : R).

End GLHelper.

(** The members of utils/geom and the layers of GUIGlObjectTypes.h which
    the drawing functions use, and the default value that GNEGeometry.h
    declares for the line width of a closed dotted contour. *)
Class DrawOps := {
  angleTo2D : Position.t -> Position.t -> R;
  distanceSquaredTo2D : Position.t -> Position.t -> R;
  positionAtOffset2D : PositionVector.t -> R -> Position.t;
  GLO_DOTTEDCONTOUR_INSPECTED : R;
  GLO_DOTTEDCONTOUR_FRONT : R;
  defaultLineWidth : R
}.

(** The members of [GUIVisualizationSettings] which [drawParentLine] and
    [drawChildLine] read. *)
Record LineSettings := mkLineSettings {
  drawForPositionSelection : bool;
  drawForRectangleSelection : bool;
  arrowWidth : R;
  arrowLength : R;
  arrowOffset : R
}.

(** [RAD2DEG] of utils/geom/GeomHelper.h *)
Definition RAD2DEG (r : R) : R := r * 180 / PI.

(* ================================================================== *)
(** * GNEGeometry::DottedGeometry: the other constructors and methods   *)
(* ================================================================== *)

Module Dotted.
Import GUIVisualizationSettings.

(** [DottedGeometry()] *)
Definition empty : DottedGeometry.t := DottedGeometry.mk 0 [].

(** [Segment()] *)
Definition emptySegment : DottedGeometry.Segment.t :=
  DottedGeometry.Segment.mk [] [] [] (-1).

(** [segment.offset *= -1] *)
Definition invertSegment (segment : DottedGeometry.Segment.t)
    : DottedGeometry.Segment.t :=
  DottedGeometry.Segment.mk
    (DottedGeometry.Segment.shape segment)
    (DottedGeometry.Segment.rotations segment)
    (DottedGeometry.Segment.lengths segment)
    (DottedGeometry.Segment.offset segment * -1)%Z.

(** [invertOffset] *)
Definition invertOffset (d : DottedGeometry.t) : DottedGeometry.t :=
  DottedGeometry.mk (DottedGeometry.myWidth d)
    (map invertSegment (DottedGeometry.myDottedGeometrySegments d)).

(** [getWidth] *)
Definition getWidth (d : DottedGeometry.t) : R := DottedGeometry.myWidth d.

(** [setWidth] *)
Definition setWidth (d : DottedGeometry.t) (width : R) : DottedGeometry.t :=
  DottedGeometry.mk width (DottedGeometry.myDottedGeometrySegments d).

Section WithPath.
Context `{PositionVector.Ops}.

(** [moveShapeToSide] *)
Definition moveShapeToSide (d : DottedGeometry.t) (value : R) : DottedGeometry.t :=
  DottedGeometry.mk (DottedGeometry.myWidth d)
    (map (fun segment =>
            DottedGeometry.Segment.mk
              (PositionVector.move2side (DottedGeometry.Segment.shape segment) value)
              (DottedGeometry.Segment.rotations segment)
              (DottedGeometry.Segment.lengths segment)
              (DottedGeometry.Segment.offset segment))
         (DottedGeometry.myDottedGeometrySegments d)).

(** [DottedGeometry(s, topDottedGeometry, drawFirstExtrem,
                    botDottedGeometry, drawLastExtrem)] *)
Definition fromExtremes (s : GUIVisualizationSettings.t)
    (topDottedGeometry : DottedGeometry.t) (drawFirstExtrem : bool)
    (botDottedGeometry : DottedGeometry.t) (drawLastExtrem : bool)
    : DottedGeometry.t :=
  let top := DottedGeometry.myDottedGeometrySegments topDottedGeometry in
  let bot := DottedGeometry.myDottedGeometrySegments botDottedGeometry in
  let segments : list DottedGeometry.Segment.t := [] in
  let segments :=
    (* check size of both geometries *)
    if (0 <? List.length top)%nat && (0 <? List.length bot)%nat then
      let topFront := DottedGeometry.Segment.shape (List.hd emptySegment top) in
      let botFront := DottedGeometry.Segment.shape (List.hd emptySegment bot) in
      let topBack := DottedGeometry.Segment.shape (List.last top emptySegment) in
      let botBack := DottedGeometry.Segment.shape (List.last bot emptySegment) in
      let segments :=
        if drawFirstExtrem && (0 <? List.length topFront)%nat &&
           (0 <? List.length botFront)%nat
        then segments ++
               [DottedGeometry.Segment.create
                  [List.hd Position.origin topFront;
                   List.hd Position.origin botFront]]
        else segments in
      if drawLastExtrem && (0 <? List.length topBack)%nat &&
         (0 <? List.length botBack)%nat
      then
        let segments :=
          segments ++
            [DottedGeometry.Segment.create
               [List.last topBack Position.origin;
                List.last botBack Position.origin]] in
        (* invert offset of second dotted geometry *)
        List.removelast segments ++ [invertSegment (List.last segments emptySegment)]
      else segments
    else segments in
  let d := DottedGeometry.mk (segmentWidth (dottedContourSettings s)) segments in
  (* resample *)
  let d :=
    DottedGeometry.mk (DottedGeometry.myWidth d)
      (map (DottedGeometry.resampleSegment (segmentLength (dottedContourSettings s)))
           (DottedGeometry.myDottedGeometrySegments d)) in
  DottedGeometry.calculateShapeRotationsAndLengths d.

(** [updateDottedGeometry(s, shape, closeShape)] *)
Definition updateDottedGeometry_shape (d : DottedGeometry.t)
    (s : GUIVisualizationSettings.t) (shape : PositionVector.t)
    (closeShape : bool) : DottedGeometry.t :=
  (* update settings and width *)
  let d := DottedGeometry.mk (segmentWidth (dottedContourSettings s))
             (DottedGeometry.myDottedGeometrySegments d) in
  (* reset segments *)
  let d := DottedGeometry.mk (DottedGeometry.myWidth d) [] in
  let shape :=
    if closeShape && (2 <? List.length shape)%nat
    then PositionVector.closePolygon shape else shape in
  if (1 <? List.length shape)%nat then
    let d := DottedGeometry.mk (DottedGeometry.myWidth d)
               (DottedGeometry.myDottedGeometrySegments d ++
                  DottedGeometry.pairSegments shape) in
    let d := DottedGeometry.mk (DottedGeometry.myWidth d)
               (map (DottedGeometry.resampleSegment
                       (segmentLength (dottedContourSettings s)))
                    (DottedGeometry.myDottedGeometrySegments d)) in
    DottedGeometry.calculateShapeRotationsAndLengths d
  else d.

End WithPath.

(** [updateDottedGeometry(s, lane)] *)
Definition updateDottedGeometry_lane `{Network} (d : DottedGeometry.t)
    (s : GUIVisualizationSettings.t) (lane : GNELane) : DottedGeometry.t :=
  let d := DottedGeometry.mk (segmentWidth (dottedContourSettings s))
             (DottedGeometry.myDottedGeometrySegments d) in
  let d := DottedGeometry.mk (DottedGeometry.myWidth d) [] in
  let d := DottedGeometry.mk (DottedGeometry.myWidth d)
             (DottedGeometry.myDottedGeometrySegments d ++
                DottedGeometry.pairSegments (getLaneShape lane)) in
  let d := DottedGeometry.mk (DottedGeometry.myWidth d)
             (map (DottedGeometry.resampleSegment
                     (segmentLength (dottedContourSettings s)))
                  (DottedGeometry.myDottedGeometrySegments d)) in
  DottedGeometry.calculateShapeRotationsAndLengths d.

(** One round of the inner loop of [drawDottedGeometry]: the colour is
    taken and set, then the box line is drawn; [None] when
    [rotations.at(i)] or [lengths.at(i)] throws. *)
Definition drawDash `{RGBColor.Ops} (type : DottedContourType.t) (width : R)
    (segment : DottedGeometry.Segment.t)
    (state : option (list GLHelper.call * DottedGeometryColor.t)) (i : nat)
    : option (list GLHelper.call * DottedGeometryColor.t) :=
  match state with
  | None => None
  | Some (calls, dottedGeometryColor) =>
      let '(color, dottedGeometryColor) :=
        DottedGeometryColor.getColor dottedGeometryColor type in
      let calls := calls ++ [GLHelper.setColor color] in
      match DottedGeometry.Segment.rotations segment !! i,
            DottedGeometry.Segment.lengths segment !! i with
      | Some rotation, Some length =>
          Some (calls ++
                  [GLHelper.drawBoxLine
                     (PositionVector.at_ (DottedGeometry.Segment.shape segment) i)
                     rotation length width (Some 0)],
                dottedGeometryColor)
      | _, _ => None
      end
  end.

(** [drawDottedGeometry]: the calls made and the colour object after
    them; [None] when [at] throws. *)
Definition drawDottedGeometry `{RGBColor.Ops} (d : DottedGeometry.t)
    (dottedGeometryColor : DottedGeometryColor.t)
    (type : DottedContourType.t) (customWidth : R)
    : option (list GLHelper.call * DottedGeometryColor.t) :=
  let width :=
    if Rgt_dec customWidth 0 then customWidth else DottedGeometry.myWidth d in
  fold_left
    (fun state segment =>
       fold_left (drawDash type width segment)
         (seq 0 (Z.to_nat
                   (Z.of_nat (List.length (DottedGeometry.Segment.shape segment)) - 1)))
         state)
    (DottedGeometry.myDottedGeometrySegments d)
    (Some ([], dottedGeometryColor)).

End Dotted.

(* ================================================================== *)
(** * GNEGeometry: circles, contours and lines                          *)
(* ================================================================== *)

(** Modelled from the spec: [PositionVector::add(const Position&)] is
    declared in utils/geom/PositionVector.h; the spec has the vertices
    translated by the centre. *)
Definition addPosition (shape : PositionVector.t) (offset : Position.t)
    : PositionVector.t :=
  map (fun p => Position.mk (Position.x p + Position.x offset)
                            (Position.y p + Position.y offset)
                            (Position.z p + Position.z offset)) shape.

(** One round of the loop "obtain all vertices" of
    [getVertexCircleAroundPosition]. *)
Definition pushVertex (myCircleCoords : PositionVector.t) (width inc : R)
    (vertexCircle : option PositionVector.t) (i : nat)
    : option PositionVector.t :=
  match vertexCircle, angleLookup myCircleCoords (INR i * inc) with
  | Some vertexCircle, Some index =>
      let vertex := PositionVector.at_ myCircleCoords (Z.to_nat index) in
      Some (vertexCircle ++
              [Position.mk (Position.x vertex * width)
                           (Position.y vertex * width) 0])
  | _, _ => None
  end.

(** [getVertexCircleAroundPosition]: the static table after the call and
    the vertices; no vertices where [angleLookup] has no result, and for
    [steps = 0], where the increment is a division by zero. *)
Definition getVertexCircleAroundPosition (myCircleCoords : PositionVector.t)
    (pos : Position.t) (width : R) (steps : Z)
    : PositionVector.t * option PositionVector.t :=
  let myCircleCoords := fillCircleCoords myCircleCoords in
  if (steps =? 0)%Z then (myCircleCoords, None)
  else
    let inc := 360 / IZR steps in
    let vertexCircle :=
      fold_left (pushVertex myCircleCoords width inc)
        (seq 0 (Z.to_nat (steps + 1))) (Some []) in
    (myCircleCoords,
     match vertexCircle with
     | Some vertexCircle => Some (addPosition vertexCircle pos)
     | None => None
     end).

Section Drawing.
Context `{PositionVector.Ops} `{RGBColor.Ops} `{DrawOps}.

(** [drawDottedContourClosedShape]: the calls made; [None] when the
    drawing of the dotted geometry throws. *)
Definition drawDottedContourClosedShape (type : DottedContourType.t)
    (s : GUIVisualizationSettings.t) (shape : PositionVector.t)
    (exaggeration lineWidth : R) : option (list GLHelper.call) :=
  if Rgt_dec exaggeration 0 then
    let dottedGeometryColor := DottedGeometryColor.create s in
    let scaledShape := shape in
    let scaledShape := PositionVector.scaleRelative scaledShape exaggeration in
    let dottedGeometry := DottedGeometry.fromShape s scaledShape true in
    let calls := [GLHelper.pushMatrix] in
    let calls :=
      match type with
      | DottedContourType.FRONT =>
          calls ++ [GLHelper.glTranslated 0 0 GLO_DOTTEDCONTOUR_INSPECTED]
      | _ => calls ++ [GLHelper.glTranslated 0 0 GLO_DOTTEDCONTOUR_INSPECTED]
      end in
    match Dotted.drawDottedGeometry dottedGeometry dottedGeometryColor type lineWidth with
    | Some (drawn, _) => Some (calls ++ drawn ++ [GLHelper.popMatrix])
    | None => None
    end
  else Some [].

(** [drawDottedContourCircle]: the static table after the call and the
    calls made. *)
Definition drawDottedContourCircle (myCircleCoords : PositionVector.t)
    (type : DottedContourType.t) (s : GUIVisualizationSettings.t)
    (pos : Position.t) (radius exaggeration : R)
    : PositionVector.t * option (list GLHelper.call) :=
  let steps := if Rlt_dec (radius * exaggeration) 2 then 8%Z else 16%Z in
  let '(myCircleCoords, vertices) :=
    getVertexCircleAroundPosition myCircleCoords pos radius steps in
  (myCircleCoords,
   match vertices with
   | Some vertices =>
       drawDottedContourClosedShape type s vertices exaggeration defaultLineWidth
   | None => None
   end).

(** [drawParentLine] *)
Definition drawParentLine (s : LineSettings) (parent child : Position.t)
    (color : RGBColor.t) (drawEntire : bool) : list GLHelper.call :=
  if negb (drawForPositionSelection s) && negb (drawForRectangleSelection s) then
    let rot := RAD2DEG (angleTo2D parent child) + 90 in
    let distanceSquared := distanceSquaredTo2D parent child in
    let calls := [GLHelper.pushMatrix; GLHelper.glTranslated 0 0 (-1)] in
    let calls :=
      if drawEntire then
        calls ++
        [GLHelper.setColor (RGBColor.changedBrightness color (-50));
         GLHelper.drawBoxLine parent rot (sqrt distanceSquared) 0.05 None;
         GLHelper.glTranslated 0 0 0.1;
         GLHelper.setColor color;
         GLHelper.drawBoxLine parent rot (sqrt distanceSquared) 0.04 None]
      else if Rgt_dec distanceSquared 25 then
        let calls :=
          calls ++
          [GLHelper.setColor (RGBColor.changedBrightness color (-50));
           GLHelper.drawBoxLine parent rot 5 0.05 None;
           GLHelper.glTranslated 0 0 0.1;
           GLHelper.setColor color;
           GLHelper.drawBoxLine parent rot 5 0.04 None] in
        if Rgt_dec distanceSquared 100 then
          let vector := [parent; child] in
          calls ++
          [GLHelper.setColor (RGBColor.changedBrightness color (-50));
           GLHelper.drawTriangleAtEnd parent (positionAtOffset2D vector 5)
             (arrowWidth s) (arrowLength s) (arrowOffset s);
           GLHelper.glTranslated 0 0 0.1;
           GLHelper.setColor color;
           GLHelper.drawTriangleAtEnd parent (positionAtOffset2D vector 5)
             (arrowWidth s - 0.01) (arrowLength s - 0.01) (arrowOffset s - 0.01)]
        else calls
      else calls in
    calls ++ [GLHelper.popMatrix]
  else [].

(** [drawChildLine] *)
Definition drawChildLine (s : LineSettings) (child parent : Position.t)
    (color : RGBColor.t) (drawEntire : bool) : list GLHelper.call :=
  if negb (drawForPositionSelection s) && negb (drawForRectangleSelection s) then
    let distanceSquared := distanceSquaredTo2D child parent in
    let rot := RAD2DEG (angleTo2D child parent) + 90 in
    let calls :=
      [GLHelper.pushMatrix; GLHelper.glTranslated 0 0 (-1); GLHelper.setColor color] in
    let calls :=
      if drawEntire || (if Rlt_dec distanceSquared 25 then true else false) then
        calls ++
        [GLHelper.setColor color;
         GLHelper.setColor (RGBColor.changedBrightness color (-50));
         GLHelper.drawBoxLine child rot (sqrt distanceSquared) 0.05 None;
         GLHelper.glTranslated 0 0 0.1;
         GLHelper.setColor color;
         GLHelper.drawBoxLine child rot (sqrt distanceSquared) 0.04 None]
      else
        let calls :=
          calls ++
          [GLHelper.setColor (RGBColor.changedBrightness color (-50));
           GLHelper.drawBoxLine child rot 5 0.05 None;
           GLHelper.glTranslated 0 0 0.1;
           GLHelper.setColor color;
           GLHelper.drawBoxLine child rot 5 0.04 None] in
        if Rgt_dec distanceSquared 100 then
          let vector := [child; parent] in
          calls ++
          [GLHelper.setColor (RGBColor.changedBrightness color (-50));
           GLHelper.drawTriangleAtEnd child (positionAtOffset2D vector 5)
             (arrowWidth s) (arrowLength s) (arrowOffset s);
           GLHelper.glTranslated 0 0 0.1;
           GLHelper.setColor color;
           GLHelper.drawTriangleAtEnd child (positionAtOffset2D vector 5)
             (arrowWidth s - 0.01) (arrowLength s - 0.01) (arrowOffset s - 0.01)]
        else calls in
    calls ++ [GLHelper.popMatrix]
  else [].

(** [drawDottedContourShape]: the calls made; [None] when the drawing
    of one of the three dotted geometries throws. *)
Definition drawDottedContourShape (type : DottedContourType.t)
    (s : GUIVisualizationSettings.t) (shape : PositionVector.t)
    (width exaggeration : R) (drawFirstExtrem drawLastExtrem : bool)
    (lineWidth : R) : option (list GLHelper.call) :=
  let dottedGeometryColor := DottedGeometryColor.create s in
  (* calculate center dotted geometry *)
  let dottedGeometry := DottedGeometry.fromShape s shape false in
  let topDottedGeometry := dottedGeometry in
  let botDottedGeometry := dottedGeometry in
  (* move geometries top and bot *)
  let topDottedGeometry :=
    Dotted.moveShapeToSide topDottedGeometry (width * exaggeration) in
  let botDottedGeometry :=
    Dotted.moveShapeToSide botDottedGeometry (width * exaggeration * -1) in
  (* invert offset of top dotted geometry *)
  let topDottedGeometry := Dotted.invertOffset topDottedGeometry in
  (* calculate extremes *)
  let extremes :=
    Dotted.fromExtremes s topDottedGeometry drawFirstExtrem
      botDottedGeometry drawLastExtrem in
  let calls := [GLHelper.pushMatrix] in
  let calls :=
    match type with
    | DottedContourType.FRONT =>
        calls ++ [GLHelper.glTranslated 0 0 GLO_DOTTEDCONTOUR_FRONT]
    | _ => calls ++ [GLHelper.glTranslated 0 0 GLO_DOTTEDCONTOUR_INSPECTED]
    end in
  match Dotted.drawDottedGeometry topDottedGeometry dottedGeometryColor type lineWidth with
  | None => None
  | Some (drawnTop, dottedGeometryColor) =>
      let calls := calls ++ drawnTop in
      (* reset color *)
      let dottedGeometryColor := DottedGeometryColor.reset dottedGeometryColor in
      match Dotted.drawDottedGeometry botDottedGeometry dottedGeometryColor type lineWidth with
      | None => None
      | Some (drawnBot, dottedGeometryColor) =>
          let calls := calls ++ drawnBot in
          (* change color *)
          let dottedGeometryColor :=
            DottedGeometryColor.changeColor dottedGeometryColor in
          match Dotted.drawDottedGeometry extremes dottedGeometryColor type lineWidth with
          | None => None
          | Some (drawnExtremes, _) =>
              Some (calls ++ drawnExtremes ++ [GLHelper.popMatrix])
          end
      end
  end.

End Drawing.

(* ================================================================== *)
(** * Properties stated over the embedding                             *)
(* ================================================================== *)

(** The sizes the two caches of a [Geometry] should have. *)
Definition cacheSizes (g : Geometry.t) : Prop :=
  Z.of_nat (List.length (Geometry.myShapeRotations g)) =
    Z.max 0 (Z.of_nat (List.length (Geometry.myShape g)) - 1) /\
  Z.of_nat (List.length (Geometry.myShapeLengths g)) =
    Z.max 0 (Z.of_nat (List.length (Geometry.myShape g)) - 1).

(** Entry [i] of each cache describes the segment from point [i] to point
    [i + 1] of the shape. *)
Definition cacheDescribesSegments (g : Geometry.t) : Prop :=
  forall i : nat, (i + 1 < List.length (Geometry.myShape g))%nat ->
    nth i (Geometry.myShapeRotations g) 0 =
      calculateRotation (PositionVector.at_ (Geometry.myShape g) i)
                        (PositionVector.at_ (Geometry.myShape g) (i + 1)) /\
    nth i (Geometry.myShapeLengths g) 0 =
      calculateLength (PositionVector.at_ (Geometry.myShape g) i)
                      (PositionVector.at_ (Geometry.myShape g) (i + 1)).

(** The invariant of the data model. *)
Definition cacheInvariant (g : Geometry.t) : Prop :=
  cacheSizes g /\ cacheDescribesSegments g.

(** The two colours a contour type alternates between, first the one
    shown while the flag is set; none for a type [getColor] does not
    name. *)
Definition contourColors `{RGBColor.Ops} (s : GUIVisualizationSettings.t)
    (type : DottedContourType.t) : option (RGBColor.t * RGBColor.t) :=
  let d := GUIVisualizationSettings.dottedContourSettings s in
  match type with
  | DottedContourType.INSPECT =>
      Some (GUIVisualizationSettings.firstInspectedColor d,
            GUIVisualizationSettings.secondInspectedColor d)
  | DottedContourType.FRONT =>
      Some (GUIVisualizationSettings.firstFrontColor d,
            GUIVisualizationSettings.secondFrontColor d)
  | DottedContourType.GREEN =>
      Some (RGBColor.GREEN, RGBColor.changedBrightness RGBColor.GREEN (-30))
  | DottedContourType.MAGENTA =>
      Some (RGBColor.MAGENTA, RGBColor.changedBrightness RGBColor.MAGENTA (-30))
  | DottedContourType.OTHER _ => None
  end.

(** The caches of a dotted segment have one entry per pair of
    neighbouring points of its shape. *)
Definition segmentCachesFit (segment : DottedGeometry.Segment.t) : Prop :=
  List.length (DottedGeometry.Segment.rotations segment) =
    (List.length (DottedGeometry.Segment.shape segment) - 1)%nat /\
  List.length (DottedGeometry.Segment.lengths segment) =
    (List.length (DottedGeometry.Segment.shape segment) - 1)%nat.

(** The number of dashes of a dotted geometry: the pairs of neighbouring
    points, summed over its segments. *)
Definition dashCount (d : DottedGeometry.t) : nat :=
  list_sum (map (fun segment =>
                   (List.length (DottedGeometry.Segment.shape segment) - 1)%nat)
                (DottedGeometry.myDottedGeometrySegments d)).

(** The colours set by a list of calls, in their order. *)
Definition dashColors (calls : list GLHelper.call) : list RGBColor.t :=
  flat_map (fun call => match call with
                        | GLHelper.setColor color => [color]
                        | _ => []
                        end) calls.

(** A call is the setting of a colour or a box line of the given width
    and offset 0. *)
Definition dashCall (width : R) (call : GLHelper.call) : Prop :=
  match call with
  | GLHelper.setColor _ => True
  | GLHelper.drawBoxLine _ _ _ w offset => w = width /\ offset = Some 0
  | _ => False
  end.

(** The box lines among a list of calls: their visible lengths. *)
Definition boxLineLengths (calls : list GLHelper.call) : list R :=
  flat_map (fun call => match call with
                        | GLHelper.drawBoxLine _ _ visLength _ _ => [visLength]
                        | _ => []
                        end) calls.

(** The number of triangles among a list of calls. *)
Definition triangleCount (calls : list GLHelper.call) : nat :=
  List.length (List.filter (fun call => match call with
                                   | GLHelper.drawTriangleAtEnd _ _ _ _ _ => true
                                   | _ => false
                                   end) calls).

(** The pushes and pops of the matrix among a list of calls. *)
Definition matrixCalls (calls : list GLHelper.call) : list GLHelper.call :=
  List.filter (fun call => match call with
                      | GLHelper.pushMatrix | GLHelper.popMatrix => true
                      | _ => false
                      end) calls.

(** Whether [getColor] flips the flag for a contour type. *)
Definition flipsColor (type : DottedContourType.t) : bool :=
  match type with
  | DottedContourType.OTHER _ => false
  | _ => true
  end.

(** The colour object after [k] calls of [getColor] for one type. *)
Definition colorAfterDashes (c : DottedGeometryColor.t)
    (type : DottedContourType.t) (k : nat) : DottedGeometryColor.t :=
  DottedGeometryColor.mk (DottedGeometryColor.mySettings c)
    (xorb (DottedGeometryColor.myColorFlag c) (flipsColor type && Nat.odd k)).

(** The colour that call number [k] (from 0) of [getColor] returns: the
    first or the second of the pair of the type, black without a pair. *)
Definition dashColorAt `{RGBColor.Ops} (c : DottedGeometryColor.t)
    (type : DottedContourType.t) (k : nat) : RGBColor.t :=
  match contourColors (DottedGeometryColor.mySettings c) type with
  | Some (first, second) =>
      if DottedGeometryColor.myColorFlag (colorAfterDashes c type k)
      then first else second
  | None => RGBColor.BLACK
  end.

(** What [m] dashes drawn from the colour object [c] leave: two calls
    per dash, the colours in turn, box lines of one width, and the colour
    object after [m] calls. *)
Definition dashesDrawn `{RGBColor.Ops} (c : DottedGeometryColor.t)
    (type : DottedContourType.t) (width : R) (m : nat)
    (calls : list GLHelper.call) (after : DottedGeometryColor.t) : Prop :=
  after = colorAfterDashes c type m /\
  List.length calls = (2 * m)%nat /\
  dashColors calls = map (dashColorAt c type) (seq 0 m) /\
  Forall (dashCall width) calls.

(** Two lookups give the same answer. *)
Definition sameIndex (a b : option Z) : bool :=
  match a, b with
  | Some i, Some j => (i =? j)%Z
  | None, None => true
  | _, _ => false
  end.

(** The tenths of a degree from -360 to 360 degrees, as numbers of
    tenths: the angles of the table within one turn of zero. *)
Definition gridTenths : list Z :=
  map (fun i => (Z.of_nat i - 3600)%Z) (seq 0 (Z.to_nat 7201)).

(* ================================================================== *)
(** * Concrete collaborators, to run the definitions                   *)
(* ================================================================== *)

(** A tolerance of a tenth of a unit. *)
Definition eps01 : StdDefs := {| POSITION_EPS := 0.1 |}.

(** The 2D length of a polyline. *)
Fixpoint polylineLength2D (shape : PositionVector.t) : R :=
  match shape with
  | p :: (q :: _) as rest => Position.distanceTo2D p q + polylineLength2D rest
  | _ => 0
  end.

(** Simple path utilities: the shift, the sub-path, the scaling and the
    resampling keep the shape, the extra points are always added. *)
Definition plainPath : PositionVector.Ops := {|
  PositionVector.INVALID := Position.mk (-1073741824) (-1073741824) (-1073741824);
  PositionVector.length := polylineLength2D;
  PositionVector.length2D := polylineLength2D;
  PositionVector.area := fun _ => 0;
  PositionVector.positionAtOffset := fun shape _ _ => List.hd Position.origin shape;
  PositionVector.rotationDegreeAtOffset := fun _ _ => 0;
  PositionVector.move2side := fun shape _ => shape;
  PositionVector.getSubpart2D := fun shape _ _ => shape;
  PositionVector.push_front_noDoublePos := fun shape p => p :: shape;
  PositionVector.push_back_noDoublePos := fun shape p => shape ++ [p];
  PositionVector.scaleRelative := fun shape _ => shape;
  PositionVector.closePolygon := fun shape => shape ++ firstn 1 shape;
  PositionVector.resample := fun shape _ _ => shape
|}.

(** Byte-valued colours for the palette. *)
Definition plainColors : RGBColor.Ops := {|
  RGBColor.GREEN := RGBColor.mk 0 255 0 255;
  RGBColor.MAGENTA := RGBColor.mk 255 0 255 255;
  RGBColor.BLACK := RGBColor.mk 0 0 0 255;
  RGBColor.changedBrightness := fun c change =>
    RGBColor.mk (Z.min 255 (Z.max 0 (RGBColor.red c + change)))
                (Z.min 255 (Z.max 0 (RGBColor.green c + change)))
                (Z.min 255 (Z.max 0 (RGBColor.blue c + change)))
                (RGBColor.alpha c)
|}.

(** Settings with a light and a dark colour in each pair. *)
Definition plainSettings : GUIVisualizationSettings.t :=
  GUIVisualizationSettings.mk
    (GUIVisualizationSettings.mkDotted 0.1 2
       (RGBColor.mk 235 235 235 255) (RGBColor.mk 20 20 20 255)
       (RGBColor.mk 0 0 235 255) (RGBColor.mk 0 255 0 255)).

(** A junction with one outgoing edge [2] of two lanes [21] and [22]; lane
    [11] of edge [1] arrives at it. *)
Definition smallNetwork : @Network plainPath := {|
  getParentEdge := fun l => if decide (l = 11%positive) then 1%positive else 2%positive;
  getIndex := fun _ => 0%Z;
  getLaneShape := fun _ => [Position.mk 0 0 0; Position.mk 0 10 0];
  getToJunction := fun _ => 1%positive;
  getLanes := fun e => if decide (e = 2%positive) then [21%positive; 22%positive] else [11%positive];
  getNBEdge := fun e => e;
  getGNEOutgoingEdges := fun _ => [2%positive];
  getNumLanes := fun e => if decide (e = 2%positive) then 2%Z else 1%Z;
  getToNode := fun _ => 1%positive;
  NBEdge_getLaneShape := fun _ _ => [Position.mk 0 0 0; Position.mk 0 10 0];
  getTurnDestination := fun _ => None;
  getShape := fun _ => [];
  computeSmoothShape := fun _ from to _ _ _ _ => from ++ to
|}.

(** Plane geometry for the drawing functions, with the layers 200 and
    201. *)
Definition plainDraw : DrawOps := {|
  angleTo2D := fun p q =>
    atan2 (Position.y q - Position.y p) (Position.x q - Position.x p);
  distanceSquaredTo2D := fun p q =>
    (Position.x p - Position.x q) * (Position.x p - Position.x q) +
    (Position.y p - Position.y q) * (Position.y p - Position.y q);
  positionAtOffset2D := fun shape _ => List.hd Position.origin shape;
  GLO_DOTTEDCONTOUR_INSPECTED := 200;
  GLO_DOTTEDCONTOUR_FRONT := 201;
  defaultLineWidth := -1
|}.

(** Settings outside the selection modes. *)
Definition plainLines : LineSettings := mkLineSettings false false 1 1 0.

(* ================================================================== *)
(** * Geometry: the caches                                             *)
(* ================================================================== *)

(** Case analysis on every comparison of reals in the goal. *)
Ltac real_cases :=
  repeat match goal with
  | |- context [Rlt_dec ?a ?b] => destruct (Rlt_dec a b)
  | |- context [Rgt_dec ?a ?b] => destruct (Rgt_dec a b)
  | |- context [Rle_dec ?a ?b] => destruct (Rle_dec a b)
  | |- context [Req_dec_T ?a ?b] => destruct (Req_dec_T a b)
  | _ : context [Rlt_dec ?a ?b] |- _ => destruct (Rlt_dec a b)
  | _ : context [Rgt_dec ?a ?b] |- _ => destruct (Rgt_dec a b)
  | _ : context [Rle_dec ?a ?b] |- _ => destruct (Rle_dec a b)
  end.

Lemma nth_map_seq {A : Type} (f : nat -> A) (n i : nat) (d : A) :
  (i < n)%nat -> nth i (map f (seq 0 n)) d = f i.
Proof.
  intros Hi.
  rewrite (nth_indep _ d (f 0%nat)) by (rewrite length_map, length_seq; lia).
  rewrite (map_nth f (seq 0 n) 0%nat i). now rewrite seq_nth.
Qed.

Lemma fold_pushSegment (l : list nat) (g : Geometry.t) :
  fold_left Geometry.pushSegment l g =
  Geometry.mk (Geometry.myShape g)
    (Geometry.myShapeRotations g ++
       map (fun i => calculateRotation (PositionVector.at_ (Geometry.myShape g) i)
                                       (PositionVector.at_ (Geometry.myShape g) (i + 1))) l)
    (Geometry.myShapeLengths g ++
       map (fun i => calculateLength (PositionVector.at_ (Geometry.myShape g) i)
                                     (PositionVector.at_ (Geometry.myShape g) (i + 1))) l).
Proof.
  revert g. induction l as [|i l IH]; intros g; simpl.
  - rewrite !app_nil_r. now destruct g.
  - rewrite IH. simpl. now rewrite <- !app_assoc.
Qed.

(** [calculateShapeRotationsAndLengths] in closed form: the shape is kept
    and each cache holds one entry per index below [size - 1]. *)
Lemma calculate_closed_form (g : Geometry.t) :
  Geometry.calculateShapeRotationsAndLengths g =
  Geometry.mk (Geometry.myShape g)
    (map (fun i => calculateRotation (PositionVector.at_ (Geometry.myShape g) i)
                                     (PositionVector.at_ (Geometry.myShape g) (i + 1)))
         (seq 0 (List.length (Geometry.myShape g) - 1)))
    (map (fun i => calculateLength (PositionVector.at_ (Geometry.myShape g) i)
                                   (PositionVector.at_ (Geometry.myShape g) (i + 1)))
         (seq 0 (List.length (Geometry.myShape g) - 1))).
Proof.
  unfold Geometry.calculateShapeRotationsAndLengths. cbn [Geometry.myShape].
  destruct (Z.leb_spec 0 (Z.of_nat (List.length (Geometry.myShape g)) - 1)) as [Hn|Hn].
  - rewrite fold_pushSegment. cbn [Geometry.myShape Geometry.myShapeRotations
      Geometry.myShapeLengths app].
    replace (Z.to_nat (Z.of_nat (List.length (Geometry.myShape g)) - 1))
      with (List.length (Geometry.myShape g) - 1)%nat by lia.
    reflexivity.
  - replace (List.length (Geometry.myShape g) - 1)%nat with 0%nat by lia.
    reflexivity.
Qed.

Lemma calculate_invariant (g : Geometry.t) :
  cacheInvariant (Geometry.calculateShapeRotationsAndLengths g).
Proof.
  rewrite calculate_closed_form. split.
  - unfold cacheSizes. cbn [Geometry.myShape Geometry.myShapeRotations
      Geometry.myShapeLengths]. rewrite !length_map, !length_seq. lia.
  - intros i Hi. cbn [Geometry.myShape Geometry.myShapeRotations
      Geometry.myShapeLengths] in *.
    split; rewrite nth_map_seq by lia; reflexivity.
Qed.

Lemma calculate_shape (g : Geometry.t) :
  Geometry.myShape (Geometry.calculateShapeRotationsAndLengths g) = Geometry.myShape g.
Proof. now rewrite calculate_closed_form. Qed.

(* ================================================================== *)
(** * Geometry: the window between a start and an end offset           *)
(* ================================================================== *)

(** The shape stored by the start/end variant is the sub-path of the
    shifted shape between the two clamped offsets. *)
Lemma updateGeometry_startEnd_shape `{PositionVector.Ops} `{StdDefs}
    (g : Geometry.t) (shape : PositionVector.t) (s e lateralOffset : R) :
  let shifted := PositionVector.move2side shape lateralOffset in
  let window := Geometry.clampStartEnd (PositionVector.length2D shifted) s e in
  Geometry.myShape (Geometry.updateGeometry_startEnd g shape s e lateralOffset) =
  PositionVector.getSubpart2D shifted (fst window) (snd window).
Proof.
  cbv zeta. unfold Geometry.updateGeometry_startEnd.
  cbn [Geometry.myShape Geometry.clearGeometry].
  destruct (Geometry.clampStartEnd _ s e) as [s' e'] eqn:Hc.
  now rewrite calculate_shape.
Qed.

(** The start offset leaves the clamping phase as it entered it. *)
Lemma clampStartEnd_start `{StdDefs} (len s e : R) :
  fst (Geometry.clampStartEnd len s e) = s.
Proof. reflexivity. Qed.

(** C1, amended.  For a start offset inside [0, length - eps] and an end
    offset that is not before it, the clamping phase keeps the start and
    caps the end at the length; a capped end equal to the start is moved
    to the start plus one eps, a later one stays as capped.  The window
    handed to the extraction is then never degenerate: start < end <=
    length; and the end is at least one eps beyond the start exactly when
    the capped end equals the start or was already one eps beyond it. *)
Theorem startEnd_clamp_window `{StdDefs} (len s e : R) :
  0 < POSITION_EPS ->
  0 <= s <= len - POSITION_EPS ->
  s <= e ->
  let capped := Rmin e len in
  let window := Geometry.clampStartEnd len s e in
  fst window = s /\
  (capped = s -> snd window = s + POSITION_EPS) /\
  (s < capped -> snd window = capped) /\
  fst window < snd window <= len /\
  (snd window >= fst window + POSITION_EPS <->
   capped = s \/ capped >= s + POSITION_EPS).
Proof.
  intros Heps [Hs0 Hs1] Hse. cbv zeta.
  unfold Geometry.clampStartEnd, Rmin. cbn [fst snd].
  split; [reflexivity|].
  split; [intros Hc; real_cases; lra|].
  split; [intros Hc; real_cases; lra|].
  split; [real_cases; lra|].
  real_cases; (split; [intros Hge; (left; lra) || (right; lra) | intros [Hc|Hc]; lra]).
Qed.

(** Length 10, start 5 and tolerance 0.1: the end 5 is moved to 5.1, the
    end 7 stays. *)
Lemma startEnd_clamp_window_witness :
  snd (@Geometry.clampStartEnd eps01 10 5 5) = 5 + 0.1 /\
  snd (@Geometry.clampStartEnd eps01 10 5 7) = Rmin 7 10.
Proof.
  split.
  - apply (@startEnd_clamp_window eps01 10 5 5);
      unfold POSITION_EPS, eps01, Rmin; real_cases; lra.
  - apply (@startEnd_clamp_window eps01 10 5 7);
      unfold POSITION_EPS, eps01, Rmin; real_cases; lra.
Defined.

(** C1 as stated fails.  With length 10, start 5 and a tolerance of 0.1
    the end 5.05 passes the guard [endPosOverShape <= starPosOverShape]
    untouched and the phase ends with the window (5, 5.05), shorter than
    one eps; with the end 1 it ends with the window (5, 1.1). *)
Lemma startEnd_clamp_not_eps_apart :
  @Geometry.clampStartEnd eps01 10 5 5.05 = (5, 5.05) /\
  ~ (snd (@Geometry.clampStartEnd eps01 10 5 5.05) >=
     fst (@Geometry.clampStartEnd eps01 10 5 5.05) + @POSITION_EPS eps01) /\
  @Geometry.clampStartEnd eps01 10 5 1 = (5, 1 + 0.1) /\
  ~ (snd (@Geometry.clampStartEnd eps01 10 5 1) >=
     fst (@Geometry.clampStartEnd eps01 10 5 1) + @POSITION_EPS eps01).
Proof.
  assert (Hnear : @Geometry.clampStartEnd eps01 10 5 5.05 = (5, 5.05)).
  { unfold Geometry.clampStartEnd, POSITION_EPS, eps01.
    real_cases; try lra; reflexivity. }
  assert (Hv : @Geometry.clampStartEnd eps01 10 5 1 = (5, 1 + 0.1)).
  { unfold Geometry.clampStartEnd, POSITION_EPS, eps01.
    real_cases; try lra; reflexivity. }
  split; [exact Hnear|]. rewrite Hnear.
  split; [unfold POSITION_EPS, eps01; cbn [fst snd]; lra|].
  split; [exact Hv|]. rewrite Hv. unfold POSITION_EPS, eps01. cbn [fst snd]. lra.
Qed.

(** C2: the start bound is the one the clamp policy should act on, and
    the variant with trim positions does so; the start/end variant leaves
    a negative start and a start beyond [length - eps] as they are and
    overwrites the end.  Length 10, tolerance 0.1, end 5, start -1 and
    start 20. *)
Theorem startEnd_clamp_overwrites_end :
  @Geometry.clampStartEnd eps01 10 (-1) 5 = (-1, 10) /\
  @Geometry.clampStartEnd eps01 10 20 5 = (20, 10 - 0.1 + 0.1) /\
  @Geometry.clampTrim eps01 10 (-1) 5 = (0, 5) /\
  @Geometry.clampTrim eps01 10 20 5 = (10 - 0.1, 5 + 0.1).
Proof.
  unfold Geometry.clampStartEnd, Geometry.clampTrim, POSITION_EPS, eps01.
  repeat split; real_cases; try lra; reflexivity.
Qed.

(* ================================================================== *)
(** * Geometry: the invariant of the caches                            *)
(* ================================================================== *)

Lemma cacheInvariant_empty : cacheInvariant Geometry.empty.
Proof.
  split.
  - split; reflexivity.
  - intros i Hi. cbn in Hi. lia.
Qed.

(** C3 as stated fails: the single-point update stores one rotation
    beside a one-point shape, where the invariant asks for none. *)
Lemma single_pos_breaks_cache_sizes :
  Geometry.updateSinglePosGeometry Geometry.empty (Position.mk 0 0 0) 90 =
    Geometry.mk [Position.mk 0 0 0] [90] [] /\
  ~ cacheSizes
      (Geometry.updateSinglePosGeometry Geometry.empty (Position.mk 0 0 0) 90).
Proof.
  split; [reflexivity|].
  unfold cacheSizes. cbn. intros [Hrot _]. lia.
Qed.

(** C3, amended.  The invariant holds for the empty geometry, after the
    construction from a polyline, the full replacement, the start/end
    trimming and the trimming with extra end points.  The projection of a
    point on the path and the single-point update leave one point, one
    rotation and no length.  Scaling keeps the rotations and the number of
    lengths, each length multiplied by the factor.  The constructor from
    given arrays stores them as they are. *)
Theorem geometry_cache_after_operations `{PositionVector.Ops} `{StdDefs} :
  cacheInvariant Geometry.empty /\
  (forall shape, cacheInvariant (Geometry.fromShape shape)) /\
  (forall g shape, cacheInvariant (Geometry.updateGeometry g shape)) /\
  (forall g shape s e lateralOffset,
     cacheInvariant (Geometry.updateGeometry_startEnd g shape s e lateralOffset)) /\
  (forall g shape b e extraFirst extraLast,
     cacheInvariant (Geometry.updateGeometry_trim g shape b e extraFirst extraLast)) /\
  (forall g shape posOverShape lateralOffset,
     exists p r,
       Geometry.updateGeometry_pos g shape posOverShape lateralOffset =
       Geometry.mk [p] [r] []) /\
  (forall g position rotation,
     Geometry.updateSinglePosGeometry g position rotation =
     Geometry.mk [position] [rotation] []) /\
  (forall g scale,
     Geometry.myShapeRotations (Geometry.scaleGeometry g scale) =
       Geometry.myShapeRotations g /\
     Geometry.myShapeLengths (Geometry.scaleGeometry g scale) =
       map (fun l => l * scale) (Geometry.myShapeLengths g) /\
     List.length (Geometry.myShapeLengths (Geometry.scaleGeometry g scale)) =
       List.length (Geometry.myShapeLengths g)) /\
  (forall shape rotations lengths,
     Geometry.fromParts shape rotations lengths =
     Geometry.mk shape rotations lengths).
Proof.
  split; [exact cacheInvariant_empty|].
  split; [intros; apply calculate_invariant|].
  split; [intros; apply calculate_invariant|].
  split.
  { intros. unfold Geometry.updateGeometry_startEnd.
    destruct (Geometry.clampStartEnd _ s e). apply calculate_invariant. }
  split; [intros; apply calculate_invariant|].
  split.
  { intros. unfold Geometry.updateGeometry_pos.
    cbn [Geometry.clearGeometry Geometry.myShape Geometry.myShapeRotations
         Geometry.myShapeLengths app].
    real_cases; eauto. }
  split; [reflexivity|].
  split; [|reflexivity].
  intros g scale. cbn [Geometry.scaleGeometry Geometry.myShapeRotations
    Geometry.myShapeLengths].
  repeat split. apply length_map.
Qed.

(* ================================================================== *)
(** * Geometry: rotations and lengths of a polyline                    *)
(* ================================================================== *)

Lemma calculateRotation_towards_plus_y :
  calculateRotation (Position.mk 0 0 0) (Position.mk 0 10 0) = 180.
Proof.
  unfold calculateRotation, atan2. cbn [Position.x Position.y].
  real_cases; try lra.
  replace ((0 - 0) / (0 - 10)) with 0 by (field; lra).
  rewrite atan_0. field. apply PI_neq0.
Qed.

Lemma calculateRotation_towards_minus_y :
  calculateRotation (Position.mk 0 0 0) (Position.mk 0 (-10) 0) = 0.
Proof.
  unfold calculateRotation, atan2. cbn [Position.x Position.y].
  real_cases; try lra.
  replace ((0 - 0) / (0 - -10)) with 0 by (field; lra).
  rewrite atan_0. field. apply PI_neq0.
Qed.

Lemma calculateRotation_towards_plus_x :
  calculateRotation (Position.mk 0 0 0) (Position.mk 10 0 0) = 90.
Proof.
  unfold calculateRotation, atan2. cbn [Position.x Position.y].
  real_cases; try lra.
  field. apply PI_neq0.
Qed.

Lemma calculateLength_ten :
  calculateLength (Position.mk 0 0 0) (Position.mk 0 10 0) = 10.
Proof.
  unfold calculateLength, Position.distanceTo2D. cbn [Position.x Position.y].
  replace ((0 - 0) * (0 - 0) + (0 - 10) * (0 - 10)) with (10 * 10) by lra.
  apply sqrt_square. lra.
Qed.

(** C4 as stated fails: the rotation computed for the polyline
    {(0,0),(0,10)} is not 0 degrees. *)
Lemma rotation_towards_plus_y_not_zero :
  Geometry.myShapeRotations
    (Geometry.fromShape [Position.mk 0 0 0; Position.mk 0 10 0]) <> [0].
Proof.
  unfold Geometry.fromShape. rewrite calculate_closed_form.
  cbn [Geometry.myShape Geometry.myShapeRotations List.length Nat.sub seq map
       PositionVector.at_ nth Nat.add].
  rewrite calculateRotation_towards_plus_y. intros Heq.
  injection Heq as Heq. lra.
Qed.

(** C4, amended.  The polyline {(0,0),(0,10)} yields the rotation 180
    degrees and the length 10: the bearing is 0 degrees along -Y, 90
    degrees along +X and 180 degrees along +Y. *)
Theorem two_point_geometry :
  Geometry.fromShape [Position.mk 0 0 0; Position.mk 0 10 0] =
    Geometry.mk [Position.mk 0 0 0; Position.mk 0 10 0] [180] [10] /\
  Geometry.myShapeRotations
    (Geometry.fromShape [Position.mk 0 0 0; Position.mk 0 (-10) 0]) = [0] /\
  Geometry.myShapeRotations
    (Geometry.fromShape [Position.mk 0 0 0; Position.mk 10 0 0]) = [90].
Proof.
  unfold Geometry.fromShape. rewrite !calculate_closed_form.
  cbn [Geometry.myShape Geometry.myShapeRotations List.length Nat.sub seq map
       PositionVector.at_ nth Nat.add].
  rewrite calculateRotation_towards_plus_y, calculateLength_ten,
    calculateRotation_towards_minus_y, calculateRotation_towards_plus_x.
  repeat split.
Qed.

(** C5.  The geometry built from a polyline keeps the polyline and holds
    one rotation and one length per pair of neighbours: the bearing
    [atan2 (dx, y_i - y_(i+1))] in degrees and the Euclidean 2D distance.
    No point or one point gives empty caches. *)
Theorem fromShape_caches (P : PositionVector.t) :
  let g := Geometry.fromShape P in
  Geometry.myShape g = P /\
  List.length (Geometry.myShapeRotations g) = (List.length P - 1)%nat /\
  List.length (Geometry.myShapeLengths g) = (List.length P - 1)%nat /\
  ((List.length P <= 1)%nat ->
     Geometry.myShapeRotations g = [] /\ Geometry.myShapeLengths g = []) /\
  (forall i : nat, (i + 1 < List.length P)%nat ->
     let p := PositionVector.at_ P i in
     let q := PositionVector.at_ P (i + 1) in
     nth i (Geometry.myShapeRotations g) 0 =
       atan2 (Position.x q - Position.x p) (Position.y p - Position.y q)
         * 180 / PI /\
     nth i (Geometry.myShapeLengths g) 0 =
       sqrt ((Position.x p - Position.x q) * (Position.x p - Position.x q) +
             (Position.y p - Position.y q) * (Position.y p - Position.y q))).
Proof.
  cbv zeta. unfold Geometry.fromShape. rewrite calculate_closed_form.
  cbn [Geometry.myShape Geometry.myShapeRotations Geometry.myShapeLengths].
  split; [reflexivity|].
  split; [now rewrite length_map, length_seq|].
  split; [now rewrite length_map, length_seq|].
  split.
  - intros Hle. replace (List.length P - 1)%nat with 0%nat by lia. now split.
  - intros i Hi. split; rewrite nth_map_seq by lia; reflexivity.
Qed.

(** The first entries for the polyline {(0,0),(0,10)}, and the caches of
    a single point. *)
Lemma fromShape_caches_witness :
  let P := [Position.mk 0 0 0; Position.mk 0 10 0] in
  let g := Geometry.fromShape P in
  ((0 + 1 < List.length P)%nat /\
   nth 0 (Geometry.myShapeRotations g) 0 =
     atan2 (0 - 0) (0 - 10) * 180 / PI /\
   nth 0 (Geometry.myShapeLengths g) 0 =
     sqrt ((0 - 0) * (0 - 0) + (0 - 10) * (0 - 10))) /\
  (Geometry.myShapeRotations (Geometry.fromShape [Position.mk 3 4 0]) = [] /\
   Geometry.myShapeLengths (Geometry.fromShape [Position.mk 3 4 0]) = []).
Proof.
  cbv zeta. split.
  - split; [cbn; lia|].
    apply (proj2 (proj2 (proj2 (proj2
      (fromShape_caches [Position.mk 0 0 0; Position.mk 0 10 0])))) 0%nat).
    cbn. lia.
  - apply (proj1 (proj2 (proj2 (proj2 (fromShape_caches [Position.mk 3 4 0]))))).
    cbn. lia.
Defined.

(* ================================================================== *)
(** * Geometry: trimming with extra end points                         *)
(* ================================================================== *)

(** C10.  With both trim positions at -1 the stored shape is the given
    shape, whatever the two extra positions are, and the result is the
    one of the plain replacement.  As soon as one trim position differs
    from -1 the stored shape is the clamped sub-path with the valid extra
    positions added in front and at the back. *)
Theorem trim_unset_keeps_shape `{PositionVector.Ops} `{StdDefs}
    (g : Geometry.t) (shape : PositionVector.t)
    (extraFirst extraLast : Position.t) :
  Geometry.myShape
    (Geometry.updateGeometry_trim g shape (-1) (-1) extraFirst extraLast) = shape /\
  Geometry.updateGeometry_trim g shape (-1) (-1) extraFirst extraLast =
    Geometry.updateGeometry g shape /\
  (forall b e : R, b <> -1 \/ e <> -1 ->
     let window := Geometry.clampTrim (PositionVector.length2D shape) b e in
     let trimmed := PositionVector.getSubpart2D shape (fst window) (snd window) in
     let withFirst :=
       if Position.eq_dec extraFirst PositionVector.INVALID then trimmed
       else PositionVector.push_front_noDoublePos trimmed extraFirst in
     let withLast :=
       if Position.eq_dec extraLast PositionVector.INVALID then withFirst
       else PositionVector.push_back_noDoublePos withFirst extraLast in
     Geometry.myShape
       (Geometry.updateGeometry_trim g shape b e extraFirst extraLast) = withLast).
Proof.
  assert (Hsame :
    Geometry.updateGeometry_trim g shape (-1) (-1) extraFirst extraLast =
    Geometry.updateGeometry g shape).
  { unfold Geometry.updateGeometry_trim, Geometry.updateGeometry, Rneb.
    destruct (Req_dec_T (-1) (-1)) as [_|Hne]; [reflexivity | now elim Hne]. }
  split; [|split; [exact Hsame|]].
  - rewrite Hsame. unfold Geometry.updateGeometry. now rewrite calculate_shape.
  - intros b e Hbe. cbv zeta. unfold Geometry.updateGeometry_trim.
    rewrite calculate_shape.
    assert (Hcond : orb (Rneb b (-1)) (Rneb e (-1)) = true).
    { unfold Rneb. destruct (Req_dec_T b (-1)), (Req_dec_T e (-1)); try reflexivity.
      destruct Hbe; contradiction. }
    rewrite Hcond. cbn [Geometry.myShape Geometry.clearGeometry].
    destruct (Geometry.clampTrim _ b e) as [b' e']. reflexivity.
Qed.

(** The polyline {(0,0),(0,10)} with the extra points (0,-1) and (0,11):
    untrimmed, and trimmed from the position 2. *)
Lemma trim_unset_keeps_shape_witness :
  let shape := [Position.mk 0 0 0; Position.mk 0 10 0] in
  let extraFirst := Position.mk 0 (-1) 0 in
  let extraLast := Position.mk 0 11 0 in
  Geometry.myShape
    (@Geometry.updateGeometry_trim plainPath eps01 Geometry.empty shape
       (-1) (-1) extraFirst extraLast) = shape /\
  Geometry.myShape
    (@Geometry.updateGeometry_trim plainPath eps01 Geometry.empty shape
       2 (-1) extraFirst extraLast) = extraFirst :: shape ++ [extraLast].
Proof.
  cbv zeta.
  pose proof (@trim_unset_keeps_shape plainPath eps01 Geometry.empty
    [Position.mk 0 0 0; Position.mk 0 10 0]
    (Position.mk 0 (-1) 0) (Position.mk 0 11 0)) as [Hunset [_ Htrim]].
  split; [exact Hunset|].
  rewrite (Htrim 2 (-1)) by (left; lra).
  cbv zeta. cbn [PositionVector.INVALID plainPath PositionVector.getSubpart2D
    PositionVector.push_front_noDoublePos PositionVector.push_back_noDoublePos].
  destruct (Position.eq_dec (Position.mk 0 (-1) 0)
              (Position.mk (-1073741824) (-1073741824) (-1073741824))) as [Heq|_].
  { injection Heq as Hx _ _. lra. }
  destruct (Position.eq_dec (Position.mk 0 11 0)
              (Position.mk (-1073741824) (-1073741824) (-1073741824))) as [Heq|_].
  { injection Heq as Hx _ _. lra. }
  reflexivity.
Defined.

(* ================================================================== *)
(** * DottedGeometryColor                                              *)
(* ================================================================== *)

Lemma getColor_settings `{RGBColor.Ops} (c : DottedGeometryColor.t)
    (type : DottedContourType.t) :
  DottedGeometryColor.mySettings (snd (DottedGeometryColor.getColor c type)) =
  DottedGeometryColor.mySettings c.
Proof. destruct type, c as [s []]; reflexivity. Qed.

(** C6.  For a contour type with a pair of two different colours, two
    calls of [getColor] in a row return the two colours of the pair, so
    different ones, and each call flips the flag.  For any other type the
    call returns black and leaves the object as it was, so that the calls
    after it answer as they would have without it. *)
Theorem getColor_alternates `{RGBColor.Ops} (c : DottedGeometryColor.t) :
  (forall type first second,
     contourColors (DottedGeometryColor.mySettings c) type = Some (first, second) ->
     first <> second ->
     let call1 := DottedGeometryColor.getColor c type in
     let call2 := DottedGeometryColor.getColor (snd call1) type in
     fst call1 <> fst call2 /\
     fst call1 = (if DottedGeometryColor.myColorFlag c then first else second) /\
     fst call2 = (if DottedGeometryColor.myColorFlag c then second else first) /\
     DottedGeometryColor.myColorFlag (snd call1) =
       negb (DottedGeometryColor.myColorFlag c) /\
     DottedGeometryColor.myColorFlag (snd call2) =
       negb (DottedGeometryColor.myColorFlag (snd call1))) /\
  (forall value,
     DottedGeometryColor.getColor c (DottedContourType.OTHER value) =
       (RGBColor.BLACK, c) /\
     forall type,
       DottedGeometryColor.getColor
         (snd (DottedGeometryColor.getColor c (DottedContourType.OTHER value))) type =
       DottedGeometryColor.getColor c type).
Proof.
  split.
  - intros type first second Hpair Hne. cbv zeta.
    destruct c as [s flag].
    destruct type; cbn in Hpair; try discriminate;
      injection Hpair as Hfirst Hsecond; subst first second;
      destruct flag; cbn; repeat split; congruence.
  - intros value. split; reflexivity.
Qed.

(** Two calls for the inspected contour on a fresh object. *)
Lemma getColor_alternates_witness :
  let c := DottedGeometryColor.create plainSettings in
  let call1 := @DottedGeometryColor.getColor plainColors c DottedContourType.INSPECT in
  let call2 :=
    @DottedGeometryColor.getColor plainColors (snd call1) DottedContourType.INSPECT in
  fst call1 <> fst call2 /\
  fst call1 = RGBColor.mk 235 235 235 255 /\
  fst call2 = RGBColor.mk 20 20 20 255.
Proof.
  cbv zeta.
  destruct (proj1 (@getColor_alternates plainColors
              (DottedGeometryColor.create plainSettings))
              DottedContourType.INSPECT
              (RGBColor.mk 235 235 235 255) (RGBColor.mk 20 20 20 255))
    as [Hne [H1 [H2 _]]].
  - reflexivity.
  - discriminate.
  - split; [exact Hne|]. split; [exact H1 | exact H2].
Defined.

(* ================================================================== *)
(** * DottedGeometry: the sampling step                                *)
(* ================================================================== *)

Lemma fold_pushSegment_dotted (l : list nat) (segment : DottedGeometry.Segment.t) :
  fold_left DottedGeometry.Segment.pushSegment l segment =
  DottedGeometry.Segment.mk (DottedGeometry.Segment.shape segment)
    (DottedGeometry.Segment.rotations segment ++
       map (fun i => calculateRotation
                       (PositionVector.at_ (DottedGeometry.Segment.shape segment) i)
                       (PositionVector.at_ (DottedGeometry.Segment.shape segment) (i + 1))) l)
    (DottedGeometry.Segment.lengths segment ++
       map (fun i => calculateLength
                       (PositionVector.at_ (DottedGeometry.Segment.shape segment) i)
                       (PositionVector.at_ (DottedGeometry.Segment.shape segment) (i + 1))) l)
    (DottedGeometry.Segment.offset segment).
Proof.
  revert segment. induction l as [|i l IH]; intros segment; simpl.
  - rewrite !app_nil_r. now destruct segment.
  - rewrite IH. simpl. now rewrite <- !app_assoc.
Qed.

(** The recomputation of one dotted segment keeps shape and offset and
    appends one entry per pair of neighbours to each cache. *)
Lemma segment_calculate_closed_form (segment : DottedGeometry.Segment.t) :
  DottedGeometry.Segment.calculateRotationsAndLengths segment =
  DottedGeometry.Segment.mk (DottedGeometry.Segment.shape segment)
    (DottedGeometry.Segment.rotations segment ++
       map (fun i => calculateRotation
                       (PositionVector.at_ (DottedGeometry.Segment.shape segment) i)
                       (PositionVector.at_ (DottedGeometry.Segment.shape segment) (i + 1)))
           (seq 0 (List.length (DottedGeometry.Segment.shape segment) - 1)))
    (DottedGeometry.Segment.lengths segment ++
       map (fun i => calculateLength
                       (PositionVector.at_ (DottedGeometry.Segment.shape segment) i)
                       (PositionVector.at_ (DottedGeometry.Segment.shape segment) (i + 1)))
           (seq 0 (List.length (DottedGeometry.Segment.shape segment) - 1)))
    (DottedGeometry.Segment.offset segment).
Proof.
  unfold DottedGeometry.Segment.calculateRotationsAndLengths.
  destruct (Z.leb_spec 0
              (Z.of_nat (List.length (DottedGeometry.Segment.shape segment)) - 1))
    as [Hn|Hn].
  - rewrite fold_pushSegment_dotted.
    replace (Z.to_nat (Z.of_nat (List.length (DottedGeometry.Segment.shape segment)) - 1))
      with (List.length (DottedGeometry.Segment.shape segment) - 1)%nat by lia.
    reflexivity.
  - replace (List.length (DottedGeometry.Segment.shape segment) - 1)%nat
      with 0%nat by lia.
    cbn [seq map]. rewrite !app_nil_r. now destruct segment.
Qed.

(** A segment that was resampled with empty caches fits after the
    recomputation. *)
Lemma resampled_segment_fits `{PositionVector.Ops} (step : R)
    (shape : PositionVector.t) (offset : Z) :
  let segment :=
    DottedGeometry.Segment.calculateRotationsAndLengths
      (DottedGeometry.resampleSegment step
         (DottedGeometry.Segment.mk shape [] [] offset)) in
  segmentCachesFit segment /\
  DottedGeometry.Segment.shape segment = PositionVector.resample shape step true /\
  DottedGeometry.Segment.offset segment = offset.
Proof.
  cbv zeta. rewrite segment_calculate_closed_form.
  unfold segmentCachesFit, DottedGeometry.resampleSegment.
  cbn [DottedGeometry.Segment.shape DottedGeometry.Segment.rotations
       DottedGeometry.Segment.lengths DottedGeometry.Segment.offset app].
  rewrite !length_map, !length_seq. auto.
Qed.

Lemma pairSegments_nth (shape : PositionVector.t) (i : nat) :
  (i + 1 < List.length shape)%nat ->
  nth i (DottedGeometry.pairSegments shape) Dotted.emptySegment =
  DottedGeometry.Segment.create
    [PositionVector.at_ shape i; PositionVector.at_ shape (i + 1)].
Proof.
  intros Hi. unfold DottedGeometry.pairSegments.
  rewrite (nth_indep _ Dotted.emptySegment
             (DottedGeometry.Segment.create
                [PositionVector.at_ shape (0 - 1); PositionVector.at_ shape 0]))
    by (rewrite length_map, length_seq; lia).
  rewrite (map_nth (fun i => DottedGeometry.Segment.create
                               [PositionVector.at_ shape (i - 1);
                                PositionVector.at_ shape i])
             (seq 1 (List.length shape - 1)) 0%nat i).
  rewrite seq_nth by lia.
  replace (1 + i - 1)%nat with i by lia.
  replace (1 + i)%nat with (i + 1)%nat by lia. reflexivity.
Qed.

(** Segment [i] of a list of resampled pairs is the resampling of the
    points [i] and [i + 1] of the path with the step that was used. *)
Lemma resampled_pairs_nth `{PositionVector.Ops} (step : R)
    (path : PositionVector.t) (i : nat) :
  (i + 1 < List.length path)%nat ->
  DottedGeometry.Segment.shape
    (nth i (map DottedGeometry.Segment.calculateRotationsAndLengths
              (map (DottedGeometry.resampleSegment step)
                   (DottedGeometry.pairSegments path)))
         Dotted.emptySegment) =
  PositionVector.resample
    [PositionVector.at_ path i; PositionVector.at_ path (i + 1)] step true.
Proof.
  intros Hi. rewrite map_map.
  rewrite (nth_indep _ Dotted.emptySegment
             ((fun x => DottedGeometry.Segment.calculateRotationsAndLengths
                          (DottedGeometry.resampleSegment step x))
                Dotted.emptySegment)).
  2:{ rewrite length_map. unfold DottedGeometry.pairSegments.
      rewrite length_map, length_seq. lia. }
  rewrite (map_nth (fun x => DottedGeometry.Segment.calculateRotationsAndLengths
                               (DottedGeometry.resampleSegment step x))).
  rewrite pairSegments_nth by exact Hi.
  unfold DottedGeometry.Segment.create.
  now destruct (resampled_segment_fits step
                  [PositionVector.at_ path i; PositionVector.at_ path (i + 1)]
                  (-1)%Z) as (_ & Hshape & _).
Qed.

(** The segments of [updateDottedGeometry(s, shape, closeShape)] on a
    path of more than one point. *)
Lemma updateDottedGeometry_shape_segments `{PositionVector.Ops}
    (d : DottedGeometry.t) (s : GUIVisualizationSettings.t)
    (shape : PositionVector.t) (closeShape : bool) :
  let path :=
    if closeShape && (2 <? List.length shape)%nat
    then PositionVector.closePolygon shape else shape in
  (1 < List.length path)%nat ->
  DottedGeometry.myDottedGeometrySegments
    (Dotted.updateDottedGeometry_shape d s shape closeShape) =
  map DottedGeometry.Segment.calculateRotationsAndLengths
    (map (DottedGeometry.resampleSegment
            (GUIVisualizationSettings.segmentLength
               (GUIVisualizationSettings.dottedContourSettings s)))
         (DottedGeometry.pairSegments path)).
Proof.
  cbv zeta. intros Hlong. unfold Dotted.updateDottedGeometry_shape.
  apply Nat.ltb_lt in Hlong. rewrite Hlong. reflexivity.
Qed.

(** C7.  The constructor from a polyline resamples the two points [i]
    and [i + 1] of the path with the configured dash length when the 2D
    length of the path is at most 500, and with that length divided by 250
    when it is above 500, whatever the configured dash length.  The two
    updates, from a shape and from a lane, build the same pairs and
    resample them with the configured dash length at every length of the
    path, also above 500.  The path is the polyline after the optional
    closing. *)
Theorem dotted_sampling_step `{Network}
    (d : DottedGeometry.t) (s : GUIVisualizationSettings.t)
    (shape : PositionVector.t) (closeShape : bool) (lane : GNELane) :
  let path :=
    if closeShape && (2 <? List.length shape)%nat
    then PositionVector.closePolygon shape else shape in
  let total := PositionVector.length2D path in
  let dashLength :=
    GUIVisualizationSettings.segmentLength
      (GUIVisualizationSettings.dottedContourSettings s) in
  let segmentShape (g : DottedGeometry.t) (i : nat) :=
    DottedGeometry.Segment.shape
      (nth i (DottedGeometry.myDottedGeometrySegments g) Dotted.emptySegment) in
  let sampled (p : PositionVector.t) (i : nat) (step : R) :=
    PositionVector.resample
      [PositionVector.at_ p i; PositionVector.at_ p (i + 1)] step true in
  (forall i : nat, (i + 1 < List.length path)%nat ->
     (total <= 500 ->
        segmentShape (DottedGeometry.fromShape s shape closeShape) i =
        sampled path i dashLength) /\
     (total > 500 ->
        segmentShape (DottedGeometry.fromShape s shape closeShape) i =
        sampled path i (total / 250)) /\
     segmentShape (Dotted.updateDottedGeometry_shape d s shape closeShape) i =
     sampled path i dashLength) /\
  (forall i : nat, (i + 1 < List.length (getLaneShape lane))%nat ->
     segmentShape (Dotted.updateDottedGeometry_lane d s lane) i =
     sampled (getLaneShape lane) i dashLength).
Proof.
  cbv zeta. split.
  - intros i Hi.
    set (path := if closeShape && (2 <? List.length shape)%nat
                 then PositionVector.closePolygon shape else shape) in *.
    assert (Hlong : (1 < List.length path)%nat) by lia.
    assert (Hbuilt : DottedGeometry.myDottedGeometrySegments
                       (DottedGeometry.fromShape s shape closeShape) =
                     map DottedGeometry.Segment.calculateRotationsAndLengths
                       (map (DottedGeometry.resampleSegment
                               (DottedGeometry.calculateSegmentLength s path))
                            (DottedGeometry.pairSegments path))).
    { unfold DottedGeometry.fromShape. fold path.
      apply Nat.ltb_lt in Hlong. rewrite Hlong. reflexivity. }
    rewrite Hbuilt, resampled_pairs_nth by exact Hi.
    unfold DottedGeometry.calculateSegmentLength, MAXIMUM_DOTTEDGEOMETRYLENGTH.
    split; [|split].
    + intros Htotal.
      destruct (Rgt_dec (PositionVector.length2D path) 500); [lra | reflexivity].
    + intros Htotal.
      destruct (Rgt_dec (PositionVector.length2D path) 500); [|lra].
      now replace (500 * 0.5) with 250 by lra.
    + rewrite (updateDottedGeometry_shape_segments d s shape closeShape) by exact Hlong.
      fold path. now apply resampled_pairs_nth.
  - intros i Hi. unfold Dotted.updateDottedGeometry_lane.
    unfold DottedGeometry.calculateShapeRotationsAndLengths.
    cbn [DottedGeometry.myWidth DottedGeometry.myDottedGeometrySegments app].
    now apply resampled_pairs_nth.
Qed.

Lemma polylineLength2D_two_points (d : R) :
  0 <= d -> polylineLength2D [Position.mk 0 0 0; Position.mk 0 d 0] = d.
Proof.
  intros Hd. cbn [polylineLength2D]. unfold Position.distanceTo2D.
  cbn [Position.x Position.y].
  replace ((0 - 0) * (0 - 0) + (0 - d) * (0 - d)) with (d * d) by lra.
  rewrite sqrt_square by exact Hd. lra.
Qed.

(** The path {(0,0),(0,1000)} of length 1000 with the configured dash
    length 2: the constructor resamples with the step 4, the update from
    the same shape with the step 2. *)
Lemma dotted_sampling_step_witness :
  DottedGeometry.Segment.shape
    (nth 0 (DottedGeometry.myDottedGeometrySegments
              (@DottedGeometry.fromShape plainPath plainSettings
                 [Position.mk 0 0 0; Position.mk 0 1000 0] false))
         Dotted.emptySegment) =
    @PositionVector.resample plainPath
      [Position.mk 0 0 0; Position.mk 0 1000 0] 4 true /\
  DottedGeometry.Segment.shape
    (nth 0 (DottedGeometry.myDottedGeometrySegments
              (@Dotted.updateDottedGeometry_shape plainPath Dotted.empty plainSettings
                 [Position.mk 0 0 0; Position.mk 0 1000 0] false))
         Dotted.emptySegment) =
    @PositionVector.resample plainPath
      [Position.mk 0 0 0; Position.mk 0 1000 0] 2 true.
Proof.
  destruct (proj1 (@dotted_sampling_step plainPath smallNetwork Dotted.empty
                     plainSettings [Position.mk 0 0 0; Position.mk 0 1000 0]
                     false 11%positive) 0%nat ltac:(cbn; lia))
    as (_ & Hctor & Hupdate).
  split.
  - cbn [andb PositionVector.length2D plainPath] in Hctor.
    rewrite polylineLength2D_two_points in Hctor by lra.
    replace (1000 / 250) with 4 in Hctor by lra.
    apply Hctor. lra.
  - exact Hupdate.
Defined.

(* ================================================================== *)
(** * The circle cache and [angleLookup]                               *)
(* ================================================================== *)

Lemma Int_part_IZR (k : Z) : Int_part (IZR k) = k.
Proof. symmetry. apply Int_part_spec. lra. Qed.

Lemma double_to_int_floor (d : R) :
  (INT_MIN <= Int_part d <= INT_MAX)%Z ->
  double_to_int (floor d) = Some (Int_part d).
Proof.
  intros [Hlo Hhi]. unfold double_to_int, floor.
  assert (Hv : (if Rle_dec 0 (IZR (Int_part d)) then Int_part (IZR (Int_part d))
                else (- Int_part (- IZR (Int_part d)))%Z) = Int_part d).
  { destruct (Rle_dec 0 (IZR (Int_part d))).
    - apply Int_part_IZR.
    - rewrite <- opp_IZR, Int_part_IZR. lia. }
  rewrite Hv.
  destruct (Z.leb_spec INT_MIN (Int_part d)); [|lia].
  destruct (Z.leb_spec (Int_part d) INT_MAX); [|lia].
  reflexivity.
Qed.

(** The remainder of C++ followed by the correction of a negative index is
    the remainder with the sign of the divisor. *)
Lemma wrapped_index (v : Z) :
  (if (Z.rem v 3600 <? 0)%Z then (Z.rem v 3600 + 3600)%Z else Z.rem v 3600) =
  (v mod 3600)%Z.
Proof.
  destruct (Z.ltb_spec (Z.rem v 3600) 0);
    Z.to_euclidean_division_equations; lia.
Qed.

Lemma fold_push_length {A B : Type} (f : B -> A) (l : list B) (init : list A) :
  List.length (fold_left (fun acc i => acc ++ [f i]) l init) =
  (List.length init + List.length l)%nat.
Proof.
  revert init. induction l as [|i l IH]; intros init; simpl.
  - lia.
  - rewrite IH, length_app. simpl. lia.
Qed.

(** The first call fills the table with 3601 points; a filled table is
    left alone. *)
Lemma fillCircleCoords_length :
  List.length (fillCircleCoords []) = 3601%nat /\
  fillCircleCoords (fillCircleCoords []) = fillCircleCoords [].
Proof.
  assert (Hlen : List.length (fillCircleCoords []) = 3601%nat).
  { unfold fillCircleCoords. cbn [List.length Nat.eqb].
    rewrite (fold_push_length
      (fun i => Position.mk (sin (DEG2RAD (INR i / CIRCLE_RESOLUTION)))
                            (cos (DEG2RAD (INR i / CIRCLE_RESOLUTION))) 0)).
    rewrite length_seq. reflexivity. }
  split; [exact Hlen|].
  generalize dependent (fillCircleCoords []). intros coords Hc.
  unfold fillCircleCoords. now rewrite Hc.
Qed.

Lemma angleLookup_in_range (myCircleCoords : PositionVector.t) (x : R) :
  List.length myCircleCoords = 3601%nat ->
  (INT_MIN <= Int_part (x * CIRCLE_RESOLUTION + 0.5) <= INT_MAX)%Z ->
  angleLookup myCircleCoords x =
  Some (Int_part (x * CIRCLE_RESOLUTION + 0.5) mod 3600)%Z.
Proof.
  intros Hlen Hrange. unfold angleLookup.
  rewrite double_to_int_floor by exact Hrange. rewrite Hlen.
  change (Z.of_nat 3601 - 1)%Z with 3600%Z.
  unfold int_rem. cbn [Z.eqb orb andb].
  rewrite andb_false_r. now rewrite wrapped_index.
Qed.

Lemma sameIndex_eq (a b : option Z) : sameIndex a b = true -> a = b.
Proof.
  destruct a as [i|], b as [j|]; cbn; try congruence.
  intros Heq. apply Z.eqb_eq in Heq. now subst.
Qed.

(** With the table of 3601 points the lookup on doubles gives the scaled
    and rounded angle modulo 3600 wherever the conversion to [int] has a
    result. *)
Lemma angleLookup_double_index (myCircleCoords : PositionVector.t)
    (angleDeg : Double.t) :
  List.length myCircleCoords = 3601%nat ->
  angleLookup_double myCircleCoords angleDeg =
  option_map (fun v => (v mod 3600)%Z)
    (Double.floor_to_int (angleDeg * 10 + 0.5)%float).
Proof.
  intros Hlen. unfold angleLookup_double. rewrite Hlen.
  change (Z.of_nat 3601 - 1)%Z with 3600%Z.
  destruct (Double.floor_to_int (angleDeg * 10 + 0.5)%float) as [v|];
    [|reflexivity].
  unfold int_rem. cbn [Z.eqb orb andb option_map].
  rewrite andb_false_r. now rewrite wrapped_index.
Qed.

(** On the tenths of a degree between -360 and 360 the scaled and rounded
    angle of [x + 360] has the index of the one of [x]. *)
Lemma grid_tenths_periodic (k : Z) :
  (-3600 <= k <= 3600)%Z ->
  option_map (fun v => (v mod 3600)%Z)
    (Double.floor_to_int ((Double.of_Z k / 10 + 360) * 10 + 0.5)%float) =
  option_map (fun v => (v mod 3600)%Z)
    (Double.floor_to_int (Double.of_Z k / 10 * 10 + 0.5)%float).
Proof.
  intros Hk.
  assert (Hall :
    forallb (fun k =>
               sameIndex
                 (option_map (fun v => (v mod 3600)%Z)
                    (Double.floor_to_int
                       ((Double.of_Z k / 10 + 360) * 10 + 0.5)%float))
                 (option_map (fun v => (v mod 3600)%Z)
                    (Double.floor_to_int (Double.of_Z k / 10 * 10 + 0.5)%float)))
            gridTenths = true).
  { vm_compute. reflexivity. }
  apply sameIndex_eq.
  apply (proj1 (forallb_forall _ _) Hall).
  unfold gridTenths. apply in_map_iff.
  exists (Z.to_nat (k + 3600)). split; [lia|]. apply in_seq. lia.
Qed.

(** C8, amended.  A table of 3601 points is not filled again.  For every
    double whose scaled and rounded value, computed in doubles, fits an
    [int], the index is that value modulo 3600; every index the lookup
    gives lies in [0, 3600), also for negative angles.  The index of
    [x + 360] is the index of [x] for every tenth of a degree [x] from
    -360 to 360: the double nearest to [k / 10] for a whole number [k]
    between -3600 and 3600. *)
Theorem angleLookup_double_wraps (myCircleCoords : PositionVector.t) :
  List.length myCircleCoords = 3601%nat ->
  fillCircleCoords myCircleCoords = myCircleCoords /\
  (forall (angleDeg : Double.t) (v : Z),
     Double.floor (angleDeg * 10 + 0.5)%float = Some v ->
     (INT_MIN <= v <= INT_MAX)%Z ->
     angleLookup_double myCircleCoords angleDeg = Some (v mod 3600)%Z) /\
  (forall (angleDeg : Double.t) (index : Z),
     angleLookup_double myCircleCoords angleDeg = Some index ->
     (0 <= index < 3600)%Z) /\
  (forall k : Z, (-3600 <= k <= 3600)%Z ->
     angleLookup_double myCircleCoords (Double.of_Z k / 10 + 360)%float =
     angleLookup_double myCircleCoords (Double.of_Z k / 10)%float).
Proof.
  intros Hlen.
  split; [unfold fillCircleCoords; now rewrite Hlen|].
  split; [|split].
  - intros angleDeg v Hfloor [Hlo Hhi].
    rewrite angleLookup_double_index by exact Hlen.
    unfold Double.floor_to_int. rewrite Hfloor.
    destruct (Z.leb_spec INT_MIN v); [|lia].
    destruct (Z.leb_spec v INT_MAX); [|lia].
    reflexivity.
  - intros angleDeg index.
    rewrite angleLookup_double_index by exact Hlen.
    destruct (Double.floor_to_int (angleDeg * 10 + 0.5)%float) as [v|];
      cbn [option_map]; [|discriminate].
    intros [= <-]. apply Z.mod_pos_bound. lia.
  - intros k Hk.
    rewrite !angleLookup_double_index by exact Hlen.
    now apply grid_tenths_periodic.
Qed.

(** The angle -90 has the index 2700, the index of 270. *)
Lemma angleLookup_double_wraps_witness :
  angleLookup_double (fillCircleCoords []) (-90)%float = Some 2700%Z /\
  angleLookup_double (fillCircleCoords []) (Double.of_Z (-900) / 10 + 360)%float =
  angleLookup_double (fillCircleCoords []) (Double.of_Z (-900) / 10)%float.
Proof.
  destruct (angleLookup_double_wraps (fillCircleCoords [])
              (proj1 fillCircleCoords_length))
    as (_ & Hwrap & _ & Hgrid).
  split.
  - apply (Hwrap (-90)%float (-900)%Z).
    + vm_compute. reflexivity.
    + unfold INT_MIN, INT_MAX. lia.
  - apply Hgrid. lia.
Defined.

(** C8 as stated fails.  The double 0x1.3333333333p-3, which is
    0.14999999999997726, has the index 1, and that angle plus 360 has the
    index 2: the sum is rounded upwards.  At the upper end of [int] the
    angle 214748364 has the index 840, and for the angle 360 degrees
    further the conversion to [int] has no result. *)
Lemma angleLookup_double_not_periodic :
  angleLookup_double (fillCircleCoords []) 0x1.3333333333p-3%float = Some 1%Z /\
  angleLookup_double (fillCircleCoords []) (0x1.3333333333p-3 + 360)%float =
    Some 2%Z /\
  angleLookup_double (fillCircleCoords []) 214748364%float = Some 840%Z /\
  angleLookup_double (fillCircleCoords []) (214748364 + 360)%float = None.
Proof.
  rewrite !angleLookup_double_index by exact (proj1 fillCircleCoords_length).
  repeat split; vm_compute; reflexivity.
Qed.

(* ================================================================== *)
(** * Lane2laneConnection                                              *)
(* ================================================================== *)

Section Lane2lane.
Context `{Network}.

Lemma exist_is_Some (c : Lane2laneConnection.t) (toLane : GNELane) :
  Lane2laneConnection.exist c toLane = true <->
  is_Some (Lane2laneConnection.myConnectionsMap c !! toLane).
Proof.
  unfold Lane2laneConnection.exist.
  destruct (Lane2laneConnection.myConnectionsMap c !! toLane) as [g|].
  - split; [eauto | reflexivity].
  - split; [discriminate | intros [g Hg]; discriminate].
Qed.

(** The keys after the inner loop over the lanes of one edge. *)
Lemma fold_updateEntry_keys (fromLane : GNELane) (lanes : list GNELane)
    (m : gmap GNELane Geometry.t) (k : GNELane) :
  is_Some (fold_left (Lane2laneConnection.updateEntry fromLane) lanes m !! k) <->
  is_Some (m !! k) \/ In k lanes.
Proof.
  revert m. induction lanes as [|lane lanes IH]; intros m; simpl.
  - tauto.
  - rewrite IH. unfold Lane2laneConnection.updateEntry.
    rewrite lookup_insert_is_Some'. tauto.
Qed.

(** The keys after the outer loop over the outgoing edges. *)
Lemma fold_edges_keys (fromLane : GNELane) (edges : list GNEEdge)
    (m : gmap GNELane Geometry.t) (k : GNELane) :
  is_Some (fold_left
             (fun m outgoingEdge =>
                fold_left (Lane2laneConnection.updateEntry fromLane)
                          (getLanes outgoingEdge) m)
             edges m !! k) <->
  is_Some (m !! k) \/ In k (concat (map getLanes edges)).
Proof.
  revert m. induction edges as [|edge edges IH]; intros m; simpl.
  - tauto.
  - rewrite IH, fold_updateEntry_keys, in_app_iff. tauto.
Qed.

End Lane2lane.

(** C9.  A connection cache that was just constructed knows no lane.  An
    update of a cache owned by a lane succeeds, and afterwards [exist]
    holds exactly for the lanes of the outgoing edges of the junction the
    owning lane leads to; what the map held before plays no part, the
    result being the one of an update of a fresh cache. *)
Theorem exist_after_update `{Network} :
  (forall fromLane toLane,
     Lane2laneConnection.exist (Lane2laneConnection.create fromLane) toLane = false) /\
  (forall toLane,
     Lane2laneConnection.exist Lane2laneConnection.createEmpty toLane = false) /\
  (forall c fromLane,
     Lane2laneConnection.myFromLane c = Some fromLane ->
     exists c',
       Lane2laneConnection.updateLane2laneConnection c = Some c' /\
       Lane2laneConnection.updateLane2laneConnection
         (Lane2laneConnection.create fromLane) = Some c' /\
       forall toLane,
         Lane2laneConnection.exist c' toLane = true <->
         In toLane
            (concat (map getLanes
               (getGNEOutgoingEdges (getToJunction (getParentEdge fromLane)))))).
Proof.
  split; [reflexivity|]. split; [reflexivity|].
  intros c fromLane Hfrom.
  unfold Lane2laneConnection.updateLane2laneConnection. rewrite Hfrom.
  cbn [Lane2laneConnection.myFromLane Lane2laneConnection.create].
  eexists. split; [reflexivity|]. split; [reflexivity|].
  intros toLane. rewrite exist_is_Some.
  cbn [Lane2laneConnection.myConnectionsMap].
  rewrite fold_edges_keys. rewrite lookup_empty.
  split.
  - intros [Hsome|Hin]; [now apply is_Some_None in Hsome | exact Hin].
  - intros Hin. now right.
Qed.

(** The cache of lane 11 in the small network knows the lanes 21 and 22
    after its update, and not lane 11. *)
Lemma exist_after_update_witness :
  exists c',
    @Lane2laneConnection.updateLane2laneConnection plainPath smallNetwork
      (Lane2laneConnection.create 11%positive) = Some c' /\
    Lane2laneConnection.exist c' 21%positive = true /\
    Lane2laneConnection.exist c' 22%positive = true /\
    Lane2laneConnection.exist c' 11%positive = false.
Proof.
  destruct (proj2 (proj2 (@exist_after_update plainPath smallNetwork))
              (Lane2laneConnection.create 11%positive) 11%positive eq_refl)
    as [c' [Hupd [_ Hkeys]]].
  exists c'. split; [exact Hupd|].
  split; [apply Hkeys; vm_compute; tauto|].
  split; [apply Hkeys; vm_compute; tauto|].
  destruct (Lane2laneConnection.exist c' 11%positive) eqn:He; [|reflexivity].
  apply Hkeys in He. vm_compute in He.
  destruct He as [He|[He|[]]]; discriminate.
Defined.

(* ================================================================== *)
(** * Geometry: further properties of the updates                      *)
(* ================================================================== *)

(** X1.  The trimming variant hands a proper window to the sub-path
    extraction: for a shape at least one eps long and an end position
    that is unset (negative) or not before the begin position, the clamped
    window satisfies 0 <= begin < end <= length, with begin at most
    length - eps; a begin position inside [0, length - eps] passes
    unchanged, and so does an end position inside the shape that lies
    after a non-negative begin position. *)
Theorem clampTrim_proper_window `{StdDefs} (len b e : R) :
  0 < POSITION_EPS ->
  POSITION_EPS <= len ->
  e < 0 \/ b <= e ->
  let window := Geometry.clampTrim len b e in
  0 <= fst window /\
  fst window <= len - POSITION_EPS /\
  fst window < snd window /\
  snd window <= len /\
  (0 <= b <= len - POSITION_EPS -> fst window = b) /\
  (0 <= b < e -> e <= len -> snd window = e).
Proof.
  intros Heps Hlen Horder. cbv zeta.
  unfold Geometry.clampTrim. cbn [fst snd].
  destruct Horder as [Hunset|Hbe]; repeat split; intros; real_cases; lra.
Qed.

(** A shape of length 10 trimmed between 2 and 7, tolerance 0.1. *)
Lemma clampTrim_proper_window_witness :
  let window := @Geometry.clampTrim eps01 10 2 7 in
  fst window = 2 /\ snd window = 7 /\ fst window < snd window.
Proof.
  cbv zeta.
  destruct (@clampTrim_proper_window eps01 10 2 7) as (_ & _ & Hlt & _ & Hb & He).
  - unfold POSITION_EPS, eps01. lra.
  - unfold POSITION_EPS, eps01. lra.
  - right. lra.
  - split; [apply Hb; unfold POSITION_EPS, eps01; lra|].
    split; [apply He; lra | exact Hlt].
Defined.

(** X2.  For a start offset inside [0, length - eps] and a non-negative
    end offset, the variant with start and end offsets computes what the
    trimming variant computes on the shifted shape without extra end
    points: the same window and the same geometry. *)
Theorem startEnd_agrees_with_trim `{PositionVector.Ops} `{StdDefs}
    (g g' : Geometry.t) (shape : PositionVector.t) (s e lateralOffset : R) :
  let shifted := PositionVector.move2side shape lateralOffset in
  0 <= s <= PositionVector.length2D shifted - POSITION_EPS ->
  0 <= e ->
  Geometry.clampStartEnd (PositionVector.length2D shifted) s e =
    Geometry.clampTrim (PositionVector.length2D shifted) s e /\
  Geometry.updateGeometry_startEnd g shape s e lateralOffset =
    Geometry.updateGeometry_trim g' shifted s e
      PositionVector.INVALID PositionVector.INVALID.
Proof.
  cbv zeta. intros [Hs0 Hs1] He.
  assert (Hwin : Geometry.clampStartEnd
                   (PositionVector.length2D
                      (PositionVector.move2side shape lateralOffset)) s e =
                 Geometry.clampTrim
                   (PositionVector.length2D
                      (PositionVector.move2side shape lateralOffset)) s e).
  { unfold Geometry.clampStartEnd, Geometry.clampTrim.
    real_cases; try lra; reflexivity. }
  split; [exact Hwin|].
  unfold Geometry.updateGeometry_startEnd, Geometry.updateGeometry_trim.
  cbn [Geometry.clearGeometry Geometry.myShape Geometry.myShapeRotations
       Geometry.myShapeLengths].
  rewrite Hwin.
  assert (Hcond : Rneb s (-1) = true).
  { unfold Rneb. destruct (Req_dec_T s (-1)); [lra | reflexivity]. }
  rewrite Hcond. cbn [orb].
  destruct (Geometry.clampTrim _ s e) as [b' e'].
  destruct (Position.eq_dec PositionVector.INVALID PositionVector.INVALID)
    as [_|Hne]; [reflexivity | now elim Hne].
Qed.

(** The polyline {(0,0),(0,10)} between the offsets 2 and 7. *)
Lemma startEnd_agrees_with_trim_witness :
  @Geometry.updateGeometry_startEnd plainPath eps01 Geometry.empty
    [Position.mk 0 0 0; Position.mk 0 10 0] 2 7 0 =
  @Geometry.updateGeometry_trim plainPath eps01 Geometry.empty
    [Position.mk 0 0 0; Position.mk 0 10 0] 2 7
    (@PositionVector.INVALID plainPath) (@PositionVector.INVALID plainPath).
Proof.
  apply (@startEnd_agrees_with_trim plainPath eps01 Geometry.empty Geometry.empty
           [Position.mk 0 0 0; Position.mk 0 10 0] 2 7 0).
  - cbn [PositionVector.move2side PositionVector.length2D plainPath].
    rewrite polylineLength2D_two_points by lra.
    unfold POSITION_EPS, eps01. lra.
  - lra.
Defined.

(** X3.  The projection of a point on a path of non-negative length
    asks for the position and the rotation at one and the same offset,
    which lies in [0, length] and is the given position when that is in
    range; the result is this one point with its rotation and no
    length. *)
Theorem updateGeometry_pos_clamps `{PositionVector.Ops}
    (g : Geometry.t) (shape : PositionVector.t) (posOverShape lateralOffset : R) :
  0 <= PositionVector.length shape ->
  exists offset : R,
    0 <= offset <= PositionVector.length shape /\
    (0 <= posOverShape <= PositionVector.length shape -> offset = posOverShape) /\
    (posOverShape < 0 -> offset = 0) /\
    (posOverShape > PositionVector.length shape ->
       offset = PositionVector.length shape) /\
    Geometry.updateGeometry_pos g shape posOverShape lateralOffset =
      Geometry.mk [PositionVector.positionAtOffset shape offset lateralOffset]
                  [PositionVector.rotationDegreeAtOffset shape offset] [].
Proof.
  intros Hlen. unfold Geometry.updateGeometry_pos.
  cbn [Geometry.clearGeometry Geometry.myShape Geometry.myShapeRotations
       Geometry.myShapeLengths app].
  destruct (Rlt_dec posOverShape 0) as [Hneg|Hnn].
  - exists 0. repeat split; try lra.
  - destruct (Rgt_dec posOverShape (PositionVector.length shape)) as [Hgt|Hle].
    + exists (PositionVector.length shape). repeat split; try lra.
    + exists posOverShape. repeat split; try lra.
Qed.

(** A position beyond the end of the polyline {(0,0),(0,10)}. *)
Lemma updateGeometry_pos_clamps_witness :
  exists offset : R,
    0 <= offset <= 10 /\
    @Geometry.updateGeometry_pos plainPath Geometry.empty
      [Position.mk 0 0 0; Position.mk 0 10 0] 25 0 =
    Geometry.mk
      [@PositionVector.positionAtOffset plainPath
         [Position.mk 0 0 0; Position.mk 0 10 0] offset 0]
      [@PositionVector.rotationDegreeAtOffset plainPath
         [Position.mk 0 0 0; Position.mk 0 10 0] offset] [].
Proof.
  destruct (@updateGeometry_pos_clamps plainPath Geometry.empty
              [Position.mk 0 0 0; Position.mk 0 10 0] 25 0)
    as (offset & Hrange & _ & _ & _ & Hres).
  - cbn [PositionVector.length plainPath].
    rewrite polylineLength2D_two_points by lra. lra.
  - cbn [PositionVector.length plainPath] in Hrange.
    rewrite polylineLength2D_two_points in Hrange by lra.
    exists offset. split; [exact Hrange | exact Hres].
Defined.

(** X6.  The recomputation of the caches drops what the caches held: it
    gives the geometry built from the shape alone, so a second
    recomputation changes nothing, and no update keeps anything of the
    geometry it is applied to. *)
Theorem geometry_recompute_idempotent `{PositionVector.Ops} `{StdDefs}
    (g g' : Geometry.t) :
  Geometry.calculateShapeRotationsAndLengths g =
    Geometry.fromShape (Geometry.myShape g) /\
  Geometry.calculateShapeRotationsAndLengths
    (Geometry.calculateShapeRotationsAndLengths g) =
    Geometry.calculateShapeRotationsAndLengths g /\
  (forall shape, Geometry.updateGeometry g shape = Geometry.fromShape shape) /\
  (forall shape s e lateralOffset,
     Geometry.updateGeometry_startEnd g shape s e lateralOffset =
     Geometry.updateGeometry_startEnd g' shape s e lateralOffset) /\
  (forall shape b e extraFirst extraLast,
     Geometry.updateGeometry_trim g shape b e extraFirst extraLast =
     Geometry.updateGeometry_trim g' shape b e extraFirst extraLast) /\
  (forall shape posOverShape lateralOffset,
     Geometry.updateGeometry_pos g shape posOverShape lateralOffset =
     Geometry.updateGeometry_pos g' shape posOverShape lateralOffset).
Proof.
  assert (Hfrom : forall h, Geometry.calculateShapeRotationsAndLengths h =
                            Geometry.fromShape (Geometry.myShape h)).
  { intros h. unfold Geometry.fromShape. now rewrite !calculate_closed_form. }
  split; [apply Hfrom|]. split.
  - rewrite (Hfrom (Geometry.calculateShapeRotationsAndLengths g)).
    now rewrite calculate_shape, <- Hfrom.
  - repeat split.
Qed.

(* ================================================================== *)
(** * adjustStartPosGeometricPath                                      *)
(* ================================================================== *)

(** X7.  A position given with its lane is moved into
    [eps, length - eps] when the lane is at least two eps long, and
    collapses to length - eps on a shorter lane; the unset position -1
    and a position whose lane is null are left as they are.  The end
    position comes out unset or clamped in the same way. *)
Theorem adjust_positions_into_lane `{Network} `{StdDefs}
    (startPos : R) (startLane : option GNELane)
    (endPos : R) (endLane : option GNELane) :
  let adjusted := adjustStartPosGeometricPath startPos startLane endPos endLane in
  (forall lane, startLane = Some lane -> startPos <> -1 ->
     let len := PositionVector.length (getLaneShape lane) in
     (2 * POSITION_EPS <= len ->
        POSITION_EPS <= fst adjusted <= len - POSITION_EPS) /\
     (len < 2 * POSITION_EPS -> fst adjusted = len - POSITION_EPS)) /\
  (forall lane, endLane = Some lane ->
     let len := PositionVector.length (getLaneShape lane) in
     snd adjusted = -1 \/
     (2 * POSITION_EPS <= len ->
        POSITION_EPS <= snd adjusted <= len - POSITION_EPS) /\
     (len < 2 * POSITION_EPS -> snd adjusted = len - POSITION_EPS)) /\
  (startPos = -1 -> fst adjusted = -1) /\
  (endPos = -1 -> snd adjusted = -1) /\
  (startLane = None -> fst adjusted = startPos) /\
  (endLane = None -> snd adjusted = endPos).
Proof.
  cbv zeta. unfold adjustStartPosGeometricPath. cbn [fst snd].
  split; [|split; [|split; [|split; [|split]]]].
  - intros lane -> Hset. unfold Rneb.
    destruct (Req_dec_T startPos (-1)) as [Heq|_]; [contradiction|].
    split; intros Hlen; real_cases; lra.
  - intros lane ->.
    set (endPos1 := match startLane with Some _ => _ | None => _ end).
    destruct (Req_dec_T endPos1 (-1)) as [Heq|Hne].
    + left. unfold Rneb. destruct (Req_dec_T endPos1 (-1)); [exact Heq | contradiction].
    + right. unfold Rneb. destruct (Req_dec_T endPos1 (-1)); [contradiction|].
      split; intros Hlen; real_cases; lra.
  - intros ->. unfold Rneb.
    destruct (Req_dec_T (-1) (-1)) as [_|Hne]; [|now elim Hne].
    now destruct startLane.
  - intros ->.
    assert (Hunset : Rneb (-1) (-1) = false).
    { unfold Rneb. destruct (Req_dec_T (-1) (-1)); [reflexivity | contradiction]. }
    destruct startLane, endLane;
      rewrite ?Hunset, ?andb_false_r; cbv beta iota; rewrite ?Hunset; reflexivity.
  - now intros ->.
  - intros ->. now destruct startLane.
Qed.

(** Lane 21 of the small network, 10 long, with the positions 12 and 3. *)
Lemma adjust_positions_into_lane_witness :
  let adjusted :=
    @adjustStartPosGeometricPath plainPath smallNetwork eps01
      12 (Some 21%positive) 3 (Some 22%positive) in
  0.1 <= fst adjusted <= 10 - 0.1.
Proof.
  cbv zeta.
  destruct (proj1 (@adjust_positions_into_lane plainPath smallNetwork eps01
                     12 (Some 21%positive) 3 (Some 22%positive))
              21%positive eq_refl ltac:(lra)) as [Hlong _].
  cbn [getLaneShape smallNetwork PositionVector.length plainPath] in Hlong.
  rewrite polylineLength2D_two_points in Hlong by lra.
  apply Hlong. unfold POSITION_EPS, eps01. lra.
Defined.

(** X8.  Two positions set on the same lane leave the adjustment in
    order, start <= end, provided the end is not pushed onto the value
    -1 that marks an unset position (start + eps <> -1).  When the start
    lies in [eps, length - 2 eps] it is kept and the end is strictly
    behind it and at most length - eps; an end that was not behind the
    start becomes start + eps. *)
Theorem adjust_keeps_order `{Network} `{StdDefs}
    (startPos endPos : R) (lane : GNELane) :
  let len := PositionVector.length (getLaneShape lane) in
  let adjusted :=
    adjustStartPosGeometricPath startPos (Some lane) endPos (Some lane) in
  0 < POSITION_EPS ->
  startPos <> -1 -> endPos <> -1 ->
  (startPos + POSITION_EPS <> -1 -> fst adjusted <= snd adjusted) /\
  (POSITION_EPS <= startPos <= len - 2 * POSITION_EPS ->
     fst adjusted = startPos /\
     fst adjusted < snd adjusted <= len - POSITION_EPS /\
     (startPos >= endPos -> snd adjusted = startPos + POSITION_EPS)).
Proof.
  cbv zeta. intros Heps Hs He.
  assert (Hset : forall r, r <> -1 -> Rneb r (-1) = true).
  { intros r Hr. unfold Rneb. destruct (Req_dec_T r (-1)); [contradiction | reflexivity]. }
  unfold adjustStartPosGeometricPath. cbn [fst snd].
  rewrite bool_decide_eq_true_2 by reflexivity.
  rewrite (Hset startPos Hs), (Hset endPos He). cbn [andb]. cbv beta iota.
  destruct (Rge_dec startPos endPos) as [Hge|Hlt]; cbv beta iota.
  - split.
    + intros Hsent. rewrite (Hset _ Hsent). real_cases; lra.
    + intros [Hlo Hhi]. rewrite Hset by lra.
      repeat split; intros; real_cases; lra.
  - rewrite (Hset endPos He). split.
    + intros _. real_cases; lra.
    + intros [Hlo Hhi]. repeat split; intros; real_cases; lra.
Qed.

(** Start 4 and end 3 on lane 21 of the small network. *)
Lemma adjust_keeps_order_witness :
  let adjusted :=
    @adjustStartPosGeometricPath plainPath smallNetwork eps01
      4 (Some 21%positive) 3 (Some 21%positive) in
  fst adjusted = 4 /\ snd adjusted = 4 + 0.1.
Proof.
  cbv zeta.
  destruct (@adjust_keeps_order plainPath smallNetwork eps01 4 3 21%positive)
    as [_ Hroom].
  - unfold POSITION_EPS, eps01. lra.
  - lra.
  - lra.
  - destruct Hroom as (Hstart & _ & Hend).
    + cbn [getLaneShape smallNetwork PositionVector.length plainPath].
      rewrite polylineLength2D_two_points by lra.
      unfold POSITION_EPS, eps01. lra.
    + split; [exact Hstart | apply Hend; lra].
Defined.

(* ================================================================== *)
(** * DottedGeometry: segments and their caches                        *)
(* ================================================================== *)

(** X9.  A dotted geometry built from a polyline has one segment per
    pair of neighbouring points of the path (none for a path of less
    than two points), its width is the configured one, every segment has
    the offset -1 and caches that fit its resampled shape, and segment
    [i] is the resampling of the two points [i] and [i + 1] of the
    path. *)
Theorem dotted_fromShape_segments `{PositionVector.Ops}
    (s : GUIVisualizationSettings.t) (shape : PositionVector.t) (closeShape : bool) :
  let path :=
    if closeShape && (2 <? List.length shape)%nat
    then PositionVector.closePolygon shape else shape in
  let d := DottedGeometry.fromShape s shape closeShape in
  DottedGeometry.myWidth d =
    GUIVisualizationSettings.segmentWidth
      (GUIVisualizationSettings.dottedContourSettings s) /\
  List.length (DottedGeometry.myDottedGeometrySegments d) =
    (List.length path - 1)%nat /\
  Forall (fun segment => segmentCachesFit segment /\
                         DottedGeometry.Segment.offset segment = (-1)%Z)
         (DottedGeometry.myDottedGeometrySegments d) /\
  (forall i : nat, (i + 1 < List.length path)%nat ->
     DottedGeometry.Segment.shape
       (nth i (DottedGeometry.myDottedGeometrySegments d) Dotted.emptySegment) =
     PositionVector.resample
       [PositionVector.at_ path i; PositionVector.at_ path (i + 1)]
       (DottedGeometry.calculateSegmentLength s path) true).
Proof.
  cbv zeta. unfold DottedGeometry.fromShape.
  set (path := if closeShape && (2 <? List.length shape)%nat
               then PositionVector.closePolygon shape else shape).
  destruct (Nat.ltb_spec 1 (List.length path)) as [Hlong|Hshort].
  - unfold DottedGeometry.calculateShapeRotationsAndLengths.
    cbn [DottedGeometry.myWidth DottedGeometry.myDottedGeometrySegments app].
    split; [reflexivity|]. split.
    + rewrite !length_map. unfold DottedGeometry.pairSegments.
      now rewrite length_map, length_seq.
    + split.
      * rewrite map_map. apply List.Forall_map, List.Forall_forall.
        intros segment Hin. unfold DottedGeometry.pairSegments in Hin.
        apply in_map_iff in Hin. destruct Hin as (i & <- & _).
        unfold DottedGeometry.Segment.create.
        destruct (resampled_segment_fits
                    (DottedGeometry.calculateSegmentLength s path)
                    [PositionVector.at_ path (i - 1); PositionVector.at_ path i]
                    (-1)%Z) as (Hfit & _ & Hoff).
        split; assumption.
      * intros i Hi. rewrite map_map.
        rewrite (nth_indep _ Dotted.emptySegment
                   ((fun x => DottedGeometry.Segment.calculateRotationsAndLengths
                                (DottedGeometry.resampleSegment
                                   (DottedGeometry.calculateSegmentLength s path) x))
                      Dotted.emptySegment)).
        2:{ rewrite length_map. unfold DottedGeometry.pairSegments.
            rewrite length_map, length_seq. lia. }
        rewrite (map_nth (fun x => DottedGeometry.Segment.calculateRotationsAndLengths
                                     (DottedGeometry.resampleSegment
                                        (DottedGeometry.calculateSegmentLength s path) x))).
        rewrite pairSegments_nth by exact Hi.
        unfold DottedGeometry.Segment.create.
        now destruct (resampled_segment_fits
                        (DottedGeometry.calculateSegmentLength s path)
                        [PositionVector.at_ path i; PositionVector.at_ path (i + 1)]
                        (-1)%Z) as (_ & Hshape & _).
  - cbn [DottedGeometry.myWidth DottedGeometry.myDottedGeometrySegments].
    split; [reflexivity|]. split; [cbn; lia|].
    split; [constructor|]. intros i Hi. lia.
Qed.

(** The two points {(0,0),(0,10)} give one segment. *)
Lemma dotted_fromShape_segments_witness :
  DottedGeometry.Segment.shape
    (nth 0 (DottedGeometry.myDottedGeometrySegments
              (@DottedGeometry.fromShape plainPath plainSettings
                 [Position.mk 0 0 0; Position.mk 0 10 0] false))
         Dotted.emptySegment) =
  [Position.mk 0 0 0; Position.mk 0 10 0].
Proof.
  apply (proj2 (proj2 (proj2 (@dotted_fromShape_segments plainPath plainSettings
           [Position.mk 0 0 0; Position.mk 0 10 0] false))) 0%nat).
  cbn. lia.
Defined.

(** X10.  The dotted geometry that joins two others holds at most two
    segments: the first extreme, from the first point of the top to the
    first point of the bottom, with the offset -1, when it is asked for
    and both first shapes have a point; then the last extreme, between the
    two last points, with the inverted offset 1, under the same
    conditions at the back.  Nothing is built when one of the two
    geometries has no segment.  Every segment built has fitting caches. *)
Theorem dotted_fromExtremes_segments `{PositionVector.Ops}
    (s : GUIVisualizationSettings.t) (top bot : DottedGeometry.t)
    (drawFirstExtrem drawLastExtrem : bool) :
  let topSegments := DottedGeometry.myDottedGeometrySegments top in
  let botSegments := DottedGeometry.myDottedGeometrySegments bot in
  let topFront := DottedGeometry.Segment.shape (List.hd Dotted.emptySegment topSegments) in
  let botFront := DottedGeometry.Segment.shape (List.hd Dotted.emptySegment botSegments) in
  let topBack := DottedGeometry.Segment.shape (List.last topSegments Dotted.emptySegment) in
  let botBack := DottedGeometry.Segment.shape (List.last botSegments Dotted.emptySegment) in
  let both := (0 <? List.length topSegments)%nat && (0 <? List.length botSegments)%nat in
  let first :=
    both && (drawFirstExtrem && (0 <? List.length topFront)%nat &&
             (0 <? List.length botFront)%nat) in
  let last :=
    both && (drawLastExtrem && (0 <? List.length topBack)%nat &&
             (0 <? List.length botBack)%nat) in
  let step :=
    GUIVisualizationSettings.segmentLength
      (GUIVisualizationSettings.dottedContourSettings s) in
  let d := Dotted.fromExtremes s top drawFirstExtrem bot drawLastExtrem in
  DottedGeometry.myWidth d =
    GUIVisualizationSettings.segmentWidth
      (GUIVisualizationSettings.dottedContourSettings s) /\
  map DottedGeometry.Segment.offset (DottedGeometry.myDottedGeometrySegments d) =
    (if first then [(-1)%Z] else []) ++ (if last then [1%Z] else []) /\
  map DottedGeometry.Segment.shape (DottedGeometry.myDottedGeometrySegments d) =
    (if first
     then [PositionVector.resample
             [List.hd Position.origin topFront; List.hd Position.origin botFront]
             step true]
     else []) ++
    (if last
     then [PositionVector.resample
             [List.last topBack Position.origin; List.last botBack Position.origin]
             step true]
     else []) /\
  Forall segmentCachesFit (DottedGeometry.myDottedGeometrySegments d).
Proof.
  cbv zeta. unfold Dotted.fromExtremes.
  set (both := (0 <? List.length (DottedGeometry.myDottedGeometrySegments top))%nat &&
               (0 <? List.length (DottedGeometry.myDottedGeometrySegments bot))%nat).
  set (first := drawFirstExtrem && _ && _).
  set (last := drawLastExtrem && _ && _).
  unfold DottedGeometry.calculateShapeRotationsAndLengths.
  cbn [DottedGeometry.myWidth DottedGeometry.myDottedGeometrySegments].
  split; [reflexivity|].
  destruct both; [|cbn; repeat split; constructor].
  cbn [andb].
  destruct first, last; cbn [app map List.removelast List.last];
    rewrite ?segment_calculate_closed_form;
    cbn [DottedGeometry.resampleSegment DottedGeometry.Segment.create
         Dotted.invertSegment DottedGeometry.Segment.shape
         DottedGeometry.Segment.rotations DottedGeometry.Segment.lengths
         DottedGeometry.Segment.offset map app];
    (split; [reflexivity|]); (split; [reflexivity|]);
    repeat constructor;
    cbn [DottedGeometry.Segment.shape DottedGeometry.Segment.rotations
         DottedGeometry.Segment.lengths];
    now rewrite length_map, length_seq.
Qed.

(** X11.  The update of a dotted geometry from a lane is the update from
    the shape of the lane without closing, and neither keeps anything of
    the geometry it is applied to: width and segments are replaced. *)
Theorem dotted_update_lane_is_shape `{Network}
    (d d' : DottedGeometry.t) (s : GUIVisualizationSettings.t) (lane : GNELane) :
  Dotted.updateDottedGeometry_lane d s lane =
    Dotted.updateDottedGeometry_shape d s (getLaneShape lane) false /\
  Dotted.updateDottedGeometry_lane d s lane =
    Dotted.updateDottedGeometry_lane d' s lane /\
  (forall shape closeShape,
     Dotted.updateDottedGeometry_shape d s shape closeShape =
     Dotted.updateDottedGeometry_shape d' s shape closeShape).
Proof.
  split; [|split; reflexivity].
  unfold Dotted.updateDottedGeometry_lane, Dotted.updateDottedGeometry_shape.
  cbn [andb DottedGeometry.myWidth DottedGeometry.myDottedGeometrySegments app].
  destruct (Nat.ltb_spec 1 (List.length (getLaneShape lane))) as [Hlong|Hshort];
    [reflexivity|].
  unfold DottedGeometry.pairSegments.
  replace (List.length (getLaneShape lane) - 1)%nat with 0%nat by lia.
  reflexivity.
Qed.

(** X12.  For a path of at most 500 units, or of less than two points,
    the update of a dotted geometry from a shape gives the geometry the
    constructor gives.  The update has no length ceiling: at every length
    of the path it holds one segment per pair of neighbouring points, and
    segment [i] is the resampling of the points [i] and [i + 1] with the
    configured dash length. *)
Theorem dotted_update_is_constructor `{PositionVector.Ops}
    (d : DottedGeometry.t) (s : GUIVisualizationSettings.t)
    (shape : PositionVector.t) (closeShape : bool) :
  let path :=
    if closeShape && (2 <? List.length shape)%nat
    then PositionVector.closePolygon shape else shape in
  let updated := Dotted.updateDottedGeometry_shape d s shape closeShape in
  (PositionVector.length2D path <= 500 \/ (List.length path <= 1)%nat ->
   updated = DottedGeometry.fromShape s shape closeShape) /\
  List.length (DottedGeometry.myDottedGeometrySegments updated) =
    (List.length path - 1)%nat /\
  (forall i : nat, (i + 1 < List.length path)%nat ->
     DottedGeometry.Segment.shape
       (nth i (DottedGeometry.myDottedGeometrySegments updated) Dotted.emptySegment) =
     PositionVector.resample
       [PositionVector.at_ path i; PositionVector.at_ path (i + 1)]
       (GUIVisualizationSettings.segmentLength
          (GUIVisualizationSettings.dottedContourSettings s)) true).
Proof.
  cbv zeta.
  set (path := if closeShape && (2 <? List.length shape)%nat
               then PositionVector.closePolygon shape else shape).
  split; [|split].
  - intros Hcase.
    unfold Dotted.updateDottedGeometry_shape, DottedGeometry.fromShape.
    fold path.
    cbn [DottedGeometry.myWidth DottedGeometry.myDottedGeometrySegments app].
    destruct (Nat.ltb_spec 1 (List.length path)) as [Hlong|Hshort]; [|reflexivity].
    destruct Hcase as [Hlen|Hsmall]; [|lia].
    unfold DottedGeometry.calculateSegmentLength, MAXIMUM_DOTTEDGEOMETRYLENGTH.
    destruct (Rgt_dec (PositionVector.length2D path) 500); [lra | reflexivity].
  - destruct (Nat.ltb_spec 1 (List.length path)) as [Hlong|Hshort].
    + rewrite (updateDottedGeometry_shape_segments d s shape closeShape) by exact Hlong.
      fold path. rewrite !length_map. unfold DottedGeometry.pairSegments.
      now rewrite length_map, length_seq.
    + unfold Dotted.updateDottedGeometry_shape. fold path.
      apply Nat.ltb_ge in Hshort. rewrite Hshort.
      cbn [DottedGeometry.myWidth DottedGeometry.myDottedGeometrySegments List.length].
      apply Nat.ltb_ge in Hshort. lia.
  - intros i Hi.
    rewrite (updateDottedGeometry_shape_segments d s shape closeShape) by (fold path; lia).
    fold path. now apply resampled_pairs_nth.
Qed.

(** The path {(0,0),(0,10)} of length 10. *)
Lemma dotted_update_is_constructor_witness :
  @Dotted.updateDottedGeometry_shape plainPath Dotted.empty plainSettings
    [Position.mk 0 0 0; Position.mk 0 10 0] false =
  @DottedGeometry.fromShape plainPath plainSettings
    [Position.mk 0 0 0; Position.mk 0 10 0] false.
Proof.
  apply (proj1 (@dotted_update_is_constructor plainPath Dotted.empty plainSettings
                  [Position.mk 0 0 0; Position.mk 0 10 0] false)).
  left. cbn [andb PositionVector.length2D plainPath].
  rewrite polylineLength2D_two_points; lra.
Defined.

Lemma invertSegment_involutive (segment : DottedGeometry.Segment.t) :
  Dotted.invertSegment (Dotted.invertSegment segment) = segment.
Proof.
  destruct segment as [shape rotations lengths offset].
  unfold Dotted.invertSegment.
  cbn [DottedGeometry.Segment.shape DottedGeometry.Segment.rotations
       DottedGeometry.Segment.lengths DottedGeometry.Segment.offset].
  f_equal. lia.
Qed.

(** X13.  Inverting the offsets twice gives the dotted geometry back.
    Moving the shapes to the side keeps the rotations, the lengths and
    the offsets as they were computed for the shapes before the move, and
    it commutes with the inversion of the offsets. *)
Theorem dotted_invert_and_move `{PositionVector.Ops}
    (d : DottedGeometry.t) (value : R) :
  Dotted.invertOffset (Dotted.invertOffset d) = d /\
  map DottedGeometry.Segment.rotations
      (DottedGeometry.myDottedGeometrySegments (Dotted.moveShapeToSide d value)) =
    map DottedGeometry.Segment.rotations (DottedGeometry.myDottedGeometrySegments d) /\
  map DottedGeometry.Segment.lengths
      (DottedGeometry.myDottedGeometrySegments (Dotted.moveShapeToSide d value)) =
    map DottedGeometry.Segment.lengths (DottedGeometry.myDottedGeometrySegments d) /\
  map DottedGeometry.Segment.offset
      (DottedGeometry.myDottedGeometrySegments (Dotted.moveShapeToSide d value)) =
    map DottedGeometry.Segment.offset (DottedGeometry.myDottedGeometrySegments d) /\
  map DottedGeometry.Segment.shape
      (DottedGeometry.myDottedGeometrySegments (Dotted.moveShapeToSide d value)) =
    map (fun segment =>
           PositionVector.move2side (DottedGeometry.Segment.shape segment) value)
        (DottedGeometry.myDottedGeometrySegments d) /\
  Dotted.moveShapeToSide (Dotted.invertOffset d) value =
    Dotted.invertOffset (Dotted.moveShapeToSide d value).
Proof.
  destruct d as [width segments].
  unfold Dotted.invertOffset, Dotted.moveShapeToSide.
  cbn [DottedGeometry.myWidth DottedGeometry.myDottedGeometrySegments].
  rewrite !map_map.
  split.
  - f_equal. rewrite <- (map_id segments) at 2. apply map_ext.
    apply invertSegment_involutive.
  - repeat split; reflexivity.
Qed.

(* ================================================================== *)
(** * DottedGeometry: drawing                                          *)
(* ================================================================== *)

Lemma getColor_uniform `{RGBColor.Ops} (c : DottedGeometryColor.t)
    (type : DottedContourType.t) :
  DottedGeometryColor.getColor c type = (dashColorAt c type 0, colorAfterDashes c type 1).
Proof.
  destruct c as [s flag]. unfold dashColorAt, colorAfterDashes.
  destruct type, flag; reflexivity.
Qed.

Lemma colorAfterDashes_step (c : DottedGeometryColor.t)
    (type : DottedContourType.t) (m : nat) :
  colorAfterDashes (colorAfterDashes c type m) type 1 = colorAfterDashes c type (S m).
Proof.
  unfold colorAfterDashes.
  cbn [DottedGeometryColor.mySettings DottedGeometryColor.myColorFlag].
  f_equal. replace (Nat.odd 1) with true by reflexivity.
  rewrite (Nat.odd_succ m), <- (Nat.negb_odd m).
  destruct (DottedGeometryColor.myColorFlag c), (flipsColor type), (Nat.odd m);
    reflexivity.
Qed.

Lemma dashColorAt_step `{RGBColor.Ops} (c : DottedGeometryColor.t)
    (type : DottedContourType.t) (m : nat) :
  dashColorAt (colorAfterDashes c type m) type 0 = dashColorAt c type m.
Proof.
  unfold dashColorAt, colorAfterDashes.
  cbn [DottedGeometryColor.mySettings DottedGeometryColor.myColorFlag Nat.odd
       Nat.even].
  destruct (contourColors (DottedGeometryColor.mySettings c) type) as [[first second]|];
    [|reflexivity].
  now rewrite andb_false_r, xorb_false_r.
Qed.

Lemma dashColors_app (calls calls' : list GLHelper.call) :
  dashColors (calls ++ calls') = dashColors calls ++ dashColors calls'.
Proof. unfold dashColors. apply flat_map_app. Qed.

(** One dash more. *)
Lemma drawDash_step `{RGBColor.Ops} (c : DottedGeometryColor.t)
    (type : DottedContourType.t) (width : R)
    (segment : DottedGeometry.Segment.t) (i m : nat)
    (calls : list GLHelper.call) (after : DottedGeometryColor.t) :
  (i < List.length (DottedGeometry.Segment.rotations segment))%nat ->
  (i < List.length (DottedGeometry.Segment.lengths segment))%nat ->
  dashesDrawn c type width m calls after ->
  exists calls' after',
    Dotted.drawDash type width segment (Some (calls, after)) i = Some (calls', after') /\
    dashesDrawn c type width (S m) calls' after'.
Proof.
  intros Hrot Hlen (Hafter & Hcount & Hcolors & Hcalls).
  apply lookup_lt_is_Some_2 in Hrot. destruct Hrot as [rotation Hrot].
  apply lookup_lt_is_Some_2 in Hlen. destruct Hlen as [length Hlen].
  unfold Dotted.drawDash. rewrite getColor_uniform, Hrot, Hlen.
  eexists. eexists. split; [reflexivity|].
  subst after. unfold dashesDrawn.
  split; [apply colorAfterDashes_step|].
  split; [rewrite !length_app, Hcount; cbn; lia|].
  split.
  - rewrite !dashColors_app, Hcolors, seq_S, map_app.
    cbn [dashColors flat_map app map Nat.add]. rewrite app_nil_r.
    now rewrite dashColorAt_step.
  - apply Forall_app. split; [apply Forall_app; split|].
    + exact Hcalls.
    + repeat constructor.
    + repeat constructor.
Qed.

(** The dashes of one segment whose caches are long enough. *)
Lemma drawSegment_dashes `{RGBColor.Ops} (c : DottedGeometryColor.t)
    (type : DottedContourType.t) (width : R)
    (segment : DottedGeometry.Segment.t) (n m : nat)
    (calls : list GLHelper.call) (after : DottedGeometryColor.t) :
  (n <= List.length (DottedGeometry.Segment.rotations segment))%nat ->
  (n <= List.length (DottedGeometry.Segment.lengths segment))%nat ->
  dashesDrawn c type width m calls after ->
  exists calls' after',
    fold_left (Dotted.drawDash type width segment) (seq 0 n) (Some (calls, after)) =
      Some (calls', after') /\
    dashesDrawn c type width (m + n) calls' after'.
Proof.
  induction n as [|n IH]; intros Hrot Hlen Hdrawn.
  - exists calls, after. rewrite Nat.add_0_r. now split.
  - destruct IH as (calls1 & after1 & Hfold & Hdrawn1); [lia | lia | exact Hdrawn |].
    destruct (drawDash_step c type width segment n (m + n) calls1 after1)
      as (calls2 & after2 & Hstep & Hdrawn2); [lia | lia | exact Hdrawn1 |].
    exists calls2, after2. split.
    + rewrite seq_S, fold_left_app, Hfold. exact Hstep.
    + now rewrite Nat.add_succ_r.
Qed.

(** The dashes of a list of segments. *)
Lemma drawSegments_dashes `{RGBColor.Ops} (c : DottedGeometryColor.t)
    (type : DottedContourType.t) (width : R)
    (segments : list DottedGeometry.Segment.t) (m : nat)
    (calls : list GLHelper.call) (after : DottedGeometryColor.t) :
  Forall (fun segment =>
            (List.length (DottedGeometry.Segment.shape segment) - 1 <=
               List.length (DottedGeometry.Segment.rotations segment))%nat /\
            (List.length (DottedGeometry.Segment.shape segment) - 1 <=
               List.length (DottedGeometry.Segment.lengths segment))%nat) segments ->
  dashesDrawn c type width m calls after ->
  exists calls' after',
    fold_left
      (fun state segment =>
         fold_left (Dotted.drawDash type width segment)
           (seq 0 (Z.to_nat
                     (Z.of_nat (List.length (DottedGeometry.Segment.shape segment)) - 1)))
           state)
      segments (Some (calls, after)) = Some (calls', after') /\
    dashesDrawn c type width
      (m + list_sum (map (fun segment =>
                            (List.length (DottedGeometry.Segment.shape segment) - 1)%nat)
                         segments))
      calls' after'.
Proof.
  revert m calls after.
  induction segments as [|segment segments IH]; intros m calls after Hfit Hdrawn.
  - exists calls, after. cbn. rewrite Nat.add_0_r. now split.
  - apply List.Forall_cons_iff in Hfit. destruct Hfit as [[Hrot Hlen] Hfit].
    destruct (drawSegment_dashes c type width segment
                (List.length (DottedGeometry.Segment.shape segment) - 1) m calls after)
      as (calls1 & after1 & Hfold & Hdrawn1); [exact Hrot | exact Hlen | exact Hdrawn |].
    destruct (IH _ calls1 after1 Hfit Hdrawn1) as (calls2 & after2 & Hrest & Hdrawn2).
    exists calls2, after2. split.
    + cbn [fold_left].
      replace (Z.to_nat (Z.of_nat (List.length (DottedGeometry.Segment.shape segment)) - 1))
        with (List.length (DottedGeometry.Segment.shape segment) - 1)%nat by lia.
      rewrite Hfold. exact Hrest.
    + cbn [map list_sum fold_right]. now rewrite Nat.add_assoc.
Qed.

Lemma dashesDrawn_start `{RGBColor.Ops} (c : DottedGeometryColor.t)
    (type : DottedContourType.t) (width : R) :
  dashesDrawn c type width 0 [] c.
Proof.
  unfold dashesDrawn, colorAfterDashes. destruct c as [s flag].
  cbn [DottedGeometryColor.mySettings DottedGeometryColor.myColorFlag Nat.odd
       Nat.even negb].
  rewrite andb_false_r, xorb_false_r. repeat split. constructor.
Qed.

Lemma fitting_caches_suffice (segments : list DottedGeometry.Segment.t) :
  Forall segmentCachesFit segments ->
  Forall (fun segment =>
            (List.length (DottedGeometry.Segment.shape segment) - 1 <=
               List.length (DottedGeometry.Segment.rotations segment))%nat /\
            (List.length (DottedGeometry.Segment.shape segment) - 1 <=
               List.length (DottedGeometry.Segment.lengths segment))%nat) segments.
Proof.
  apply List.Forall_impl. intros segment [Hrot Hlen]. lia.
Qed.

(** X14.  Drawing a dotted geometry whose caches hold an entry for every
    pair of neighbouring points does not throw.  It makes two calls per
    dash, a colour and a box line; all box lines have the custom width
    when that is positive and the width of the geometry otherwise, and the
    offset 0.  For a contour type with a colour pair the colours
    alternate from dash to dash across the segments, beginning with the
    colour the object was about to give, and the flag ends flipped once
    per dash.  For any other type every dash is black and the colour
    object is unchanged. *)
Theorem drawDottedGeometry_dashes `{RGBColor.Ops} (d : DottedGeometry.t)
    (c : DottedGeometryColor.t) (type : DottedContourType.t) (customWidth : R) :
  Forall (fun segment =>
            (List.length (DottedGeometry.Segment.shape segment) - 1 <=
               List.length (DottedGeometry.Segment.rotations segment))%nat /\
            (List.length (DottedGeometry.Segment.shape segment) - 1 <=
               List.length (DottedGeometry.Segment.lengths segment))%nat)
         (DottedGeometry.myDottedGeometrySegments d) ->
  let width :=
    if Rgt_dec customWidth 0 then customWidth else DottedGeometry.myWidth d in
  exists calls after,
    Dotted.drawDottedGeometry d c type customWidth = Some (calls, after) /\
    List.length calls = (2 * dashCount d)%nat /\
    Forall (dashCall width) calls /\
    (forall first second,
       contourColors (DottedGeometryColor.mySettings c) type = Some (first, second) ->
       dashColors calls =
         map (fun k => if xorb (DottedGeometryColor.myColorFlag c) (Nat.odd k)
                       then first else second)
             (seq 0 (dashCount d)) /\
       after = DottedGeometryColor.mk (DottedGeometryColor.mySettings c)
                 (xorb (DottedGeometryColor.myColorFlag c) (Nat.odd (dashCount d)))) /\
    (forall value, type = DottedContourType.OTHER value ->
       dashColors calls = repeat RGBColor.BLACK (dashCount d) /\ after = c).
Proof.
  intros Hfit. cbv zeta.
  destruct (drawSegments_dashes c type
              (if Rgt_dec customWidth 0 then customWidth else DottedGeometry.myWidth d)
              (DottedGeometry.myDottedGeometrySegments d) 0 [] c Hfit
              (dashesDrawn_start c type _))
    as (calls & after & Hdraw & Hafter & Hcount & Hcolors & Hcalls).
  exists calls, after. cbn [Nat.add] in *. fold (dashCount d) in *.
  split; [exact Hdraw|]. split; [exact Hcount|]. split; [exact Hcalls|].
  split.
  - intros first second Hpair.
    assert (Hflips : flipsColor type = true).
    { destruct type; try reflexivity. discriminate Hpair. }
    split.
    + rewrite Hcolors. apply map_ext. intros k.
      unfold dashColorAt, colorAfterDashes. rewrite Hpair, Hflips.
      reflexivity.
    + rewrite Hafter. unfold colorAfterDashes. now rewrite Hflips.
  - intros value ->. split.
    + rewrite Hcolors. unfold dashColorAt. cbn [contourColors].
      rewrite List.map_const, length_seq. reflexivity.
    + rewrite Hafter. unfold colorAfterDashes. cbn [flipsColor andb].
      rewrite xorb_false_r. now destruct c.
Qed.

(** The dotted geometry of {(0,0),(0,10)} drawn for the inspected
    contour: one dash in the first colour. *)
Lemma drawDottedGeometry_dashes_witness :
  exists calls after,
    @Dotted.drawDottedGeometry plainColors
      (@DottedGeometry.fromShape plainPath plainSettings
         [Position.mk 0 0 0; Position.mk 0 10 0] false)
      (DottedGeometryColor.create plainSettings) DottedContourType.INSPECT (-1) =
      Some (calls, after) /\
    dashColors calls = [RGBColor.mk 235 235 235 255] /\
    DottedGeometryColor.myColorFlag after = false.
Proof.
  destruct (@drawDottedGeometry_dashes plainColors
              (@DottedGeometry.fromShape plainPath plainSettings
                 [Position.mk 0 0 0; Position.mk 0 10 0] false)
              (DottedGeometryColor.create plainSettings)
              DottedContourType.INSPECT (-1))
    as (calls & after & Hdraw & _ & _ & Hpair & _).
  - repeat constructor.
  - exists calls, after. split; [exact Hdraw|].
    destruct (Hpair (RGBColor.mk 235 235 235 255) (RGBColor.mk 20 20 20 255) eq_refl)
      as [Hcolors Hafter].
    split; [exact Hcolors | now rewrite Hafter].
Defined.

(* ================================================================== *)
(** * The vertices of a circle                                         *)
(* ================================================================== *)

Lemma fold_push_map {A B : Type} (f : B -> A) (l : list B) (init : list A) :
  fold_left (fun acc i => acc ++ [f i]) l init = init ++ map f l.
Proof.
  revert init. induction l as [|i l IH]; intros init; simpl.
  - now rewrite app_nil_r.
  - rewrite IH. now rewrite <- app_assoc.
Qed.

(** Entry [k] of the filled table is the point of the unit circle at
    [k] tenths of a degree. *)
Lemma circle_entry (k : nat) :
  (k < 3601)%nat ->
  PositionVector.at_ (fillCircleCoords []) k =
  Position.mk (sin (DEG2RAD (INR k / CIRCLE_RESOLUTION)))
              (cos (DEG2RAD (INR k / CIRCLE_RESOLUTION))) 0.
Proof.
  intros Hk. unfold fillCircleCoords. cbn [List.length Nat.eqb].
  rewrite (fold_push_map
    (fun i => Position.mk (sin (DEG2RAD (INR i / CIRCLE_RESOLUTION)))
                          (cos (DEG2RAD (INR i / CIRCLE_RESOLUTION))) 0)).
  cbn [app]. unfold PositionVector.at_.
  change (Z.to_nat (360 * 10) + 1)%nat with 3601%nat.
  now rewrite nth_map_seq.
Qed.

Lemma Int_part_of_angle (r : R) :
  0 <= r <= 3600.5 -> (0 <= Int_part r <= 3600)%Z.
Proof.
  intros [Hlo Hhi]. destruct (base_Int_part r) as [Hle Hgt]. split.
  - assert (H : (-1 < Int_part r)%Z) by (apply lt_IZR; lra). lia.
  - assert (H : (Int_part r < 3601)%Z) by (apply lt_IZR; lra). lia.
Qed.

(** The index of an angle between 0 and 360 degrees. *)
Lemma angleLookup_of_angle (angle : R) :
  0 <= angle <= 360 ->
  exists index : Z,
    angleLookup (fillCircleCoords []) angle = Some index /\
    index = (Int_part (angle * CIRCLE_RESOLUTION + 0.5) mod 3600)%Z /\
    (0 <= index < 3600)%Z.
Proof.
  intros Hangle.
  assert (Hpart : (0 <= Int_part (angle * CIRCLE_RESOLUTION + 0.5) <= 3600)%Z).
  { apply Int_part_of_angle. unfold CIRCLE_RESOLUTION. lra. }
  eexists. split; [|split; [reflexivity|]].
  - apply angleLookup_in_range.
    + exact (proj1 fillCircleCoords_length).
    + unfold INT_MIN, INT_MAX. lia.
  - apply Z.mod_pos_bound. lia.
Qed.

(** The vertex that round [i] of the loop adds. *)
Lemma pushVertex_on_circle (width inc : R) (i : nat)
    (vertexCircle : PositionVector.t) :
  0 <= INR i * inc <= 360 ->
  exists theta : R,
    pushVertex (fillCircleCoords []) width inc (Some vertexCircle) i =
    Some (vertexCircle ++ [Position.mk (sin theta * width) (cos theta * width) 0]) /\
    (INR i * inc = 0 \/ INR i * inc = 360 -> theta = 0).
Proof.
  intros Hangle.
  destruct (angleLookup_of_angle _ Hangle) as (index & Hlook & Hindex & Hrange).
  unfold pushVertex. rewrite Hlook.
  rewrite circle_entry by lia. cbn [Position.x Position.y].
  eexists. split; [reflexivity|].
  intros Hends.
  assert (Hzero : index = 0%Z).
  { rewrite Hindex. destruct Hends as [-> | ->].
    - replace (0 * CIRCLE_RESOLUTION + 0.5) with 0.5
        by (unfold CIRCLE_RESOLUTION; lra).
      replace (Int_part 0.5) with 0%Z; [reflexivity|].
      apply Int_part_spec. lra.
    - replace (360 * CIRCLE_RESOLUTION + 0.5) with 3600.5
        by (unfold CIRCLE_RESOLUTION; lra).
      replace (Int_part 3600.5) with 3600%Z; [reflexivity|].
      apply Int_part_spec. lra. }
  rewrite Hzero. unfold DEG2RAD, CIRCLE_RESOLUTION.
  change (INR (Z.to_nat 0)) with 0. unfold Rdiv. ring.
Qed.


(** The loop "obtain all vertices" over angles between 0 and 360
    degrees: one point of the circle of radius [width] per round. *)
Lemma vertices_fold (width inc : R) (l : list nat) (vertexCircle : PositionVector.t) :
  (forall i, In i l -> 0 <= INR i * inc <= 360) ->
  exists thetas : list R,
    fold_left (pushVertex (fillCircleCoords []) width inc) l (Some vertexCircle) =
    Some (vertexCircle ++
            map (fun theta => Position.mk (sin theta * width) (cos theta * width) 0)
                thetas) /\
    List.Forall2 (fun i theta => INR i * inc = 0 \/ INR i * inc = 360 -> theta = 0)
                 l thetas.
Proof.
  revert vertexCircle. induction l as [|i l IH]; intros vertexCircle Hangles.
  - exists []. cbn. rewrite app_nil_r. split; [reflexivity | constructor].
  - destruct (pushVertex_on_circle width inc i vertexCircle) as (theta & Hpush & Hends).
    { apply Hangles. now left. }
    destruct (IH (vertexCircle ++
                    [Position.mk (sin theta * width) (cos theta * width) 0]))
      as (thetas & Hfold & Hall).
    { intros j Hj. apply Hangles. now right. }
    exists (theta :: thetas). split.
    + cbn [map]. rewrite <- app_assoc in Hfold. cbn [app] in Hfold.
      rewrite <- Hfold. cbn [fold_left]. now rewrite Hpush.
    + now constructor.
Qed.

(** The call for at least one step, from an empty or a filled table:
    one vertex per angle [i * 360 / steps]. *)
Lemma vertices_circle_thetas (myCircleCoords : PositionVector.t)
    (pos : Position.t) (width : R) (steps : Z) :
  myCircleCoords = [] \/ myCircleCoords = fillCircleCoords [] ->
  (1 <= steps)%Z ->
  exists thetas : list R,
    getVertexCircleAroundPosition myCircleCoords pos width steps =
      (fillCircleCoords [],
       Some (map (fun theta =>
                    Position.mk (sin theta * width + Position.x pos)
                                (cos theta * width + Position.y pos)
                                (0 + Position.z pos)) thetas)) /\
    List.Forall2
      (fun i theta => INR i * (360 / IZR steps) = 0 \/
                      INR i * (360 / IZR steps) = 360 -> theta = 0)
      (seq 0 (Z.to_nat steps + 1)) thetas.
Proof.
  intros Htable Hsteps.
  assert (Hfill : fillCircleCoords myCircleCoords = fillCircleCoords []).
  { destruct Htable as [-> | ->]; [reflexivity|].
    exact (proj2 fillCircleCoords_length). }
  assert (Hpos : 0 < IZR steps) by (apply IZR_lt; lia).
  set (n := Z.to_nat steps).
  assert (Hn : IZR steps = INR n).
  { unfold n. rewrite INR_IZR_INZ. f_equal. lia. }
  assert (Hinv : 0 < / INR n) by (rewrite <- Hn; now apply Rinv_0_lt_compat).
  assert (Hone : INR n * / INR n = 1) by (apply Rinv_r; rewrite <- Hn; lra).
  assert (Hangles : forall i, In i (seq 0 (n + 1)) ->
                      0 <= INR i * (360 / IZR steps) <= 360).
  { intros i Hi. apply in_seq in Hi.
    assert (Hi0 : 0 <= INR i) by apply pos_INR.
    assert (Hin : INR i <= INR n) by (apply le_INR; lia).
    rewrite Hn. unfold Rdiv. split; nra. }
  destruct (vertices_fold width (360 / IZR steps) (seq 0 (n + 1)) [] Hangles)
    as (thetas & Hfold & Hall).
  cbn [app] in Hfold.
  unfold getVertexCircleAroundPosition. cbv zeta. rewrite Hfill.
  destruct (Z.eqb_spec steps 0) as [Hzero|_]; [lia|].
  replace (Z.to_nat (steps + 1)) with (n + 1)%nat by (unfold n; lia).
  unfold PositionVector.t in *. rewrite Hfold. unfold addPosition. rewrite map_map.
  cbn [Position.x Position.y Position.z].
  exists thetas. split; [reflexivity | exact Hall].
Qed.



(* ================================================================== *)
(** * Dotted contours of closed shapes and circles                     *)
(* ================================================================== *)

Lemma fromShape_segments_fit `{PositionVector.Ops}
    (s : GUIVisualizationSettings.t) (shape : PositionVector.t) (closeShape : bool) :
  DottedGeometry.myWidth (DottedGeometry.fromShape s shape closeShape) =
    GUIVisualizationSettings.segmentWidth
      (GUIVisualizationSettings.dottedContourSettings s) /\
  Forall segmentCachesFit
    (DottedGeometry.myDottedGeometrySegments
       (DottedGeometry.fromShape s shape closeShape)).
Proof.
  unfold DottedGeometry.fromShape.
  set (path := if closeShape && (2 <? List.length shape)%nat
               then PositionVector.closePolygon shape else shape).
  destruct (1 <? List.length path)%nat.
  - unfold DottedGeometry.calculateShapeRotationsAndLengths.
    cbn [DottedGeometry.myWidth DottedGeometry.myDottedGeometrySegments app].
    split; [reflexivity|].
    rewrite map_map. apply List.Forall_map, List.Forall_forall.
    intros segment Hin. unfold DottedGeometry.pairSegments in Hin.
    apply in_map_iff in Hin. destruct Hin as (i & <- & _).
    apply (resampled_segment_fits (DottedGeometry.calculateSegmentLength s path)
             [PositionVector.at_ path (i - 1); PositionVector.at_ path i] (-1)%Z).
  - split; [reflexivity | constructor].
Qed.

(** X16.  The dotted contour of a closed shape draws nothing for an
    exaggeration that is not positive.  Otherwise it never throws: it
    pushes the matrix, moves to the layer of the inspected contour
    whatever the type, draws the dashes of the closed and scaled shape in
    one width, the colours in turn from the first colour of the type, and
    pops the matrix. *)
Theorem closed_contour_calls `{PositionVector.Ops} `{RGBColor.Ops} `{DrawOps}
    (type : DottedContourType.t) (s : GUIVisualizationSettings.t)
    (shape : PositionVector.t) (exaggeration lineWidth : R) :
  let dottedGeometry :=
    DottedGeometry.fromShape s (PositionVector.scaleRelative shape exaggeration) true in
  let width :=
    if Rgt_dec lineWidth 0 then lineWidth
    else GUIVisualizationSettings.segmentWidth
           (GUIVisualizationSettings.dottedContourSettings s) in
  (exaggeration <= 0 ->
     drawDottedContourClosedShape type s shape exaggeration lineWidth = Some []) /\
  (exaggeration > 0 ->
     exists dashes : list GLHelper.call,
       drawDottedContourClosedShape type s shape exaggeration lineWidth =
         Some ([GLHelper.pushMatrix;
                GLHelper.glTranslated 0 0 GLO_DOTTEDCONTOUR_INSPECTED] ++
               dashes ++ [GLHelper.popMatrix]) /\
       List.length dashes = (2 * dashCount dottedGeometry)%nat /\
       Forall (dashCall width) dashes /\
       dashColors dashes =
         map (dashColorAt (DottedGeometryColor.create s) type)
             (seq 0 (dashCount dottedGeometry))).
Proof.
  cbv zeta. unfold drawDottedContourClosedShape. split; intros Hex.
  - destruct (Rgt_dec exaggeration 0); [lra | reflexivity].
  - destruct (Rgt_dec exaggeration 0) as [_|Hn]; [|lra].
    destruct (fromShape_segments_fit s
                (PositionVector.scaleRelative shape exaggeration) true)
      as [Hwidth Hfit].
    apply fitting_caches_suffice in Hfit.
    destruct (drawSegments_dashes (DottedGeometryColor.create s) type
                (if Rgt_dec lineWidth 0 then lineWidth
                 else DottedGeometry.myWidth
                        (DottedGeometry.fromShape s
                           (PositionVector.scaleRelative shape exaggeration) true))
                _ 0 [] (DottedGeometryColor.create s) Hfit
                (dashesDrawn_start _ type _))
      as (dashes & after & Hdraw & _ & Hcount & Hcolors & Hcalls).
    unfold Dotted.drawDottedGeometry. rewrite Hdraw.
    exists dashes. rewrite Hwidth in Hcalls.
    split; [now destruct type|].
    split; [exact Hcount|]. split; [exact Hcalls | exact Hcolors].
Qed.

(** The closed contour of a triangle, exaggeration 1. *)
Lemma closed_contour_calls_witness :
  exists dashes : list GLHelper.call,
    @drawDottedContourClosedShape plainPath plainColors plainDraw
      DottedContourType.INSPECT plainSettings
      [Position.mk 0 0 0; Position.mk 0 10 0; Position.mk 10 0 0] 1 (-1) =
    Some ([GLHelper.pushMatrix; GLHelper.glTranslated 0 0 200] ++
          dashes ++ [GLHelper.popMatrix]) /\
    List.length dashes = 6%nat.
Proof.
  destruct (proj2 (@closed_contour_calls plainPath plainColors plainDraw
                     DottedContourType.INSPECT plainSettings
                     [Position.mk 0 0 0; Position.mk 0 10 0; Position.mk 10 0 0]
                     1 (-1)))
    as (dashes & Hcall & Hcount & _).
  - lra.
  - exists dashes. split; [exact Hcall | exact Hcount].
Defined.

(** The dotted contour of a closed shape always has its calls. *)
Lemma closedShape_total `{PositionVector.Ops} `{RGBColor.Ops} `{DrawOps}
    (type : DottedContourType.t) (s : GUIVisualizationSettings.t)
    (shape : PositionVector.t) (exaggeration lineWidth : R) :
  exists calls : list GLHelper.call,
    drawDottedContourClosedShape type s shape exaggeration lineWidth = Some calls /\
    (exaggeration <= 0 -> calls = []).
Proof.
  unfold drawDottedContourClosedShape.
  destruct (Rgt_dec exaggeration 0) as [Hpos|Hnpos].
  - destruct (fromShape_segments_fit s
                (PositionVector.scaleRelative shape exaggeration) true)
      as [_ Hfit].
    apply fitting_caches_suffice in Hfit.
    destruct (drawSegments_dashes (DottedGeometryColor.create s) type
                (if Rgt_dec lineWidth 0 then lineWidth
                 else DottedGeometry.myWidth
                        (DottedGeometry.fromShape s
                           (PositionVector.scaleRelative shape exaggeration) true))
                _ 0 [] (DottedGeometryColor.create s) Hfit
                (dashesDrawn_start _ type _))
      as (dashes & after & Hdraw & _).
    unfold Dotted.drawDottedGeometry. rewrite Hdraw.
    eexists. split; [reflexivity|]. intros Hle. lra.
  - exists []. split; [reflexivity | reflexivity].
Qed.

(** X17.  The dotted contour of a circle, from an empty or a filled
    table, never throws and leaves the table filled: the circle is the
    closed polygon of 8 steps when radius times exaggeration is below 2
    and of 16 steps otherwise, drawn as a closed shape with the default
    line width. *)
Theorem circle_contour_calls `{PositionVector.Ops} `{RGBColor.Ops} `{DrawOps}
    (myCircleCoords : PositionVector.t) (type : DottedContourType.t)
    (s : GUIVisualizationSettings.t) (pos : Position.t) (radius exaggeration : R) :
  myCircleCoords = [] \/ myCircleCoords = fillCircleCoords [] ->
  exists (vertices : PositionVector.t) (calls : list GLHelper.call),
    drawDottedContourCircle myCircleCoords type s pos radius exaggeration =
      (fillCircleCoords [], Some calls) /\
    drawDottedContourClosedShape type s vertices exaggeration defaultLineWidth =
      Some calls /\
    getVertexCircleAroundPosition myCircleCoords pos radius
      (if Rlt_dec (radius * exaggeration) 2 then 8%Z else 16%Z) =
      (fillCircleCoords [], Some vertices) /\
    List.length vertices =
      (if Rlt_dec (radius * exaggeration) 2 then 9%nat else 17%nat) /\
    (exaggeration <= 0 -> calls = []).
Proof.
  intros Htable.
  assert (Hcircle : forall steps, (1 <= steps)%Z ->
            exists vertices,
              getVertexCircleAroundPosition myCircleCoords pos radius steps =
                (fillCircleCoords [], Some vertices) /\
              List.length vertices = (Z.to_nat steps + 1)%nat).
  { intros steps Hsteps.
    destruct (vertices_circle_thetas myCircleCoords pos radius steps Htable Hsteps)
      as (thetas & Hcall & Hall).
    eexists. split; [exact Hcall|].
    now rewrite length_map, <- (List.Forall2_length Hall), length_seq. }
  unfold drawDottedContourCircle.
  destruct (Rlt_dec (radius * exaggeration) 2) as [Hsmall|Hbig].
  - destruct (Hcircle 8%Z ltac:(lia)) as (vertices & Hcall & Hlen).
    rewrite Hcall.
    destruct (closedShape_total type s vertices exaggeration defaultLineWidth)
      as (calls & Hdraw & Hnone).
    exists vertices, calls. rewrite Hdraw. repeat split; assumption.
  - destruct (Hcircle 16%Z ltac:(lia)) as (vertices & Hcall & Hlen).
    rewrite Hcall.
    destruct (closedShape_total type s vertices exaggeration defaultLineWidth)
      as (calls & Hdraw & Hnone).
    exists vertices, calls. rewrite Hdraw. repeat split; assumption.
Qed.

(** A circle of radius 1 at the origin, exaggeration 1, from the empty
    table: 8 steps. *)
Lemma circle_contour_calls_witness :
  exists (vertices : PositionVector.t) (calls : list GLHelper.call),
    @drawDottedContourCircle plainPath plainColors plainDraw []
      DottedContourType.INSPECT plainSettings (Position.mk 0 0 0) 1 1 =
      (fillCircleCoords [], Some calls) /\
    List.length vertices = (if Rlt_dec (1 * 1) 2 then 9%nat else 17%nat).
Proof.
  destruct (@circle_contour_calls plainPath plainColors plainDraw []
              DottedContourType.INSPECT plainSettings (Position.mk 0 0 0) 1 1)
    as (vertices & calls & Hcall & _ & _ & Hlen & _).
  - now left.
  - exists vertices, calls. split; [exact Hcall | exact Hlen].
Defined.

(* ================================================================== *)
(** * Lane2laneConnection: the stored geometries                       *)
(* ================================================================== *)

Section Lane2laneLookup.
Context `{Network}.

(** The entries after the inner loop over the lanes of one edge. *)
Lemma fold_updateEntry_lookup (fromLane : GNELane) (lanes : list GNELane)
    (m : gmap GNELane Geometry.t) (k : GNELane) :
  (In k lanes ->
     fold_left (Lane2laneConnection.updateEntry fromLane) lanes m !! k =
     Some (Geometry.fromShape (Lane2laneConnection.connectionShape fromLane k))) /\
  (~ In k lanes ->
     fold_left (Lane2laneConnection.updateEntry fromLane) lanes m !! k = m !! k).
Proof.
  revert m. induction lanes as [|lane lanes IH]; intros m.
  - split; [intros [] | reflexivity].
  - cbn [fold_left]. destruct (IH (Lane2laneConnection.updateEntry fromLane m lane))
      as [IHin IHout].
    destruct (in_dec Pos.eq_dec k lanes) as [Hin|Hnin].
    + split; [intros _; now apply IHin|].
      intros Hn. elim Hn. now right.
    + rewrite (IHout Hnin). unfold Lane2laneConnection.updateEntry. split.
      * intros [-> | Hin]; [|contradiction].
        now rewrite lookup_insert_eq.
      * intros Hn. apply lookup_insert_ne. intros ->. apply Hn. now left.
Qed.

(** The entries after the outer loop over the outgoing edges. *)
Lemma fold_edges_lookup (fromLane : GNELane) (edges : list GNEEdge)
    (m : gmap GNELane Geometry.t) (k : GNELane) :
  (In k (concat (map getLanes edges)) ->
     fold_left
       (fun m outgoingEdge =>
          fold_left (Lane2laneConnection.updateEntry fromLane)
                    (getLanes outgoingEdge) m)
       edges m !! k =
     Some (Geometry.fromShape (Lane2laneConnection.connectionShape fromLane k))) /\
  (~ In k (concat (map getLanes edges)) ->
     fold_left
       (fun m outgoingEdge =>
          fold_left (Lane2laneConnection.updateEntry fromLane)
                    (getLanes outgoingEdge) m)
       edges m !! k = m !! k).
Proof.
  revert m. induction edges as [|edge edges IH]; intros m.
  - split; [intros [] | reflexivity].
  - cbn [fold_left map concat].
    destruct (IH (fold_left (Lane2laneConnection.updateEntry fromLane)
                            (getLanes edge) m)) as [IHin IHout].
    destruct (fold_updateEntry_lookup fromLane (getLanes edge) m k) as [Hin1 Hout1].
    destruct (in_dec Pos.eq_dec k (concat (map getLanes edges))) as [Hin|Hnin].
    + split; [intros _; now apply IHin|].
      intros Hn. elim Hn. apply in_or_app. now right.
    + rewrite (IHout Hnin). split.
      * intros Hk. apply in_app_or in Hk. destruct Hk as [Hk|Hk]; [|contradiction].
        now apply Hin1.
      * intros Hn. apply Hout1. intros Hk. apply Hn, in_or_app. now left.
Qed.

End Lane2laneLookup.

(** X18.  After the update of a connection cache owned by a lane, the
    geometry stored for a lane of an outgoing edge is the geometry built
    from the shape computed for this pair of lanes, also when the lane is
    listed more than once; it satisfies the invariant of the caches; the
    lookup of any other lane finds nothing, where [std::map::at]
    throws. *)
Theorem lane2lane_stored_geometry `{Network}
    (c : Lane2laneConnection.t) (fromLane : GNELane) :
  Lane2laneConnection.myFromLane c = Some fromLane ->
  exists c',
    Lane2laneConnection.updateLane2laneConnection c = Some c' /\
    forall toLane,
      let lanes :=
        concat (map getLanes
                  (getGNEOutgoingEdges (getToJunction (getParentEdge fromLane)))) in
      (In toLane lanes ->
         Lane2laneConnection.getLane2laneGeometry c' toLane =
         Some (Geometry.fromShape
                 (Lane2laneConnection.connectionShape fromLane toLane))) /\
      (~ In toLane lanes ->
         Lane2laneConnection.getLane2laneGeometry c' toLane = None) /\
      (forall g, Lane2laneConnection.getLane2laneGeometry c' toLane = Some g ->
                 cacheInvariant g).
Proof.
  intros Hfrom.
  unfold Lane2laneConnection.updateLane2laneConnection. rewrite Hfrom.
  eexists. split; [reflexivity|].
  intros toLane. cbv zeta.
  unfold Lane2laneConnection.getLane2laneGeometry.
  cbn [Lane2laneConnection.myConnectionsMap].
  destruct (fold_edges_lookup fromLane
              (getGNEOutgoingEdges (getToJunction (getParentEdge fromLane)))
              ∅ toLane) as [Hin Hout].
  split; [exact Hin|]. split.
  - intros Hn. rewrite (Hout Hn). apply lookup_empty.
  - intros g Hg.
    destruct (in_dec Pos.eq_dec toLane
                (concat (map getLanes
                   (getGNEOutgoingEdges (getToJunction (getParentEdge fromLane))))))
      as [Hk|Hk].
    + rewrite (Hin Hk) in Hg. injection Hg as <-. apply calculate_invariant.
    + rewrite (Hout Hk), lookup_empty in Hg. discriminate.
Qed.

(** The cache of lane 11 in the small network: the geometry for lane 21
    and none for lane 11. *)
Lemma lane2lane_stored_geometry_witness :
  exists c',
    @Lane2laneConnection.updateLane2laneConnection plainPath smallNetwork
      (Lane2laneConnection.create 11%positive) = Some c' /\
    Lane2laneConnection.getLane2laneGeometry c' 21%positive =
      Some (Geometry.fromShape
              (@Lane2laneConnection.connectionShape plainPath smallNetwork
                 11%positive 21%positive)) /\
    Lane2laneConnection.getLane2laneGeometry c' 11%positive = None.
Proof.
  destruct (@lane2lane_stored_geometry plainPath smallNetwork
              (Lane2laneConnection.create 11%positive) 11%positive eq_refl)
    as (c' & Hupd & Hlook).
  exists c'. split; [exact Hupd|]. split.
  - apply (proj1 (Hlook 21%positive)). vm_compute. tauto.
  - apply (proj1 (proj2 (Hlook 11%positive))). vm_compute.
    intros [He|[He|[]]]; discriminate.
Defined.

(** X19.  When the edge of the owning lane has more than 10 lanes, or
    the shape of its destination node has an area of at most 4, the
    connection to a lane is the straight line from the last point of the
    owning lane to the first point of that lane: two points, one rotation
    and one length. *)
Theorem straight_connection `{Network} (fromLane outgoingLane : GNELane) :
  let NBEdgeFrom := getNBEdge (getParentEdge fromLane) in
  (10 < getNumLanes NBEdgeFrom)%Z \/
  PositionVector.area (getShape (getToNode NBEdgeFrom)) <= 4 ->
  let first := List.last (getLaneShape fromLane) Position.origin in
  let second := List.hd Position.origin (getLaneShape outgoingLane) in
  Lane2laneConnection.connectionShape fromLane outgoingLane = [first; second] /\
  Geometry.fromShape (Lane2laneConnection.connectionShape fromLane outgoingLane) =
    Geometry.mk [first; second] [calculateRotation first second]
                [calculateLength first second].
Proof.
  cbv zeta. intros Hcase.
  assert (Hshape : Lane2laneConnection.connectionShape fromLane outgoingLane =
                   [List.last (getLaneShape fromLane) Position.origin;
                    List.hd Position.origin (getLaneShape outgoingLane)]).
  { unfold Lane2laneConnection.connectionShape.
    destruct Hcase as [Hlanes|Harea].
    - destruct (Z.leb_spec (getNumLanes (getNBEdge (getParentEdge fromLane))) 10);
        [lia | reflexivity].
    - destruct (Rgt_dec _ 4) as [Hgt|_]; [lra|]. now rewrite andb_false_r. }
  split; [exact Hshape|].
  rewrite Hshape. unfold Geometry.fromShape. rewrite calculate_closed_form.
  reflexivity.
Qed.

(** In the small network the node shape is empty, of area 0. *)
Lemma straight_connection_witness :
  @Lane2laneConnection.connectionShape plainPath smallNetwork 11%positive 21%positive =
  [Position.mk 0 10 0; Position.mk 0 0 0].
Proof.
  apply (@straight_connection plainPath smallNetwork 11%positive 21%positive).
  right. cbn [PositionVector.area plainPath]. lra.
Defined.

(* ================================================================== *)
(** * The lines between parents and children                           *)
(* ================================================================== *)

(** X20.  [drawParentLine] makes no call in the two selection modes.
    Otherwise its calls begin with the one push and end with the one pop
    of the matrix.  When the whole line is asked for, it draws two box
    lines as long as the distance between the two points and no arrow;
    else it draws nothing up to a squared distance of 25, two box lines
    of length 5 above 25, and two arrow triangles besides above 100. *)
Theorem parent_line_calls `{RGBColor.Ops} `{DrawOps}
    (s : LineSettings) (parent child : Position.t) (color : RGBColor.t)
    (drawEntire : bool) :
  let distanceSquared := distanceSquaredTo2D parent child in
  let calls := drawParentLine s parent child color drawEntire in
  (drawForPositionSelection s = true \/ drawForRectangleSelection s = true ->
     calls = []) /\
  (drawForPositionSelection s = false -> drawForRectangleSelection s = false ->
     List.hd GLHelper.popMatrix calls = GLHelper.pushMatrix /\
     List.last calls GLHelper.pushMatrix = GLHelper.popMatrix /\
     matrixCalls calls = [GLHelper.pushMatrix; GLHelper.popMatrix] /\
     (drawEntire = true ->
        boxLineLengths calls = [sqrt distanceSquared; sqrt distanceSquared] /\
        triangleCount calls = 0%nat) /\
     (drawEntire = false -> distanceSquared <= 25 ->
        boxLineLengths calls = [] /\ triangleCount calls = 0%nat) /\
     (drawEntire = false -> 25 < distanceSquared ->
        boxLineLengths calls = [5; 5] /\
        (distanceSquared <= 100 -> triangleCount calls = 0%nat) /\
        (100 < distanceSquared -> triangleCount calls = 2%nat))).
Proof.
  cbv zeta. unfold drawParentLine. split.
  - intros [-> | ->]; [reflexivity|]. now rewrite andb_false_r.
  - intros -> ->. cbn [negb andb].
    destruct drawEntire.
    + repeat split; try reflexivity; intros; discriminate.
    + destruct (Rgt_dec (distanceSquaredTo2D parent child) 25) as [H25|H25];
        [destruct (Rgt_dec (distanceSquaredTo2D parent child) 100) as [H100|H100]|];
        repeat split; try reflexivity; intros; try discriminate; lra.
Qed.

(** Parent and child 20 apart: the short line and the arrow. *)
Lemma parent_line_calls_witness :
  let calls :=
    @drawParentLine plainColors plainDraw plainLines
      (Position.mk 0 0 0) (Position.mk 0 20 0) (RGBColor.mk 0 0 255 255) false in
  boxLineLengths calls = [5; 5] /\ triangleCount calls = 2%nat.
Proof.
  cbv zeta.
  destruct (proj2 (@parent_line_calls plainColors plainDraw plainLines
                     (Position.mk 0 0 0) (Position.mk 0 20 0)
                     (RGBColor.mk 0 0 255 255) false) eq_refl eq_refl)
    as (_ & _ & _ & _ & _ & Hfar).
  destruct (Hfar eq_refl) as (Hlines & _ & Harrow).
  - cbn [distanceSquaredTo2D plainDraw Position.x Position.y]. lra.
  - split; [exact Hlines|]. apply Harrow.
    cbn [distanceSquaredTo2D plainDraw Position.x Position.y]. lra.
Defined.

(** X21.  [drawChildLine] makes no call in the two selection modes.
    Otherwise its calls begin with the one push and end with the one pop
    of the matrix, and it always draws two box lines: as long as the
    distance between the two points when the whole line is asked for or
    the squared distance is below 25, and of length 5 from 25 on, with
    two arrow triangles besides above 100. *)
Theorem child_line_calls `{RGBColor.Ops} `{DrawOps}
    (s : LineSettings) (child parent : Position.t) (color : RGBColor.t)
    (drawEntire : bool) :
  let distanceSquared := distanceSquaredTo2D child parent in
  let calls := drawChildLine s child parent color drawEntire in
  (drawForPositionSelection s = true \/ drawForRectangleSelection s = true ->
     calls = []) /\
  (drawForPositionSelection s = false -> drawForRectangleSelection s = false ->
     List.hd GLHelper.popMatrix calls = GLHelper.pushMatrix /\
     List.last calls GLHelper.pushMatrix = GLHelper.popMatrix /\
     matrixCalls calls = [GLHelper.pushMatrix; GLHelper.popMatrix] /\
     List.length (boxLineLengths calls) = 2%nat /\
     (drawEntire = true \/ distanceSquared < 25 ->
        boxLineLengths calls = [sqrt distanceSquared; sqrt distanceSquared] /\
        triangleCount calls = 0%nat) /\
     (drawEntire = false -> 25 <= distanceSquared ->
        boxLineLengths calls = [5; 5] /\
        (distanceSquared <= 100 -> triangleCount calls = 0%nat) /\
        (100 < distanceSquared -> triangleCount calls = 2%nat))).
Proof.
  cbv zeta. unfold drawChildLine. split.
  - intros [-> | ->]; [reflexivity|]. now rewrite andb_false_r.
  - intros -> ->. cbn [negb andb].
    destruct drawEntire; cbn [orb].
    + repeat split; try reflexivity; intros; discriminate.
    + destruct (Rlt_dec (distanceSquaredTo2D child parent) 25) as [H25|H25];
        [|destruct (Rgt_dec (distanceSquaredTo2D child parent) 100) as [H100|H100]];
        repeat split; try reflexivity; intros;
        try discriminate;
        try match goal with Hc : _ \/ _ |- _ => destruct Hc; [discriminate|] end;
        lra.
Qed.

(** Child and parent 5 apart: the short line without arrow. *)
Lemma child_line_calls_witness :
  let calls :=
    @drawChildLine plainColors plainDraw plainLines
      (Position.mk 0 0 0) (Position.mk 0 5 0) (RGBColor.mk 0 0 255 255) false in
  boxLineLengths calls = [5; 5] /\ triangleCount calls = 0%nat.
Proof.
  cbv zeta.
  destruct (proj2 (@child_line_calls plainColors plainDraw plainLines
                     (Position.mk 0 0 0) (Position.mk 0 5 0)
                     (RGBColor.mk 0 0 255 255) false) eq_refl eq_refl)
    as (_ & _ & _ & _ & _ & Hfar).
  destruct (Hfar eq_refl) as (Hlines & Hnone & _).
  - cbn [distanceSquaredTo2D plainDraw Position.x Position.y]. lra.
  - split; [exact Hlines|]. apply Hnone.
    cbn [distanceSquaredTo2D plainDraw Position.x Position.y]. lra.
Defined.

(* ================================================================== *)
(** * The dotted contour around a shape                                *)
(* ================================================================== *)

Lemma fromExtremes_fit `{PositionVector.Ops}
    (s : GUIVisualizationSettings.t) (top bot : DottedGeometry.t)
    (drawFirstExtrem drawLastExtrem : bool) :
  Forall segmentCachesFit
    (DottedGeometry.myDottedGeometrySegments
       (Dotted.fromExtremes s top drawFirstExtrem bot drawLastExtrem)).
Proof.
  unfold Dotted.fromExtremes.
  set (both := (0 <? List.length (DottedGeometry.myDottedGeometrySegments top))%nat &&
               (0 <? List.length (DottedGeometry.myDottedGeometrySegments bot))%nat).
  set (first := drawFirstExtrem && _ && _).
  set (last := drawLastExtrem && _ && _).
  unfold DottedGeometry.calculateShapeRotationsAndLengths.
  cbn [DottedGeometry.myWidth DottedGeometry.myDottedGeometrySegments].
  destruct both; [|constructor].
  destruct first, last; cbn [app map List.removelast List.last];
    rewrite ?segment_calculate_closed_form;
    cbn [DottedGeometry.resampleSegment DottedGeometry.Segment.create
         Dotted.invertSegment DottedGeometry.Segment.shape
         DottedGeometry.Segment.rotations DottedGeometry.Segment.lengths
         DottedGeometry.Segment.offset map app];
    repeat constructor;
    cbn [DottedGeometry.Segment.shape DottedGeometry.Segment.rotations
         DottedGeometry.Segment.lengths];
    now rewrite length_map, length_seq.
Qed.

(** Segments keep fitting caches under a move to the side that keeps the
    number of points, and under the inversion of the offsets. *)
Lemma moved_segments_fit `{PositionVector.Ops} (d : DottedGeometry.t) (value : R) :
  (forall shape v,
     List.length (PositionVector.move2side shape v) = List.length shape) ->
  Forall segmentCachesFit (DottedGeometry.myDottedGeometrySegments d) ->
  Forall segmentCachesFit
    (DottedGeometry.myDottedGeometrySegments (Dotted.moveShapeToSide d value)) /\
  Forall segmentCachesFit
    (DottedGeometry.myDottedGeometrySegments
       (Dotted.invertOffset (Dotted.moveShapeToSide d value))) /\
  dashCount (Dotted.moveShapeToSide d value) = dashCount d /\
  dashCount (Dotted.invertOffset (Dotted.moveShapeToSide d value)) = dashCount d.
Proof.
  intros Hsize Hfit. unfold dashCount, Dotted.invertOffset, Dotted.moveShapeToSide.
  cbn [DottedGeometry.myWidth DottedGeometry.myDottedGeometrySegments].
  rewrite !map_map.
  cbn [Dotted.invertSegment DottedGeometry.Segment.shape
       DottedGeometry.Segment.rotations DottedGeometry.Segment.lengths
       DottedGeometry.Segment.offset].
  assert (Hmoved : forall segment, segmentCachesFit segment ->
            segmentCachesFit
              (DottedGeometry.Segment.mk
                 (PositionVector.move2side (DottedGeometry.Segment.shape segment) value)
                 (DottedGeometry.Segment.rotations segment)
                 (DottedGeometry.Segment.lengths segment)
                 (DottedGeometry.Segment.offset segment))).
  { intros segment [Hrot Hlen]. unfold segmentCachesFit.
    cbn [DottedGeometry.Segment.shape DottedGeometry.Segment.rotations
         DottedGeometry.Segment.lengths].
    now rewrite Hsize. }
  assert (Hcount :
    map (fun x => (List.length
                     (PositionVector.move2side (DottedGeometry.Segment.shape x) value)
                   - 1)%nat) (DottedGeometry.myDottedGeometrySegments d) =
    map (fun x => (List.length (DottedGeometry.Segment.shape x) - 1)%nat)
        (DottedGeometry.myDottedGeometrySegments d)).
  { apply map_ext. intros segment. now rewrite Hsize. }
  split; [|split; [|split]].
  - apply List.Forall_map. revert Hfit. apply List.Forall_impl. exact Hmoved.
  - apply List.Forall_map. revert Hfit. apply List.Forall_impl.
    intros segment Hseg. destruct (Hmoved segment Hseg) as [Hrot Hlen].
    split; assumption.
  - now rewrite Hcount.
  - now rewrite Hcount.
Qed.

(** X22.  When the move to the side keeps the number of points of a
    shape, the dotted contour around a shape never throws.  Between the
    push and the pop of the matrix it moves to the layer of its type and
    draws the top run, the bottom run and the extremes; the two runs
    have the dashes of the centre line and set the same colours dash for
    dash, each beginning with the first colour of the type. *)
Theorem shape_contour_calls `{PositionVector.Ops} `{RGBColor.Ops} `{DrawOps}
    (type : DottedContourType.t) (s : GUIVisualizationSettings.t)
    (shape : PositionVector.t) (width exaggeration : R)
    (drawFirstExtrem drawLastExtrem : bool) (lineWidth : R) :
  (forall shape v,
     List.length (PositionVector.move2side shape v) = List.length shape) ->
  let centre := DottedGeometry.fromShape s shape false in
  let layer :=
    match type with
    | DottedContourType.FRONT => GLO_DOTTEDCONTOUR_FRONT
    | _ => GLO_DOTTEDCONTOUR_INSPECTED
    end in
  let joined :=
    Dotted.fromExtremes s
      (Dotted.invertOffset (Dotted.moveShapeToSide centre (width * exaggeration)))
      drawFirstExtrem
      (Dotted.moveShapeToSide centre (width * exaggeration * -1))
      drawLastExtrem in
  exists top bot extremes : list GLHelper.call,
    drawDottedContourShape type s shape width exaggeration
      drawFirstExtrem drawLastExtrem lineWidth =
      Some ([GLHelper.pushMatrix; GLHelper.glTranslated 0 0 layer] ++
            top ++ bot ++ extremes ++ [GLHelper.popMatrix]) /\
    List.length top = (2 * dashCount centre)%nat /\
    List.length bot = (2 * dashCount centre)%nat /\
    dashColors top = dashColors bot /\
    dashColors top =
      map (dashColorAt (DottedGeometryColor.create s) type)
          (seq 0 (dashCount centre)) /\
    List.length extremes = (2 * dashCount joined)%nat.
Proof.
  intros Hsize. cbv zeta.
  destruct (fromShape_segments_fit s shape false) as [_ Hcentre].
  set (centre := DottedGeometry.fromShape s shape false) in *.
  destruct (moved_segments_fit centre (width * exaggeration) Hsize Hcentre)
    as (_ & Htop & _ & HtopCount).
  destruct (moved_segments_fit centre (width * exaggeration * -1) Hsize Hcentre)
    as (Hbot & _ & HbotCount & _).
  set (topGeometry := Dotted.invertOffset
                        (Dotted.moveShapeToSide centre (width * exaggeration))) in *.
  set (botGeometry := Dotted.moveShapeToSide centre (width * exaggeration * -1)) in *.
  pose proof (fromExtremes_fit s topGeometry botGeometry drawFirstExtrem drawLastExtrem)
    as Hext.
  set (extremeGeometry := Dotted.fromExtremes s topGeometry drawFirstExtrem
                            botGeometry drawLastExtrem) in *.
  apply fitting_caches_suffice in Htop, Hbot, Hext.
  unfold drawDottedContourShape. fold centre. fold topGeometry. fold botGeometry.
  fold extremeGeometry.
  destruct (drawSegments_dashes (DottedGeometryColor.create s) type
              (if Rgt_dec lineWidth 0 then lineWidth
               else DottedGeometry.myWidth topGeometry)
              _ 0 [] (DottedGeometryColor.create s) Htop (dashesDrawn_start _ type _))
    as (top & afterTop & HdrawTop & HafterTop & HcountTop & HcolorsTop & _).
  destruct (drawSegments_dashes (DottedGeometryColor.create s) type
              (if Rgt_dec lineWidth 0 then lineWidth
               else DottedGeometry.myWidth botGeometry)
              _ 0 [] (DottedGeometryColor.create s) Hbot (dashesDrawn_start _ type _))
    as (bot & afterBot & HdrawBot & HafterBot & HcountBot & HcolorsBot & _).
  destruct (drawSegments_dashes
              (DottedGeometryColor.changeColor afterBot) type
              (if Rgt_dec lineWidth 0 then lineWidth
               else DottedGeometry.myWidth extremeGeometry)
              _ 0 [] (DottedGeometryColor.changeColor afterBot) Hext
              (dashesDrawn_start _ type _))
    as (ext & afterExt & HdrawExt & _ & HcountExt & _).
  cbn [Nat.add] in *.
  fold (dashCount topGeometry) in *. fold (dashCount botGeometry) in *.
  unfold Dotted.drawDottedGeometry. rewrite HdrawTop.
  assert (Hreset : DottedGeometryColor.reset afterTop = DottedGeometryColor.create s).
  { rewrite HafterTop. reflexivity. }
  rewrite Hreset, HdrawBot, HdrawExt.
  exists top, bot, ext.
  split.
  { f_equal. destruct type; cbn [app]; now rewrite <- !app_assoc. }
  rewrite HtopCount in *. rewrite HbotCount in *.
  split; [exact HcountTop|]. split; [exact HcountBot|].
  split; [now rewrite HcolorsTop, HcolorsBot|].
  split; [exact HcolorsTop|].
  exact HcountExt.
Qed.

(** The contour around {(0,0),(0,10)}, half width 1, both extremes. *)
Lemma shape_contour_calls_witness :
  exists top bot extremes : list GLHelper.call,
    @drawDottedContourShape plainPath plainColors plainDraw
      DottedContourType.FRONT plainSettings
      [Position.mk 0 0 0; Position.mk 0 10 0] 1 1 true true (-1) =
      Some ([GLHelper.pushMatrix; GLHelper.glTranslated 0 0 201] ++
            top ++ bot ++ extremes ++ [GLHelper.popMatrix]) /\
    dashColors top = dashColors bot.
Proof.
  destruct (@shape_contour_calls plainPath plainColors plainDraw
              DottedContourType.FRONT plainSettings
              [Position.mk 0 0 0; Position.mk 0 10 0] 1 1 true true (-1))
    as (top & bot & extremes & Hcall & _ & _ & Hsame & _).
  - reflexivity.
  - exists top, bot, extremes. split; [exact Hcall | exact Hsame].
Defined.

(** X23.  Unlike the recomputation of a [Geometry], the recomputation
    of a dotted geometry clears nothing: it appends the fresh rotations
    and lengths to the ones each segment holds, so on a segment of at
    least two points whose caches fit, a further recomputation leaves
    caches that no longer fit. *)
Theorem dotted_recompute_appends (segment : DottedGeometry.Segment.t) :
  let again := DottedGeometry.Segment.calculateRotationsAndLengths segment in
  DottedGeometry.Segment.shape again = DottedGeometry.Segment.shape segment /\
  List.length (DottedGeometry.Segment.rotations again) =
    (List.length (DottedGeometry.Segment.rotations segment) +
     (List.length (DottedGeometry.Segment.shape segment) - 1))%nat /\
  List.length (DottedGeometry.Segment.lengths again) =
    (List.length (DottedGeometry.Segment.lengths segment) +
     (List.length (DottedGeometry.Segment.shape segment) - 1))%nat /\
  firstn (List.length (DottedGeometry.Segment.rotations segment))
         (DottedGeometry.Segment.rotations again) =
    DottedGeometry.Segment.rotations segment /\
  (segmentCachesFit segment ->
   (2 <= List.length (DottedGeometry.Segment.shape segment))%nat ->
   ~ segmentCachesFit again).
Proof.
  cbv zeta. rewrite segment_calculate_closed_form.
  cbn [DottedGeometry.Segment.shape DottedGeometry.Segment.rotations
       DottedGeometry.Segment.lengths].
  split; [reflexivity|].
  split; [now rewrite length_app, length_map, length_seq|].
  split; [now rewrite length_app, length_map, length_seq|].
  split.
  - rewrite firstn_app, Nat.sub_diag, firstn_all. cbn [firstn]. apply app_nil_r.
  - intros [Hrot Hlen] Htwo [Hrot' _].
    cbn [DottedGeometry.Segment.shape DottedGeometry.Segment.rotations] in Hrot'.
    rewrite length_app, length_map, length_seq in Hrot'. lia.
Qed.

(** The segment of {(0,0),(0,10)} after its first recomputation. *)
Lemma dotted_recompute_appends_witness :
  ~ segmentCachesFit
      (DottedGeometry.Segment.calculateRotationsAndLengths
         (DottedGeometry.Segment.calculateRotationsAndLengths
            (DottedGeometry.Segment.create [Position.mk 0 0 0; Position.mk 0 10 0]))).
Proof.
  apply (proj2 (proj2 (proj2 (proj2 (dotted_recompute_appends
           (DottedGeometry.Segment.calculateRotationsAndLengths
              (DottedGeometry.Segment.create
                 [Position.mk 0 0 0; Position.mk 0 10 0]))))))).
  - rewrite segment_calculate_closed_form. split; reflexivity.
  - rewrite segment_calculate_closed_form. cbn. lia.
Defined.
